(** * Verification of the MSM8960 CPU clock driver (acpuclock-8960.c)

    A shallow embedding of the frequency and voltage scaling driver of
    arch/arm/mach-msm/acpuclock-8960.c, and the properties of its
    transition engine, rail sequencer, L2 vote arbitration, hotplug
    callback and frequency-plan selection.

    Conventions of the embedding.
    - C integers are [Z]; [u32] and [s32] write out the conversions to
      [unsigned int] and [int] where the source converts or can wrap.
    - A pointer into a table is the index of the entry it points to; the
      null pointer is [None].  Pointer comparison is index comparison.
    - A table is a list that holds the sentinel entry (frequency zero) too;
      a loop [for (l = tbl; l->speed.khz != 0; l++)] reads the list up to
      the first entry of frequency zero (or to the end of the list).
    - The driver runs in a state monad over [state] with one failure
      [Fault], which stands for [BUG()], [BUG_ON()] and the dereference of
      a null or out-of-range pointer.
    - Calls to the regulator, RPM and bus-scaling services are recorded with
      their return code in [st_trace], oldest first; the return code is
      drawn from a [backend], a function of the calls made so far.
    - Locks, memory barriers, delays and log messages are not modelled:
      every function is run to completion by one caller at a time. *)

From Stdlib Require Import ZArith Lia.
From stdpp Require Import list strings.

Local Open Scope Z_scope.

(** ** Machine integers *)

(** Conversion to [unsigned int] / [uint32_t] / [unsigned long] (32 bits on
    this ARM target). *)
Definition u32 (z : Z) : Z := z mod 2 ^ 32.

(** Conversion to [int]. *)
Definition s32 (z : Z) : Z := (z + 2 ^ 31) mod 2 ^ 32 - 2 ^ 31.

(** [BIT(n)]. *)
Definition BIT (n : Z) : Z := Z.shiftl 1 n.

(** ** Constants of the driver *)

(** Source IDs. *)
Definition PLL_8 : Z := 0.
Definition HFPLL : Z := -1.
Definition QSB : Z := -2.

(** Mux source selects. *)
Definition PRI_SRC_SEL_SEC_SRC : Z := 0.
Definition PRI_SRC_SEL_HFPLL : Z := 1.
Definition PRI_SRC_SEL_HFPLL_DIV2 : Z := 2.
Definition SEC_SRC_SEL_QSB : Z := 0.
Definition SEC_SRC_SEL_AUX : Z := 2.

(** HFPLL register offsets. *)
Definition HFPLL_MODE : Z := 0x00.
Definition HFPLL_CONFIG_CTL : Z := 0x04.
Definition HFPLL_L_VAL : Z := 0x08.
Definition HFPLL_M_VAL : Z := 0x0C.
Definition HFPLL_N_VAL : Z := 0x10.
Definition HFPLL_DROOP_CTL : Z := 0x14.

(** CP15 L2 indirect addresses. *)
Definition L2CPMR_IADDR : Z := 0x500.
Definition L2CPUCPMR_IADDR : Z := 0x501.

Definition STBY_KHZ : Z := 1.
Definition HOT_UNPLUG_KHZ : Z := STBY_KHZ.

Definition MAX_VDD_SC : Z := 1350000.
Definition MIN_VDD_SC : Z := 400000.
Definition HFPLL_NOMINAL_VDD : Z := 1100000.
Definition HFPLL_LOW_VDD : Z := 800000.
Definition HFPLL_LOW_VDD_PLL_L_MAX : Z := 0x28.

Definition SECCLKAGD : Z := BIT 4.

(** [EINVAL] of linux/errno.h. *)
Definition EINVAL : Z := 22.

(** Footprint words, as byte offsets from [MSM_KERNEL_FOOTPRINT_BASE]. *)
Definition CPU_FOOT_PRINT_MAGIC : Z := 0xACBDFE00.

(** [enum scalables]: the indices of the [scalable] array. *)
Definition CPU0 : Z := 0.
Definition CPU1 : Z := 1.
Definition CPU2 : Z := 2.
Definition CPU3 : Z := 3.
Definition L2 : Z := 4.
Definition NUM_SCALABLES : Z := 5.

(** [enum vregs]: the indices of [scalable.vreg]. *)
Inductive vregs : Set :=
  | VREG_CORE
  | VREG_MEM
  | VREG_DIG
  | VREG_HFPLL_A
  | VREG_HFPLL_B.

#[global] Instance vregs_eq_dec : EqDecision vregs.
Proof. solve_decision. Defined.

(** [enum setrate_reason] is declared in acpuclock.h, which is not part of
    the sources at hand; these are the four values the driver names. *)
Inductive setrate_reason : Set :=
  | SETRATE_CPUFREQ
  | SETRATE_SWFI
  | SETRATE_PC
  | SETRATE_HOTPLUG.

#[global] Instance setrate_reason_eq_dec : EqDecision setrate_reason.
Proof. solve_decision. Defined.

(** ** Data model *)

Record core_speed : Set := CS {
  khz : Z;
  src : Z;
  pri_src_sel : Z;
  sec_src_sel : Z;
  pll_l_val : Z
}.

Record l2_level : Set := L2L {
  l2_speed : core_speed;
  vdd_dig : Z;
  vdd_mem : Z;
  bw_level : Z
}.

(** [acpu_l2_level] is the field [l2_level] of [struct acpu_level]: a
    pointer into [l2_freq_tbl]. *)
Record acpu_level : Set := AL {
  use_for_scaling : Z;
  speed : core_speed;
  acpu_l2_level : option nat;
  vdd_core : Z
}.

(** The macro [L2(x)], the address of entry [x] of the L2 table. *)
Definition L2_ (x : nat) : option nat := Some x.

Definition set_vdd_core (l : acpu_level) (v : Z) : acpu_level :=
  AL (use_for_scaling l) (speed l) (acpu_l2_level l) v.

Definition set_use_for_scaling (l : acpu_level) (u : Z) : acpu_level :=
  AL u (speed l) (acpu_l2_level l) (vdd_core l).

(** ** The frequency tables *)

Definition l2_freq_tbl_8960_kraitv2 : list l2_level :=
  [
    L2L (CS STBY_KHZ QSB 0 0 0x00) 1050000 1050000 0;
    L2L (CS 192000 PLL_8 0 2 0x00) 1050000 1050000 1;
    L2L (CS 384000 HFPLL 2 0 0x20) 1050000 1050000 2;
    L2L (CS 486000 HFPLL 2 0 0x24) 1050000 1050000 2;
    L2L (CS 540000 HFPLL 2 0 0x28) 1050000 1050000 2;
    L2L (CS 594000 HFPLL 1 0 0x16) 1050000 1050000 2;
    L2L (CS 648000 HFPLL 1 0 0x18) 1050000 1050000 4;
    L2L (CS 702000 HFPLL 1 0 0x1A) 1050000 1050000 4;
    L2L (CS 756000 HFPLL 1 0 0x1C) 1150000 1150000 4;
    L2L (CS 810000 HFPLL 1 0 0x1E) 1150000 1150000 4;
    L2L (CS 864000 HFPLL 1 0 0x20) 1150000 1150000 4;
    L2L (CS 918000 HFPLL 1 0 0x22) 1150000 1150000 6;
    L2L (CS 972000 HFPLL 1 0 0x24) 1150000 1150000 6;
    L2L (CS 1026000 HFPLL 1 0 0x26) 1150000 1150000 6;
    L2L (CS 1080000 HFPLL 1 0 0x28) 1150000 1150000 6;
    L2L (CS 1134000 HFPLL 1 0 0x2A) 1150000 1150000 6;
    L2L (CS 1188000 HFPLL 1 0 0x2C) 1150000 1150000 6;
    L2L (CS 1242000 HFPLL 1 0 0x2E) 1150000 1150000 6;
    L2L (CS 1350000 HFPLL 1 0 0x30) 1150000 1150000 6;
    L2L (CS 1458000 HFPLL 1 0 0x32) 1150000 1150000 6;
    L2L (CS 1512000 HFPLL 1 0 0x34) 1150000 1150000 7;
    L2L (CS 1674000 HFPLL 1 0 0x36) 1150000 1150000 7;
    L2L (CS 1728000 HFPLL 1 0 0x36) 1150000 1150000 7
  ].

Definition acpu_freq_tbl_8960_fusion_slow : list acpu_level :=
  [
    AL 0 (CS STBY_KHZ QSB 0 0 0x00) (L2_ 0) 850000;
    AL 1 (CS 192000 PLL_8 0 2 0x00) (L2_ 1) 900000;
    AL 1 (CS 384000 HFPLL 2 0 0x20) (L2_ 7) 900000;
    AL 1 (CS 486000 HFPLL 2 0 0x24) (L2_ 7) 950000;
    AL 0 (CS 540000 HFPLL 2 0 0x28) (L2_ 7) 1000000;
    AL 1 (CS 594000 HFPLL 1 0 0x16) (L2_ 7) 1000000;
    AL 0 (CS 648000 HFPLL 1 0 0x18) (L2_ 7) 1025000;
    AL 1 (CS 702000 HFPLL 1 0 0x1A) (L2_ 7) 1025000;
    AL 0 (CS 756000 HFPLL 1 0 0x1C) (L2_ 7) 1075000;
    AL 1 (CS 810000 HFPLL 1 0 0x1E) (L2_ 7) 1075000;
    AL 0 (CS 864000 HFPLL 1 0 0x20) (L2_ 7) 1100000;
    AL 1 (CS 918000 HFPLL 1 0 0x22) (L2_ 7) 1100000;
    AL 0 (CS 972000 HFPLL 1 0 0x24) (L2_ 7) 1125000;
    AL 1 (CS 1026000 HFPLL 1 0 0x26) (L2_ 7) 1125000;
    AL 0 (CS 1080000 HFPLL 1 0 0x28) (L2_ 16) 1175000;
    AL 1 (CS 1134000 HFPLL 1 0 0x2A) (L2_ 16) 1175000;
    AL 0 (CS 1188000 HFPLL 1 0 0x2C) (L2_ 16) 1200000;
    AL 1 (CS 1242000 HFPLL 1 0 0x2E) (L2_ 16) 1200000;
    AL 0 (CS 1296000 HFPLL 1 0 0x30) (L2_ 16) 1225000;
    AL 1 (CS 1350000 HFPLL 1 0 0x32) (L2_ 16) 1225000;
    AL 0 (CS 1404000 HFPLL 1 0 0x34) (L2_ 16) 1237500;
    AL 1 (CS 1458000 HFPLL 1 0 0x36) (L2_ 16) 1237500;
    AL 1 (CS 1512000 HFPLL 1 0 0x38) (L2_ 18) 1250000;
    AL 1 (CS 1674000 HFPLL 1 0 0x3A) (L2_ 18) 1275000;
    AL 1 (CS 1728000 HFPLL 1 0 0x3C) (L2_ 19) 1300000;
    AL 1 (CS 1809000 HFPLL 1 0 0x3E) (L2_ 19) 1325000;
    AL 1 (CS 1890000 HFPLL 1 0 0x40) (L2_ 20) 1350000;
    AL 1 (CS 1998000 HFPLL 1 0 0x40) (L2_ 21) 1350000;
    AL 1 (CS 2160000 HFPLL 1 0 0x40) (L2_ 21) 1350000;
    AL 0 (CS 0 0 0 0 0) None 0
  ].

Definition acpu_freq_tbl_8960_fusion_nom : list acpu_level :=
  [
    AL 0 (CS STBY_KHZ QSB 0 0 0x00) (L2_ 0) 800000;
    AL 1 (CS 192000 PLL_8 0 2 0x00) (L2_ 1) 800000;
    AL 1 (CS 384000 HFPLL 2 0 0x20) (L2_ 7) 850000;
    AL 1 (CS 486000 HFPLL 2 0 0x24) (L2_ 7) 900000;
    AL 0 (CS 540000 HFPLL 2 0 0x28) (L2_ 7) 950000;
    AL 1 (CS 594000 HFPLL 1 0 0x16) (L2_ 7) 950000;
    AL 0 (CS 648000 HFPLL 1 0 0x18) (L2_ 7) 975000;
    AL 1 (CS 702000 HFPLL 1 0 0x1A) (L2_ 7) 975000;
    AL 0 (CS 756000 HFPLL 1 0 0x1C) (L2_ 7) 1025000;
    AL 1 (CS 810000 HFPLL 1 0 0x1E) (L2_ 7) 1025000;
    AL 0 (CS 864000 HFPLL 1 0 0x20) (L2_ 7) 1050000;
    AL 1 (CS 918000 HFPLL 1 0 0x22) (L2_ 7) 1050000;
    AL 0 (CS 972000 HFPLL 1 0 0x24) (L2_ 7) 1075000;
    AL 1 (CS 1026000 HFPLL 1 0 0x26) (L2_ 7) 1075000;
    AL 0 (CS 1080000 HFPLL 1 0 0x28) (L2_ 16) 1100000;
    AL 1 (CS 1134000 HFPLL 1 0 0x2A) (L2_ 16) 1125000;
    AL 0 (CS 1188000 HFPLL 1 0 0x2C) (L2_ 16) 1125000;
    AL 1 (CS 1242000 HFPLL 1 0 0x2E) (L2_ 16) 1150000;
    AL 0 (CS 1296000 HFPLL 1 0 0x30) (L2_ 16) 1150000;
    AL 1 (CS 1350000 HFPLL 1 0 0x32) (L2_ 16) 1175000;
    AL 0 (CS 1404000 HFPLL 1 0 0x34) (L2_ 16) 1175000;
    AL 1 (CS 1458000 HFPLL 1 0 0x36) (L2_ 16) 1187500;
    AL 1 (CS 1512000 HFPLL 1 0 0x38) (L2_ 18) 1200000;
    AL 1 (CS 1674000 HFPLL 1 0 0x3A) (L2_ 18) 1225000;
    AL 1 (CS 1728000 HFPLL 1 0 0x3C) (L2_ 19) 1250000;
    AL 1 (CS 1809000 HFPLL 1 0 0x3E) (L2_ 19) 1275000;
    AL 1 (CS 1890000 HFPLL 1 0 0x40) (L2_ 19) 1300000;
    AL 1 (CS 1998000 HFPLL 1 0 0x40) (L2_ 21) 1325000;
    AL 1 (CS 2160000 HFPLL 1 0 0x40) (L2_ 21) 1350000;
    AL 0 (CS 0 0 0 0 0) None 0
  ].

Definition acpu_freq_tbl_8960_fusion_fast : list acpu_level :=
  [
    AL 0 (CS STBY_KHZ QSB 0 0 0x00) (L2_ 0) 800000;
    AL 1 (CS 192000 PLL_8 0 2 0x00) (L2_ 1) 800000;
    AL 1 (CS 384000 HFPLL 2 0 0x20) (L2_ 7) 800000;
    AL 1 (CS 486000 HFPLL 2 0 0x24) (L2_ 7) 850000;
    AL 0 (CS 540000 HFPLL 2 0 0x28) (L2_ 7) 900000;
    AL 1 (CS 594000 HFPLL 1 0 0x16) (L2_ 7) 900000;
    AL 0 (CS 648000 HFPLL 1 0 0x18) (L2_ 7) 925000;
    AL 1 (CS 702000 HFPLL 1 0 0x1A) (L2_ 7) 925000;
    AL 0 (CS 756000 HFPLL 1 0 0x1C) (L2_ 7) 975000;
    AL 1 (CS 810000 HFPLL 1 0 0x1E) (L2_ 7) 975000;
    AL 0 (CS 864000 HFPLL 1 0 0x20) (L2_ 7) 1000000;
    AL 1 (CS 918000 HFPLL 1 0 0x22) (L2_ 7) 1000000;
    AL 0 (CS 972000 HFPLL 1 0 0x24) (L2_ 7) 1025000;
    AL 1 (CS 1026000 HFPLL 1 0 0x26) (L2_ 7) 1025000;
    AL 0 (CS 1080000 HFPLL 1 0 0x28) (L2_ 16) 1075000;
    AL 1 (CS 1134000 HFPLL 1 0 0x2A) (L2_ 16) 1075000;
    AL 0 (CS 1188000 HFPLL 1 0 0x2C) (L2_ 16) 1100000;
    AL 1 (CS 1242000 HFPLL 1 0 0x2E) (L2_ 16) 1100000;
    AL 0 (CS 1296000 HFPLL 1 0 0x30) (L2_ 16) 1125000;
    AL 1 (CS 1350000 HFPLL 1 0 0x32) (L2_ 16) 1125000;
    AL 0 (CS 1404000 HFPLL 1 0 0x34) (L2_ 16) 1125000;
    AL 1 (CS 1458000 HFPLL 1 0 0x36) (L2_ 16) 1137500;
    AL 1 (CS 1512000 HFPLL 1 0 0x38) (L2_ 18) 1150000;
    AL 1 (CS 1674000 HFPLL 1 0 0x3A) (L2_ 18) 1175000;
    AL 1 (CS 1728000 HFPLL 1 0 0x3C) (L2_ 19) 1200000;
    AL 1 (CS 1809000 HFPLL 1 0 0x3E) (L2_ 19) 1250000;
    AL 1 (CS 1890000 HFPLL 1 0 0x40) (L2_ 19) 1275000;
    AL 1 (CS 1998000 HFPLL 1 0 0x40) (L2_ 21) 1300000;
    AL 1 (CS 2160000 HFPLL 1 0 0x40) (L2_ 21) 1325000;
    AL 0 (CS 0 0 0 0 0) None 0
  ].

(** ** Outcomes *)

Inductive result (A : Type) : Type :=
  | Ok (a : A)
  | Fault.
Arguments Ok {A} a.
Arguments Fault {A}.

(** ** Voltage requirements of an operating point *)

(** [tgt->l2_level] is read through the L2 table; a null or out-of-range
    pointer has no value. *)
Definition l2_level_at (l2_freq_tbl : list l2_level) (p : option nat)
  : option l2_level :=
  j ← p; l2_freq_tbl !! j.

Definition calculate_vdd_mem (l2_freq_tbl : list l2_level) (tgt : acpu_level)
  : option Z :=
  l ← l2_level_at l2_freq_tbl (acpu_l2_level tgt);
  Some (vdd_mem l).

Definition calculate_vdd_dig (l2_freq_tbl : list l2_level) (tgt : acpu_level)
  : option Z :=
  l ← l2_level_at l2_freq_tbl (acpu_l2_level tgt);
  let pll_vdd_dig :=
    if negb (src (l2_speed l) =? HFPLL) then 0
    else if pll_l_val (l2_speed l) >? HFPLL_LOW_VDD_PLL_L_MAX
         then HFPLL_NOMINAL_VDD
         else HFPLL_LOW_VDD in
  Some (Z.max (vdd_dig l) pll_vdd_dig).

Definition calculate_vdd_core (tgt : acpu_level) : Z :=
  let pll_vdd_core :=
    if negb (src (speed tgt) =? HFPLL) then 0
    else if pll_l_val (speed tgt) >? HFPLL_LOW_VDD_PLL_L_MAX
         then HFPLL_NOMINAL_VDD
         else HFPLL_LOW_VDD in
  Z.max (vdd_core tgt) pll_vdd_core.

(** The PLL-dependent floor as the specification words it: nothing for a
    source other than the reprogrammable PLL, the higher floor above the
    threshold, the lower floor at or below it. *)
Inductive spec_pll_floor (s : core_speed) : Z → Prop :=
  | floor_not_pll : src s ≠ HFPLL → spec_pll_floor s 0
  | floor_high : src s = HFPLL → 0x28 < pll_l_val s → spec_pll_floor s 1100000
  | floor_low : src s = HFPLL → pll_l_val s ≤ 0x28 → spec_pll_floor s 800000.

(** ** Run-time adjustment of the core voltages *)

(** The loop of [acpuclk_set_vdd] over the entries [acpu_freq_tbl[i+1]]. *)
Fixpoint acpuclk_set_vdd_loop (khz_ : Z) (vdd_uv : Z) (tbl : list acpu_level)
  : list acpu_level :=
  match tbl with
  | [] => []
  | l :: rest =>
      if khz (speed l) =? 0 then l :: rest
      else
        (if khz_ =? 0 then
           set_vdd_core l
             (Z.min (Z.max (u32 (vdd_core l + vdd_uv)) (u32 MIN_VDD_SC))
                    (u32 MAX_VDD_SC))
         else if khz (speed l) =? khz_ then
           set_vdd_core l
             (Z.min (Z.max (u32 vdd_uv) (u32 MIN_VDD_SC)) (u32 MAX_VDD_SC))
         else l)
        :: acpuclk_set_vdd_loop khz_ vdd_uv rest
  end.

(** [acpuclk_set_vdd] on the table: entry 0 is never visited. *)
Definition acpuclk_set_vdd_tbl (khz_ : Z) (vdd_uv : Z) (tbl : list acpu_level)
  : list acpu_level :=
  match tbl with
  | [] => []
  | l0 :: rest => l0 :: acpuclk_set_vdd_loop khz_ vdd_uv rest
  end.

(** What [acpuclk_set_vdd] may do to one entry, in the words of the claim:
    nothing but the core voltage changes, a changed core voltage lies within
    [MIN_VDD_SC, MAX_VDD_SC], and an entry of another frequency than a
    nonzero request keeps its value. *)
Definition spec_set_vdd_entry (khz_ : Z) (l l' : acpu_level) : Prop :=
  (l' = l ∨
   (l' = set_vdd_core l (vdd_core l') ∧
    400000 ≤ vdd_core l' ≤ 1350000)) ∧
  (khz_ ≠ 0 → khz (speed l) ≠ khz_ → l' = l).

(** ** Selection of the frequency plan *)

(** Constants of headers that are not part of the sources at hand
    (mach/msm_iomap.h, mach/rpm-regulator.h, mach/board_htc.h). *)
Record headers : Set := {
  MSM_HFPLL_BASE : Z;
  MSM_ACC0_BASE : Z;
  MSM_ACC1_BASE : Z;
  MSM_APCS_GCC_BASE : Z;
  RPM_VREG_VOTER1 : Z;
  RPM_VREG_VOTER2 : Z;
  RPM_VREG_VOTER6 : Z;
  RPM_VREG_ID_PM8921_L24 : Z;
  RPM_VREG_ID_PM8921_S3 : Z;
  RPM_VREG_ID_PM8921_S8 : Z;
  RPM_VREG_ID_PM8921_L23 : Z;
  KERNEL_FLAG_PVS_SLOW_CPU : Z;
  KERNEL_FLAG_PVS_NOM_CPU : Z;
  KERNEL_FLAG_PVS_FAST_CPU : Z
}.

(** What the driver asks of the machine it runs on. *)
Record platform : Set := {
  cpu_is_msm8960 : bool;
  cpu_is_msm8930 : bool;
  cpu_is_msm8627 : bool;
  cpu_is_krait_v1 : bool;
  (** [readl_relaxed(QFPROM_PTE_EFUSE_ADDR)] *)
  pte_efuse : Z;
  read_cpuid_id : Z;
  get_kernel_flag : Z;
  (** [CONFIG_ACPU_MAX_FREQ], or 0 without CONFIG_ACPU_CUSTOM_FREQ_SUPPORT *)
  acpu_max_freq : Z;
  cpu_possible_mask : list Z;
  cpu_present_mask : list Z;
  cpu_online_mask : list Z;
  (** the handle [msm_bus_scale_register_client] returns *)
  bus_client : Z
}.

Definition num_possible_cpus (p : platform) : Z :=
  Z.of_nat (length (cpu_possible_mask p)).

Definition krait_needs_vmin (p : platform) : bool :=
  let id := read_cpuid_id p in
  (id =? 0x511F04D0) || (id =? 0x511F04D1) || (id =? 0x510F06F0).

Fixpoint kraitv2_apply_vmin (tbl : list acpu_level) : list acpu_level :=
  match tbl with
  | [] => []
  | l :: rest =>
      if khz (speed l) =? 0 then l :: rest
      else
        (if vdd_core l <? MIN_VDD_SC then set_vdd_core l MIN_VDD_SC else l)
        :: kraitv2_apply_vmin rest
  end.

(** The inner loop of the truncation: every entry up to the sentinel is
    marked as not supported. *)
Fixpoint mark_not_supported (tbl : list acpu_level) : list acpu_level :=
  match tbl with
  | [] => []
  | l :: rest =>
      if khz (speed l) =? 0 then l :: rest
      else set_use_for_scaling l 0 :: mark_not_supported rest
  end.

(** The outer loop of the truncation at [acpu_max_freq]. *)
Fixpoint apply_acpu_max_freq (max_freq : Z) (tbl : list acpu_level)
  : list acpu_level :=
  match tbl with
  | [] => []
  | l :: rest =>
      if khz (speed l) =? 0 then l :: rest
      else if khz (speed l) =? max_freq then l :: mark_not_supported rest
      else l :: apply_acpu_max_freq max_freq rest
  end.

(** The loop that looks for the maximum supported scaling frequency; [i] is
    the index of the head of [tbl] in the table. *)
Fixpoint find_max_acpu_level (tbl : list acpu_level) (i : nat)
    (max_acpu_level : option nat) : option nat :=
  match tbl with
  | [] => max_acpu_level
  | l :: rest =>
      if khz (speed l) =? 0 then max_acpu_level
      else
        find_max_acpu_level rest (S i)
          (if negb (use_for_scaling l =? 0) && (khz (speed l) =? 2160000)
           then Some i else max_acpu_level)
  end.

(** What [select_freq_plan] leaves in the globals [acpu_freq_tbl] and
    [max_vdd], and the pointer it returns. *)
Record freq_plan : Set := {
  plan_acpu_freq_tbl : list acpu_level;
  plan_max_acpu_level : nat;
  plan_max_vdd : Z
}.

(** The table [v2] of [select_freq_plan]: the one the PVS fuses select,
    unless the kernel flags force another. *)
Definition select_pvs_table (h : headers) (p : platform) : list acpu_level :=
  let pvs := Z.land (Z.shiftr (pte_efuse p) 10) 0x7 in
  let pvs := if pvs =? 0x7 then Z.land (Z.shiftr (pte_efuse p) 13) 0x7
             else pvs in
  let v2 :=
    if (pvs =? 0x0) || (pvs =? 0x7) then acpu_freq_tbl_8960_fusion_slow
    else if pvs =? 0x1 then acpu_freq_tbl_8960_fusion_nom
    else if pvs =? 0x3 then acpu_freq_tbl_8960_fusion_fast
    else acpu_freq_tbl_8960_fusion_nom in
  if negb (cpu_is_krait_v1 p) then
    if negb (Z.land (get_kernel_flag p) (KERNEL_FLAG_PVS_SLOW_CPU h) =? 0)
    then acpu_freq_tbl_8960_fusion_slow
    else if negb (Z.land (get_kernel_flag p) (KERNEL_FLAG_PVS_NOM_CPU h) =? 0)
    then acpu_freq_tbl_8960_fusion_nom
    else if negb (Z.land (get_kernel_flag p) (KERNEL_FLAG_PVS_FAST_CPU h) =? 0)
    then acpu_freq_tbl_8960_fusion_fast
    else v2
  else v2.

(** [select_freq_plan].  On a Krait v1 the global [acpu_freq_tbl] stays null
    and the loops below read through it; on another SoC the function stops
    in [BUG()]. *)
Definition select_freq_plan (h : headers) (p : platform) : result freq_plan :=
  if cpu_is_msm8960 p then
    let v2 := select_pvs_table h p in
    if cpu_is_krait_v1 p then Fault
    else
      let tbl := v2 in
      let tbl := if krait_needs_vmin p then kraitv2_apply_vmin tbl else tbl in
      let tbl := if negb (acpu_max_freq p =? 0)
                 then apply_acpu_max_freq (u32 (acpu_max_freq p)) tbl
                 else tbl in
      match find_max_acpu_level tbl 0 None with
      | None => Fault
      | Some i =>
          match tbl !! i with
          | Some l => Ok {| plan_acpu_freq_tbl := tbl;
                            plan_max_acpu_level := i;
                            plan_max_vdd := vdd_core l |}
          | None => Fault
          end
      end
  else Fault.

(** The entries a table exposes for scaling: those before the sentinel that
    are marked usable. *)
Fixpoint usable_levels (tbl : list acpu_level) : list acpu_level :=
  match tbl with
  | [] => []
  | l :: rest =>
      if khz (speed l) =? 0 then []
      else if use_for_scaling l =? 0 then usable_levels rest
      else l :: usable_levels rest
  end.

(** The highest usable operating point as the specification words it: a
    usable entry that no usable entry exceeds in frequency. *)
Definition spec_highest_usable (tbl : list acpu_level) (l : acpu_level)
  : Prop :=
  l ∈ usable_levels tbl ∧
  ∀ l', l' ∈ usable_levels tbl → khz (speed l') ≤ khz (speed l).

(** ** Driver state *)

Record vreg : Set := {
  name : string;
  max_vdd : Z;
  rpm_vreg_voter : Z;
  rpm_vreg_id : Z;
  (** the handle [regulator_get] returned, named after the regulator *)
  reg : option string;
  cur_vdd : Z
}.

Definition set_cur_vdd (v : vreg) (uv : Z) : vreg :=
  {| name := name v; max_vdd := max_vdd v;
     rpm_vreg_voter := rpm_vreg_voter v; rpm_vreg_id := rpm_vreg_id v;
     reg := reg v; cur_vdd := uv |}.

Definition set_reg (v : vreg) (r : option string) : vreg :=
  {| name := name v; max_vdd := max_vdd v;
     rpm_vreg_voter := rpm_vreg_voter v; rpm_vreg_id := rpm_vreg_id v;
     reg := r; cur_vdd := cur_vdd v |}.

(** A [struct core_speed *]: the address of the [speed] field of an entry
    of the active CPU table or of the L2 table. *)
Inductive speed_ptr : Set :=
  | acpu_speed (i : nat)
  | l2_speed_ptr (j : nat).

#[global] Instance speed_ptr_eq_dec : EqDecision speed_ptr.
Proof. solve_decision. Defined.

Record scalable : Set := {
  hfpll_base : Z;
  aux_clk_sel : Z;
  l2cpmr_iaddr : Z;
  current_speed : option speed_ptr;
  l2_vote : option nat;
  sc_vreg : vregs → vreg;
  first_set_call : bool
}.

Definition set_current_speed (p : option speed_ptr) (s : scalable) : scalable :=
  {| hfpll_base := hfpll_base s; aux_clk_sel := aux_clk_sel s;
     l2cpmr_iaddr := l2cpmr_iaddr s; current_speed := p;
     l2_vote := l2_vote s; sc_vreg := sc_vreg s;
     first_set_call := first_set_call s |}.

Definition set_l2_vote (v : option nat) (s : scalable) : scalable :=
  {| hfpll_base := hfpll_base s; aux_clk_sel := aux_clk_sel s;
     l2cpmr_iaddr := l2cpmr_iaddr s; current_speed := current_speed s;
     l2_vote := v; sc_vreg := sc_vreg s;
     first_set_call := first_set_call s |}.

Definition set_first_set_call (b : bool) (s : scalable) : scalable :=
  {| hfpll_base := hfpll_base s; aux_clk_sel := aux_clk_sel s;
     l2cpmr_iaddr := l2cpmr_iaddr s; current_speed := current_speed s;
     l2_vote := l2_vote s; sc_vreg := sc_vreg s;
     first_set_call := b |}.

Definition set_sc_vreg (r : vregs) (f : vreg → vreg) (s : scalable) : scalable :=
  {| hfpll_base := hfpll_base s; aux_clk_sel := aux_clk_sel s;
     l2cpmr_iaddr := l2cpmr_iaddr s; current_speed := current_speed s;
     l2_vote := l2_vote s;
     sc_vreg := λ r', if decide (r' = r) then f (sc_vreg s r) else sc_vreg s r';
     first_set_call := first_set_call s |}.

(** The services the driver calls. *)
Inductive call : Set :=
  | rpm_vreg_set_voltage (vreg_id voter min_uV max_uV sleep_also : Z)
  | regulator_set_voltage (r : option string) (min_uV max_uV : Z)
  | regulator_enable (r : option string)
  | msm_bus_scale_client_update_request (cl index : Z).

(** The return code of a call, given the calls made before it. *)
Definition backend : Set := list (call * Z) → call → Z.

Record state : Type := {
  (** [scalable], which points at [scalable_8960] *)
  st_scalable : list scalable;
  st_l2_freq_tbl : list l2_level;
  st_acpu_freq_tbl : list acpu_level;
  st_max_vdd : Z;
  st_bus_perf_client : Z;
  (** the CP15 L2 indirect registers, by indirect address *)
  st_l2_indirect : Z → Z;
  (** the memory-mapped registers, by address *)
  st_iomem : Z → Z;
  (** the footprint words, by byte offset from the footprint base *)
  st_footprint : Z → Z;
  (** the static arrays of [acpuclock_cpu_callback] *)
  st_prev_khz : Z → Z;
  st_prev_pri_src : Z → Z;
  st_prev_sec_src : Z → Z;
  (** the calls made so far, oldest first, with their return codes *)
  st_trace : list (call * Z)
}.

Definition upd (m : Z → Z) (k v : Z) : Z → Z :=
  λ k', if k' =? k then v else m k'.

Definition set_scalable (l : list scalable) (st : state) : state :=
  {| st_scalable := l; st_l2_freq_tbl := st_l2_freq_tbl st;
     st_acpu_freq_tbl := st_acpu_freq_tbl st; st_max_vdd := st_max_vdd st;
     st_bus_perf_client := st_bus_perf_client st;
     st_l2_indirect := st_l2_indirect st; st_iomem := st_iomem st;
     st_footprint := st_footprint st; st_prev_khz := st_prev_khz st;
     st_prev_pri_src := st_prev_pri_src st;
     st_prev_sec_src := st_prev_sec_src st; st_trace := st_trace st |}.

Definition set_acpu_freq_tbl (t : list acpu_level) (st : state) : state :=
  {| st_scalable := st_scalable st; st_l2_freq_tbl := st_l2_freq_tbl st;
     st_acpu_freq_tbl := t; st_max_vdd := st_max_vdd st;
     st_bus_perf_client := st_bus_perf_client st;
     st_l2_indirect := st_l2_indirect st; st_iomem := st_iomem st;
     st_footprint := st_footprint st; st_prev_khz := st_prev_khz st;
     st_prev_pri_src := st_prev_pri_src st;
     st_prev_sec_src := st_prev_sec_src st; st_trace := st_trace st |}.

Definition set_bus_perf_client (c : Z) (st : state) : state :=
  {| st_scalable := st_scalable st; st_l2_freq_tbl := st_l2_freq_tbl st;
     st_acpu_freq_tbl := st_acpu_freq_tbl st; st_max_vdd := st_max_vdd st;
     st_bus_perf_client := c;
     st_l2_indirect := st_l2_indirect st; st_iomem := st_iomem st;
     st_footprint := st_footprint st; st_prev_khz := st_prev_khz st;
     st_prev_pri_src := st_prev_pri_src st;
     st_prev_sec_src := st_prev_sec_src st; st_trace := st_trace st |}.

Definition set_l2_indirect (m : Z → Z) (st : state) : state :=
  {| st_scalable := st_scalable st; st_l2_freq_tbl := st_l2_freq_tbl st;
     st_acpu_freq_tbl := st_acpu_freq_tbl st; st_max_vdd := st_max_vdd st;
     st_bus_perf_client := st_bus_perf_client st;
     st_l2_indirect := m; st_iomem := st_iomem st;
     st_footprint := st_footprint st; st_prev_khz := st_prev_khz st;
     st_prev_pri_src := st_prev_pri_src st;
     st_prev_sec_src := st_prev_sec_src st; st_trace := st_trace st |}.

Definition set_iomem (m : Z → Z) (st : state) : state :=
  {| st_scalable := st_scalable st; st_l2_freq_tbl := st_l2_freq_tbl st;
     st_acpu_freq_tbl := st_acpu_freq_tbl st; st_max_vdd := st_max_vdd st;
     st_bus_perf_client := st_bus_perf_client st;
     st_l2_indirect := st_l2_indirect st; st_iomem := m;
     st_footprint := st_footprint st; st_prev_khz := st_prev_khz st;
     st_prev_pri_src := st_prev_pri_src st;
     st_prev_sec_src := st_prev_sec_src st; st_trace := st_trace st |}.

Definition set_footprint (m : Z → Z) (st : state) : state :=
  {| st_scalable := st_scalable st; st_l2_freq_tbl := st_l2_freq_tbl st;
     st_acpu_freq_tbl := st_acpu_freq_tbl st; st_max_vdd := st_max_vdd st;
     st_bus_perf_client := st_bus_perf_client st;
     st_l2_indirect := st_l2_indirect st; st_iomem := st_iomem st;
     st_footprint := m; st_prev_khz := st_prev_khz st;
     st_prev_pri_src := st_prev_pri_src st;
     st_prev_sec_src := st_prev_sec_src st; st_trace := st_trace st |}.

Definition set_prev_khz (m : Z → Z) (st : state) : state :=
  {| st_scalable := st_scalable st; st_l2_freq_tbl := st_l2_freq_tbl st;
     st_acpu_freq_tbl := st_acpu_freq_tbl st; st_max_vdd := st_max_vdd st;
     st_bus_perf_client := st_bus_perf_client st;
     st_l2_indirect := st_l2_indirect st; st_iomem := st_iomem st;
     st_footprint := st_footprint st; st_prev_khz := m;
     st_prev_pri_src := st_prev_pri_src st;
     st_prev_sec_src := st_prev_sec_src st; st_trace := st_trace st |}.

Definition set_prev_pri_src (m : Z → Z) (st : state) : state :=
  {| st_scalable := st_scalable st; st_l2_freq_tbl := st_l2_freq_tbl st;
     st_acpu_freq_tbl := st_acpu_freq_tbl st; st_max_vdd := st_max_vdd st;
     st_bus_perf_client := st_bus_perf_client st;
     st_l2_indirect := st_l2_indirect st; st_iomem := st_iomem st;
     st_footprint := st_footprint st; st_prev_khz := st_prev_khz st;
     st_prev_pri_src := m;
     st_prev_sec_src := st_prev_sec_src st; st_trace := st_trace st |}.

Definition set_prev_sec_src (m : Z → Z) (st : state) : state :=
  {| st_scalable := st_scalable st; st_l2_freq_tbl := st_l2_freq_tbl st;
     st_acpu_freq_tbl := st_acpu_freq_tbl st; st_max_vdd := st_max_vdd st;
     st_bus_perf_client := st_bus_perf_client st;
     st_l2_indirect := st_l2_indirect st; st_iomem := st_iomem st;
     st_footprint := st_footprint st; st_prev_khz := st_prev_khz st;
     st_prev_pri_src := st_prev_pri_src st;
     st_prev_sec_src := m; st_trace := st_trace st |}.

Definition set_trace (t : list (call * Z)) (st : state) : state :=
  {| st_scalable := st_scalable st; st_l2_freq_tbl := st_l2_freq_tbl st;
     st_acpu_freq_tbl := st_acpu_freq_tbl st; st_max_vdd := st_max_vdd st;
     st_bus_perf_client := st_bus_perf_client st;
     st_l2_indirect := st_l2_indirect st; st_iomem := st_iomem st;
     st_footprint := st_footprint st; st_prev_khz := st_prev_khz st;
     st_prev_pri_src := st_prev_pri_src st;
     st_prev_sec_src := st_prev_sec_src st; st_trace := t |}.

(** ** The monad of the driver *)

Definition M (A : Type) : Type := state → result (A * state).

#[global] Instance M_ret : MRet M := λ A a st, Ok (a, st).

#[global] Instance M_bind : MBind M := λ A B f m st,
  match m st with
  | Ok (a, st') => f a st'
  | Fault => Fault
  end.

Definition fault {A} : M A := λ _, Fault.

Definition gets {A} (f : state → A) : M A := λ st, Ok (f st, st).

Definition modify (f : state → state) : M unit := λ st, Ok (tt, f st).

(** Reading through a pointer that may be null or out of range. *)
Definition deref {A} (o : option A) : M A :=
  match o with
  | Some a => mret a
  | None => fault
  end.

(** [scalable[i]] for a C index [i]. *)
Definition sc_lookup (l : list scalable) (i : Z) : option scalable :=
  if 0 <=? i then l !! Z.to_nat i else None.

Definition load_sc (sc : Z) : M scalable :=
  l ← gets st_scalable; deref (sc_lookup l sc).

Definition modify_sc (sc : Z) (f : scalable → scalable) : M unit :=
  s ← load_sc sc;
  modify (λ st, set_scalable (<[Z.to_nat sc := f s]> (st_scalable st)) st).

(** Reading [p->...] for a [struct core_speed *p]. *)
Definition speed_at (st : state) (p : option speed_ptr) : option core_speed :=
  match p with
  | None => None
  | Some (acpu_speed i) => speed <$> st_acpu_freq_tbl st !! i
  | Some (l2_speed_ptr j) => l2_speed <$> st_l2_freq_tbl st !! j
  end.

Definition deref_speed (p : option speed_ptr) : M core_speed :=
  o ← gets (λ st, speed_at st p); deref o.

(** ** The driver *)

Section Driver.

Variable plat : platform.
Variable be : backend.

(** A call to a service: its return code is the backend's, and the call is
    appended to the trace. *)
Definition do_call (c : call) : M Z := λ st,
  let rc := be (st_trace st) c in
  Ok (rc, set_trace (st_trace st ++ [(c, rc)]) st).

Definition set_acpuclk_foot_print (cpu : Z) (state_ : Z) : M unit :=
  modify (λ st, set_footprint
    (upd (st_footprint st) (0x3C + 4 * u32 cpu)
         (Z.lor CPU_FOOT_PRINT_MAGIC state_)) st).

Definition set_acpuclk_cpu_freq_foot_print (cpu : Z) (khz_ : Z) : M unit :=
  modify (λ st, set_footprint
    (upd (st_footprint st) (0x30 + 4 * u32 cpu) khz_) st).

Definition set_acpuclk_L2_freq_foot_print (khz_ : Z) : M unit :=
  modify (λ st, set_footprint (upd (st_footprint st) 0x38 khz_) st).

Definition acpuclk_8960_get_rate (cpu : Z) : M Z :=
  s ← load_sc cpu;
  cs ← deref_speed (current_speed s);
  mret (khz cs).

(** Modelled from the spec: the accessors of the CP15 L2 indirect register
    file, [get_l2_indirect_reg] and [set_l2_indirect_reg] of
    mach/msm-krait-l2-accessors.h ("readIndirect(addr) -> word,
    writeIndirect(addr, word)"): a word per indirect address. *)
Definition get_l2_indirect_reg (addr : Z) : M Z :=
  gets (λ st, st_l2_indirect st addr).

(** Modelled from the spec: [set_l2_indirect_reg], the write accessor of the
    same register file. *)
Definition set_l2_indirect_reg (addr val : Z) : M unit :=
  modify (λ st, set_l2_indirect (upd (st_l2_indirect st) addr val) st).

(** A write to a memory-mapped register. *)
Definition writel_relaxed (val addr : Z) : M unit :=
  modify (λ st, set_iomem (upd (st_iomem st) addr val) st).

(** Get the selected source on primary MUX. *)
Definition get_pri_clk_src (sc : Z) : M Z :=
  s ← load_sc sc;
  regval ← get_l2_indirect_reg (l2cpmr_iaddr s);
  mret (Z.land regval 0x3).

(** Set the selected source on primary MUX. *)
Definition set_pri_clk_src (sc : Z) (pri_src_sel_ : Z) : M unit :=
  s ← load_sc sc;
  regval ← get_l2_indirect_reg (l2cpmr_iaddr s);
  let regval := Z.land regval (Z.lnot 0x3) in
  let regval := Z.lor regval (Z.land pri_src_sel_ 0x3) in
  set_l2_indirect_reg (l2cpmr_iaddr s) regval.

(** Get the selected source on secondary MUX. *)
Definition get_sec_clk_src (sc : Z) : M Z :=
  s ← load_sc sc;
  regval ← get_l2_indirect_reg (l2cpmr_iaddr s);
  mret (Z.land (Z.shiftr regval 2) 0x3).

(** Set the selected source on secondary MUX. *)
Definition set_sec_clk_src (sc : Z) (sec_src_sel_ : Z) : M unit :=
  s ← load_sc sc;
  regval ← get_l2_indirect_reg (l2cpmr_iaddr s);
  let regval := Z.lor regval SECCLKAGD in
  set_l2_indirect_reg (l2cpmr_iaddr s) regval;;
  let regval := Z.land regval (Z.lnot (Z.shiftl 0x3 2)) in
  let regval := Z.lor regval (Z.shiftl (Z.land sec_src_sel_ 0x3) 2) in
  set_l2_indirect_reg (l2cpmr_iaddr s) regval;;
  let regval := Z.land regval (Z.lnot SECCLKAGD) in
  set_l2_indirect_reg (l2cpmr_iaddr s) regval.

(** [cpu_is_msm8960() || cpu_is_msm8930() || cpu_is_msm8627()]. *)
Definition soc_has_hfpll_vregs : bool :=
  cpu_is_msm8960 plat || cpu_is_msm8930 plat || cpu_is_msm8627 plat.

(** Enable an already-configured HFPLL. *)
Definition hfpll_enable (sc : Z) : M unit :=
  s ← load_sc sc;
  (if soc_has_hfpll_vregs then
     do_call (rpm_vreg_set_voltage
                (rpm_vreg_id (sc_vreg s VREG_HFPLL_A))
                (rpm_vreg_voter (sc_vreg s VREG_HFPLL_A)) 2100000
                (max_vdd (sc_vreg s VREG_HFPLL_A)) 0);;
     do_call (rpm_vreg_set_voltage
                (rpm_vreg_id (sc_vreg s VREG_HFPLL_B))
                (rpm_vreg_voter (sc_vreg s VREG_HFPLL_B)) 1800000
                (max_vdd (sc_vreg s VREG_HFPLL_B)) 0);;
     mret tt
   else mret tt);;
  writel_relaxed 0x2 (hfpll_base s + HFPLL_MODE);;
  writel_relaxed 0x6 (hfpll_base s + HFPLL_MODE);;
  writel_relaxed 0x7 (hfpll_base s + HFPLL_MODE).

(** Disable a HFPLL for power-savings or while it is being reprogrammed. *)
Definition hfpll_disable (sc : Z) : M unit :=
  s ← load_sc sc;
  writel_relaxed 0 (hfpll_base s + HFPLL_MODE);;
  if soc_has_hfpll_vregs then
    do_call (rpm_vreg_set_voltage
               (rpm_vreg_id (sc_vreg s VREG_HFPLL_B))
               (rpm_vreg_voter (sc_vreg s VREG_HFPLL_B)) 0 0 0);;
    do_call (rpm_vreg_set_voltage
               (rpm_vreg_id (sc_vreg s VREG_HFPLL_A))
               (rpm_vreg_voter (sc_vreg s VREG_HFPLL_A)) 0 0 0);;
    mret tt
  else mret tt.

(** Program the HFPLL rate. *)
Definition hfpll_set_rate (sc : Z) (tgt_s : speed_ptr) : M unit :=
  s ← load_sc sc;
  tgt ← deref_speed (Some tgt_s);
  writel_relaxed (pll_l_val tgt) (hfpll_base s + HFPLL_L_VAL).

(** [max] on two [struct l2_level *]: a null vote lies below the table. *)
Definition l2_ptr_max (new_l : nat) (vote : option nat) : nat :=
  match vote with
  | Some j => Nat.max new_l j
  | None => new_l
  end.

(** The loop [for_each_present_cpu(cpu) new_l = max(new_l, ...)]. *)
Fixpoint max_l2_vote (cpus : list Z) (new_l : nat) : M nat :=
  match cpus with
  | [] => mret new_l
  | cpu :: rest =>
      s ← load_sc cpu;
      max_l2_vote rest (l2_ptr_max new_l (l2_vote s))
  end.

(** Return the L2 speed that should be applied. *)
Definition compute_l2_level (sc : Z) (vote_l : option nat) : M nat :=
  l2_freq_tbl_size ← gets (λ st, length (st_l2_freq_tbl st));
  (if match vote_l with Some j => bool_decide (l2_freq_tbl_size ≤ j)%nat
                      | None => false end
   then fault else mret tt);;
  modify_sc sc (set_l2_vote vote_l);;
  max_l2_vote (cpu_present_mask plat) 0%nat.

(** [ARRAY_SIZE(bw_level_tbl)]. *)
Definition bw_level_tbl_size : Z := 11.

(** Update the bus bandwidth request. *)
Definition set_bus_bw (bw : Z) : M unit :=
  if bw >=? bw_level_tbl_size then mret tt
  else
    cl ← gets st_bus_perf_client;
    do_call (msm_bus_scale_client_update_request cl bw);;
    mret tt.

(** [reason != SETRATE_HOTPLUG]. *)
Definition not_hotplug (reason : setrate_reason) : bool :=
  negb (bool_decide (reason = SETRATE_HOTPLUG)).

(** Set the CPU or L2 clock speed. *)
Definition set_speed (sc : Z) (tgt_s : speed_ptr) (reason : setrate_reason)
  : M unit :=
  s ← load_sc sc;
  let strt_s := current_speed s in
  if bool_decide (Some tgt_s = strt_s) then mret tt
  else
    strt ← deref_speed strt_s;
    tgt ← deref_speed (Some tgt_s);
    (if (src strt =? HFPLL) && (src tgt =? HFPLL) then
       set_sec_clk_src sc SEC_SRC_SEL_AUX;;
       set_pri_clk_src sc PRI_SRC_SEL_SEC_SRC;;
       hfpll_disable sc;;
       hfpll_set_rate sc tgt_s;;
       hfpll_enable sc;;
       set_pri_clk_src sc (pri_src_sel tgt)
     else if (src strt =? HFPLL) && negb (src tgt =? HFPLL) then
       (if not_hotplug reason || (sc =? L2) then
          set_sec_clk_src sc (sec_src_sel tgt);;
          set_pri_clk_src sc (pri_src_sel tgt)
        else mret tt);;
       hfpll_disable sc
     else if negb (src strt =? HFPLL) && (src tgt =? HFPLL) then
       hfpll_set_rate sc tgt_s;;
       hfpll_enable sc;;
       if not_hotplug reason || (sc =? L2) then
         set_pri_clk_src sc (pri_src_sel tgt)
       else mret tt
     else
       if not_hotplug reason || (sc =? L2) then
         set_sec_clk_src sc (sec_src_sel tgt)
       else mret tt);;
    modify_sc sc (set_current_speed (Some tgt_s)).

(** Apply any per-cpu voltage increases.  [rc] is the C variable: it stays 0
    through a step that is skipped or succeeds, and a step that fails
    returns it at once. *)
Definition increase_vdd (cpu : Z) (vdd_core_ vdd_mem_ vdd_dig_ : Z)
    (reason : setrate_reason) : M Z :=
  sc ← load_sc cpu;
  rc ← (if vdd_mem_ >? cur_vdd (sc_vreg sc VREG_MEM) then
          rc ← do_call (rpm_vreg_set_voltage
                          (rpm_vreg_id (sc_vreg sc VREG_MEM))
                          (rpm_vreg_voter (sc_vreg sc VREG_MEM)) vdd_mem_
                          (max_vdd (sc_vreg sc VREG_MEM)) 0);
          if negb (rc =? 0) then mret rc
          else modify_sc cpu (set_sc_vreg VREG_MEM (λ v, set_cur_vdd v vdd_mem_));;
               mret rc
        else mret 0);
  if negb (rc =? 0) then mret rc else
  sc ← load_sc cpu;
  rc ← (if vdd_dig_ >? cur_vdd (sc_vreg sc VREG_DIG) then
          rc ← do_call (rpm_vreg_set_voltage
                          (rpm_vreg_id (sc_vreg sc VREG_DIG))
                          (rpm_vreg_voter (sc_vreg sc VREG_DIG)) vdd_dig_
                          (max_vdd (sc_vreg sc VREG_DIG)) 0);
          if negb (rc =? 0) then mret rc
          else modify_sc cpu (set_sc_vreg VREG_DIG (λ v, set_cur_vdd v vdd_dig_));;
               mret rc
        else mret rc);
  if negb (rc =? 0) then mret rc else
  sc ← load_sc cpu;
  rc ← (if (vdd_core_ >? cur_vdd (sc_vreg sc VREG_CORE)) && not_hotplug reason
        then
          rc ← do_call (regulator_set_voltage (reg (sc_vreg sc VREG_CORE))
                          vdd_core_ (max_vdd (sc_vreg sc VREG_CORE)));
          if negb (rc =? 0) then mret rc
          else modify_sc cpu (set_sc_vreg VREG_CORE (λ v, set_cur_vdd v vdd_core_));;
               mret rc
        else mret rc);
  mret rc.

(** Apply any per-cpu voltage decreases.  The function is [void]: [ret] of a
    failed step ends it, and nothing is handed back. *)
Definition decrease_vdd (cpu : Z) (vdd_core_ vdd_mem_ vdd_dig_ : Z)
    (reason : setrate_reason) : M unit :=
  sc ← load_sc cpu;
  ret ← (if (vdd_core_ <? cur_vdd (sc_vreg sc VREG_CORE)) && not_hotplug reason
         then
           ret ← do_call (regulator_set_voltage (reg (sc_vreg sc VREG_CORE))
                            vdd_core_ (max_vdd (sc_vreg sc VREG_CORE)));
           if negb (ret =? 0) then mret ret
           else modify_sc cpu (set_sc_vreg VREG_CORE (λ v, set_cur_vdd v vdd_core_));;
                mret ret
         else mret 0);
  if negb (ret =? 0) then mret tt else
  sc ← load_sc cpu;
  ret ← (if vdd_dig_ <? cur_vdd (sc_vreg sc VREG_DIG) then
           ret ← do_call (rpm_vreg_set_voltage
                            (rpm_vreg_id (sc_vreg sc VREG_DIG))
                            (rpm_vreg_voter (sc_vreg sc VREG_DIG)) vdd_dig_
                            (max_vdd (sc_vreg sc VREG_DIG)) 0);
           if negb (ret =? 0) then mret ret
           else modify_sc cpu (set_sc_vreg VREG_DIG (λ v, set_cur_vdd v vdd_dig_));;
                mret ret
         else mret 0);
  if negb (ret =? 0) then mret tt else
  sc ← load_sc cpu;
  ret ← (if vdd_mem_ <? cur_vdd (sc_vreg sc VREG_MEM) then
           ret ← do_call (rpm_vreg_set_voltage
                            (rpm_vreg_id (sc_vreg sc VREG_MEM))
                            (rpm_vreg_voter (sc_vreg sc VREG_MEM)) vdd_mem_
                            (max_vdd (sc_vreg sc VREG_MEM)) 0);
           if negb (ret =? 0) then mret ret
           else modify_sc cpu (set_sc_vreg VREG_MEM (λ v, set_cur_vdd v vdd_mem_));;
                mret ret
         else mret 0);
  mret tt.

(** The loop of [acpuclk_8960_set_rate] that finds the target frequency;
    [i] is the index of the head of [tbl] in the table. *)
Fixpoint find_tgt (tbl : list acpu_level) (rate : Z) (i : nat)
  : option (nat * acpu_level) :=
  match tbl with
  | [] => None
  | tgt :: rest =>
      if khz (speed tgt) =? 0 then None
      else if khz (speed tgt) =? rate then Some (i, tgt)
      else find_tgt rest rate (S i)
  end.

(** [reason == SETRATE_CPUFREQ || reason == SETRATE_HOTPLUG], the reasons
    that take [driver_lock] and adjust the voltages. *)
Definition takes_driver_lock (reason : setrate_reason) : bool :=
  bool_decide (reason = SETRATE_CPUFREQ) || bool_decide (reason = SETRATE_HOTPLUG).

(** Set the CPU's clock rate and adjust the L2 rate, if appropriate.  The
    inner block yields [rc] at the label [out].  [num_possible_cpus()] is
    unsigned, so the bounds check compares [cpu] as an unsigned number. *)
Definition acpuclk_8960_set_rate (cpu : Z) (rate : Z) (reason : setrate_reason)
  : M Z :=
  set_acpuclk_foot_print cpu 0x1;;
  rc ← (if u32 cpu >? num_possible_cpus plat then mret (- EINVAL)
        else
          set_acpuclk_foot_print cpu 0x2;;
          s ← load_sc cpu;
          let strt_acpu_s := current_speed s in
          strt ← deref_speed strt_acpu_s;
          if (rate =? khz strt) && negb (first_set_call s) then mret 0
          else
            tbl ← gets st_acpu_freq_tbl;
            match find_tgt tbl rate 0 with
            | None => mret (- EINVAL)
            | Some (i, tgt) =>
                let tgt_acpu_s := acpu_speed i in
                l2_freq_tbl ← gets st_l2_freq_tbl;
                vdd_mem_ ← deref (calculate_vdd_mem l2_freq_tbl tgt);
                vdd_dig_ ← deref (calculate_vdd_dig l2_freq_tbl tgt);
                let vdd_core_ := calculate_vdd_core tgt in
                rc ← (if takes_driver_lock reason
                      then increase_vdd cpu vdd_core_ vdd_mem_ vdd_dig_ reason
                      else mret 0);
                if negb (rc =? 0) then mret rc
                else
                  set_acpuclk_foot_print cpu 0x3;;
                  set_speed cpu tgt_acpu_s reason;;
                  set_acpuclk_cpu_freq_foot_print cpu (khz (speed tgt));;
                  set_acpuclk_foot_print cpu 0x4;;
                  tgt_l2_l ← compute_l2_level cpu (acpu_l2_level tgt);
                  set_speed L2 (l2_speed_ptr tgt_l2_l) reason;;
                  l2s ← deref_speed (Some (l2_speed_ptr tgt_l2_l));
                  set_acpuclk_L2_freq_foot_print (khz l2s);;
                  set_acpuclk_foot_print cpu 0x5;;
                  if bool_decide (reason = SETRATE_PC)
                     || bool_decide (reason = SETRATE_SWFI)
                  then mret rc
                  else
                    l ← deref (l2_level_at l2_freq_tbl (Some tgt_l2_l));
                    set_bus_bw (bw_level l);;
                    set_acpuclk_foot_print cpu 0x6;;
                    decrease_vdd cpu vdd_core_ vdd_mem_ vdd_dig_ reason;;
                    set_acpuclk_foot_print cpu 0x7;;
                    modify_sc cpu (set_first_set_call false);;
                    mret rc
            end);
  set_acpuclk_foot_print cpu 0x8;;
  mret rc.

(** [acpuclk_set_vdd] on the active table. *)
Definition acpuclk_set_vdd (khz_ : Z) (vdd_uv : Z) : M unit :=
  modify (λ st, set_acpu_freq_tbl
    (acpuclk_set_vdd_tbl khz_ vdd_uv (st_acpu_freq_tbl st)) st).

(** *** Hotplug *)

(** The actions of linux/cpu.h the callback names; [CPU_ACTION_OTHER] is any
    other action, which takes the [default] branch. *)
Inductive hotplug_action : Set :=
  | CPU_DYING
  | CPU_DYING_FROZEN
  | CPU_DEAD
  | CPU_DEAD_FROZEN
  | CPU_UP_CANCELED
  | CPU_UP_CANCELED_FROZEN
  | CPU_UP_PREPARE
  | CPU_UP_PREPARE_FROZEN
  | CPU_STARTING
  | CPU_STARTING_FROZEN
  | CPU_ACTION_OTHER.

Inductive notify : Set :=
  | NOTIFY_OK
  | NOTIFY_BAD.

Definition acpuclock_cpu_callback (action : hotplug_action) (cpu : Z)
  : M notify :=
  match action with
  | CPU_DYING | CPU_DYING_FROZEN =>
      sec ← get_sec_clk_src cpu;
      modify (λ st, set_prev_sec_src (upd (st_prev_sec_src st) cpu sec) st);;
      pri ← get_pri_clk_src cpu;
      modify (λ st, set_prev_pri_src (upd (st_prev_pri_src st) cpu pri) st);;
      set_sec_clk_src cpu SEC_SRC_SEL_QSB;;
      set_pri_clk_src cpu PRI_SRC_SEL_SEC_SRC;;
      mret NOTIFY_OK
  | CPU_DEAD | CPU_DEAD_FROZEN =>
      khz_ ← acpuclk_8960_get_rate cpu;
      modify (λ st, set_prev_khz (upd (st_prev_khz st) cpu (s32 khz_)) st);;
      acpuclk_8960_set_rate cpu HOT_UNPLUG_KHZ SETRATE_HOTPLUG;;
      mret NOTIFY_OK
  | CPU_UP_CANCELED | CPU_UP_CANCELED_FROZEN =>
      acpuclk_8960_set_rate cpu HOT_UNPLUG_KHZ SETRATE_HOTPLUG;;
      mret NOTIFY_OK
  | CPU_UP_PREPARE | CPU_UP_PREPARE_FROZEN =>
      prev ← gets (λ st, st_prev_khz st cpu);
      if prev =? 0 then mret NOTIFY_BAD
      else
        acpuclk_8960_set_rate cpu (u32 prev) SETRATE_HOTPLUG;;
        mret NOTIFY_OK
  | CPU_STARTING | CPU_STARTING_FROZEN =>
      sec ← gets (λ st, st_prev_sec_src st cpu);
      set_sec_clk_src cpu (u32 sec);;
      pri ← gets (λ st, st_prev_pri_src st cpu);
      set_pri_clk_src cpu (u32 pri);;
      mret NOTIFY_OK
  | CPU_ACTION_OTHER => mret NOTIFY_OK
  end.

(** *** Initialisation *)

(** Initialize a HFPLL at a given rate and enable it. *)
Definition hfpll_init (sc : Z) (tgt_s : speed_ptr) : M unit :=
  s ← load_sc sc;
  hfpll_disable sc;;
  writel_relaxed 0x7845C665 (hfpll_base s + HFPLL_CONFIG_CTL);;
  writel_relaxed 0 (hfpll_base s + HFPLL_M_VAL);;
  writel_relaxed 1 (hfpll_base s + HFPLL_N_VAL);;
  writel_relaxed 0x0108C000 (hfpll_base s + HFPLL_DROOP_CTL);;
  hfpll_set_rate sc tgt_s;;
  hfpll_enable sc.

(** Set initial rate for a given core. *)
Definition init_clock_sources (sc : Z) (tgt_s : speed_ptr) : M unit :=
  s ← load_sc sc;
  writel_relaxed 0x3 (aux_clk_sel s);;
  set_sec_clk_src sc SEC_SRC_SEL_AUX;;
  set_pri_clk_src sc PRI_SRC_SEL_SEC_SRC;;
  hfpll_init sc tgt_s;;
  regval ← get_l2_indirect_reg (l2cpmr_iaddr s);
  let regval := Z.land regval (Z.lnot (Z.shiftl 0x3 6)) in
  set_l2_indirect_reg (l2cpmr_iaddr s) regval;;
  tgt ← deref_speed (Some tgt_s);
  set_sec_clk_src sc (sec_src_sel tgt);;
  set_pri_clk_src sc (pri_src_sel tgt);;
  modify_sc sc (set_current_speed (Some tgt_s));;
  modify_sc sc (set_first_set_call true).

(** [per_cpu_init], run on [cpu] with the index of [max_acpu_level]. *)
Definition per_cpu_init (max_acpu_level : nat) (cpu : Z) : M unit :=
  tbl ← gets st_acpu_freq_tbl;
  l ← deref (tbl !! max_acpu_level);
  init_clock_sources cpu (acpu_speed max_acpu_level);;
  modify_sc cpu (set_l2_vote (acpu_l2_level l)).

(** A loop over the CPUs of a mask, in increasing order. *)
Fixpoint for_each_cpu (cpus : list Z) (body : Z → M unit) : M unit :=
  match cpus with
  | [] => mret tt
  | cpu :: rest => body cpu;; for_each_cpu rest body
  end.

(** Voltage regulator initialization.  [regulator_get] is taken to succeed;
    the handle it returns is named after the regulator. *)
Definition regulator_init : M unit :=
  for_each_cpu (cpu_possible_mask plat) (λ cpu,
    s ← load_sc cpu;
    let r := Some (name (sc_vreg s VREG_CORE)) in
    modify_sc cpu (set_sc_vreg VREG_CORE (λ v, set_reg v r));;
    max_vdd_ ← gets st_max_vdd;
    do_call (regulator_set_voltage r max_vdd_ max_vdd_);;
    do_call (regulator_enable r);;
    mret tt).

(** Register with bus driver. *)
Definition bus_init : M unit :=
  modify (set_bus_perf_client (bus_client plat));;
  cl ← gets st_bus_perf_client;
  if cl =? 0 then fault
  else
    do_call (msm_bus_scale_client_update_request cl (bw_level_tbl_size - 1));;
    mret tt.

Variable hdr : headers.

Definition zero_vreg : vreg :=
  {| name := ""; max_vdd := 0; rpm_vreg_voter := 0; rpm_vreg_id := 0;
     reg := None; cur_vdd := 0 |}.

Definition mk_vreg (n : string) (m voter id : Z) : vreg :=
  {| name := n; max_vdd := m; rpm_vreg_voter := voter; rpm_vreg_id := id;
     reg := None; cur_vdd := 0 |}.

Definition zero_scalable : scalable :=
  {| hfpll_base := 0; aux_clk_sel := 0; l2cpmr_iaddr := 0;
     current_speed := None; l2_vote := None; sc_vreg := λ _, zero_vreg;
     first_set_call := false |}.

(** The array [scalable_8960]; the entries [CPU2] and [CPU3] have no
    initialiser. *)
Definition scalable_8960 : list scalable :=
  [ {| hfpll_base := MSM_HFPLL_BASE hdr + 0x200;
       aux_clk_sel := MSM_ACC0_BASE hdr + 0x014;
       l2cpmr_iaddr := L2CPUCPMR_IADDR;
       current_speed := None; l2_vote := None;
       sc_vreg := λ r, match r with
         | VREG_CORE => mk_vreg "krait0" 1350000 0 0
         | VREG_MEM => mk_vreg "krait0_mem" 1150000
                         (RPM_VREG_VOTER1 hdr) (RPM_VREG_ID_PM8921_L24 hdr)
         | VREG_DIG => mk_vreg "krait0_dig" 1150000
                         (RPM_VREG_VOTER1 hdr) (RPM_VREG_ID_PM8921_S3 hdr)
         | VREG_HFPLL_A => mk_vreg "hfpll" 2100000
                         (RPM_VREG_VOTER1 hdr) (RPM_VREG_ID_PM8921_S8 hdr)
         | VREG_HFPLL_B => mk_vreg "hfpll" 1800000
                         (RPM_VREG_VOTER1 hdr) (RPM_VREG_ID_PM8921_L23 hdr)
         end;
       first_set_call := false |};
    {| hfpll_base := MSM_HFPLL_BASE hdr + 0x300;
       aux_clk_sel := MSM_ACC1_BASE hdr + 0x014;
       l2cpmr_iaddr := L2CPUCPMR_IADDR;
       current_speed := None; l2_vote := None;
       sc_vreg := λ r, match r with
         | VREG_CORE => mk_vreg "krait1" 1350000 0 0
         | VREG_MEM => mk_vreg "krait0_mem" 1150000
                         (RPM_VREG_VOTER2 hdr) (RPM_VREG_ID_PM8921_L24 hdr)
         | VREG_DIG => mk_vreg "krait0_dig" 1150000
                         (RPM_VREG_VOTER2 hdr) (RPM_VREG_ID_PM8921_S3 hdr)
         | VREG_HFPLL_A => mk_vreg "hfpll" 2100000
                         (RPM_VREG_VOTER2 hdr) (RPM_VREG_ID_PM8921_S8 hdr)
         | VREG_HFPLL_B => mk_vreg "hfpll" 1800000
                         (RPM_VREG_VOTER2 hdr) (RPM_VREG_ID_PM8921_L23 hdr)
         end;
       first_set_call := false |};
    zero_scalable;
    zero_scalable;
    {| hfpll_base := MSM_HFPLL_BASE hdr + 0x400;
       aux_clk_sel := MSM_APCS_GCC_BASE hdr + 0x028;
       l2cpmr_iaddr := L2CPMR_IADDR;
       current_speed := None; l2_vote := None;
       sc_vreg := λ r, match r with
         | VREG_HFPLL_A => mk_vreg "hfpll" 2100000
                         (RPM_VREG_VOTER6 hdr) (RPM_VREG_ID_PM8921_S8 hdr)
         | VREG_HFPLL_B => mk_vreg "hfpll" 1800000
                         (RPM_VREG_VOTER6 hdr) (RPM_VREG_ID_PM8921_L23 hdr)
         | _ => zero_vreg
         end;
       first_set_call := false |} ].

(** The globals once [select_freq_plan] has run, over the registers as the
    boot loader left them. *)
Definition plan_state (plan : freq_plan) (l2_indirect0 iomem0 : Z → Z) : state :=
  {| st_scalable := scalable_8960;
     st_l2_freq_tbl := l2_freq_tbl_8960_kraitv2;
     st_acpu_freq_tbl := plan_acpu_freq_tbl plan;
     st_max_vdd := plan_max_vdd plan;
     st_bus_perf_client := 0;
     st_l2_indirect := l2_indirect0;
     st_iomem := iomem0;
     st_footprint := λ _, 0;
     st_prev_khz := λ _, 0;
     st_prev_pri_src := λ _, 0;
     st_prev_sec_src := λ _, 0;
     st_trace := [] |}.

(** [acpuclk_8960_init]: the state the driver starts from.  The cpufreq
    table and the registration of the driver and of the hotplug notifier
    are left out. *)
Definition acpuclk_8960_init (l2_indirect0 iomem0 : Z → Z) : result (Z * state) :=
  match select_freq_plan hdr plat with
  | Fault => Fault
  | Ok plan =>
      (let max_acpu_level := plan_max_acpu_level plan in
       tbl ← gets st_acpu_freq_tbl;
       l ← deref (tbl !! max_acpu_level);
       j ← deref (acpu_l2_level l);
       init_clock_sources L2 (l2_speed_ptr j);;
       for_each_cpu (cpu_online_mask plat) (per_cpu_init max_acpu_level);;
       regulator_init;;
       bus_init;;
       mret 0) (plan_state plan l2_indirect0 iomem0)
  end.

End Driver.
(** ** The other entry points of the driver *)

(** *** The table handed to cpufreq *)

(** [CPUFREQ_TABLE_END] of linux/cpufreq.h: [~1] as an [unsigned int]. *)
Definition CPUFREQ_TABLE_END : Z := u32 (Z.lnot 1).

(** [struct cpufreq_frequency_table] of linux/cpufreq.h. *)
Record cpufreq_frequency_table : Set := {
  index : Z;
  frequency : Z
}.

(** The number of entries of a row of [freq_table], which the source
    writes as [ARRAY_SIZE] of a row. *)
Definition freq_table_row_size : Z := 30.

(** The loop of [cpufreq_table_init] over [acpu_freq_tbl[i]].  [row] holds
    the entries of [freq_table[cpu]] written so far, so [freq_cnt] is its
    length; the result is the table from [acpu_freq_tbl[i]] on at the exit
    of the loop, and the row. *)
Fixpoint cpufreq_table_loop (tbl : list acpu_level)
    (row : list cpufreq_frequency_table)
  : list acpu_level * list cpufreq_frequency_table :=
  match tbl with
  | [] => ([], row)
  | l :: rest =>
      if negb (khz (speed l) =? 0)
         && (Z.of_nat (length row) <? freq_table_row_size)
      then
        cpufreq_table_loop rest
          (if negb (use_for_scaling l =? 0)
           then row ++ [ {| index := Z.of_nat (length row);
                            frequency := khz (speed l) |} ]
           else row)
      else (tbl, row)
  end.

(** The body of [cpufreq_table_init] for one CPU: the row of that CPU up to
    its end marker.  [BUG_ON] stops it when the loop left on a full row; and
    when the row is full at the sentinel, the end marker falls behind the
    last entry of the row, which counts as a write out of range. *)
Definition cpufreq_table_row (tbl : list acpu_level)
  : result (list cpufreq_frequency_table) :=
  let '(rest, row) := cpufreq_table_loop tbl [] in
  if match rest with
     | l :: _ => negb (khz (speed l) =? 0)
     | [] => false
     end
  then Fault
  else if Z.of_nat (length row) <? freq_table_row_size
  then Ok (row ++ [ {| index := Z.of_nat (length row);
                       frequency := CPUFREQ_TABLE_END |} ])
  else Fault.

(** [cpufreq_table_init] under CONFIG_CPU_FREQ_MSM: the rows registered
    with cpufreq, one for each possible CPU. *)
Fixpoint cpufreq_table_init (cpus : list Z) (tbl : list acpu_level)
  : result (list (Z * list cpufreq_frequency_table)) :=
  match cpus with
  | [] => Ok []
  | cpu :: rest =>
      match cpufreq_table_row tbl with
      | Fault => Fault
      | Ok row =>
          match cpufreq_table_init rest tbl with
          | Fault => Fault
          | Ok rows => Ok ((cpu, row) :: rows)
          end
      end
  end.

(** *** Voltages set from a list *)

(** [a[i]] for an array [a] of [int] and a C index [i]. *)
Definition int_at (a : list Z) (i : Z) : option Z :=
  if 0 <=? i then a !! Z.to_nat i else None.

(** The body of the two loops of [acpuclk_UV_mV_table]: the entry
    [acpu_freq_tbl[i+1]] takes [vdd_uv[j]*1000] when that lies within
    [MIN_VDD_SC] and [MAX_VDD_SC].  The product is an [int]; it wraps
    around, as the kernel is built with -fno-strict-overflow. *)
Definition UV_mV_step (vdd_uv : list Z) (i j : Z) (tbl : list acpu_level)
  : option (list acpu_level) :=
  v ← int_at vdd_uv j;
  let uv := s32 (v * 1000) in
  if (uv >=? MIN_VDD_SC) && (uv <=? MAX_VDD_SC) then
    l ← tbl !! Z.to_nat (i + 1);
    Some (<[Z.to_nat (i + 1) := set_vdd_core l (u32 uv)]> tbl)
  else Some tbl.

(** [for (i = 0; i < cnt; i++)] of the first branch, with [n] rounds left. *)
Fixpoint UV_mV_loop_up (n : nat) (i : Z) (vdd_uv : list Z)
    (tbl : list acpu_level) : option (list acpu_level) :=
  match n with
  | O => Some tbl
  | S n' =>
      tbl' ← UV_mV_step vdd_uv i i tbl;
      UV_mV_loop_up n' (i + 1) vdd_uv tbl'
  end.

(** The loop of the second branch, where [j] runs down from [cnt-1]. *)
Fixpoint UV_mV_loop_down (n : nat) (i j : Z) (vdd_uv : list Z)
    (tbl : list acpu_level) : option (list acpu_level) :=
  match n with
  | O => Some tbl
  | S n' =>
      tbl' ← UV_mV_step vdd_uv i j tbl;
      UV_mV_loop_down n' (i + 1) (j - 1) vdd_uv tbl'
  end.

(** [acpuclk_UV_mV_table] on the table; [None] is a read or a write out of
    the range of an array. *)
Definition acpuclk_UV_mV_table_tbl (cnt : Z) (vdd_uv : list Z)
    (tbl : list acpu_level) : option (list acpu_level) :=
  first ← int_at vdd_uv 0;
  last ← int_at vdd_uv (cnt - 1);
  if first <? last then UV_mV_loop_up (Z.to_nat cnt) 0 vdd_uv tbl
  else UV_mV_loop_down (Z.to_nat cnt) 0 (cnt - 1) vdd_uv tbl.

(** [acpuclk_UV_mV_table] on the active table. *)
Definition acpuclk_UV_mV_table (cnt : Z) (vdd_uv : list Z) : M unit :=
  tbl ← gets st_acpu_freq_tbl;
  tbl' ← deref (acpuclk_UV_mV_table_tbl cnt vdd_uv tbl);
  modify (set_acpu_freq_tbl tbl').

(** ** Sequences of calls into the driver *)

Inductive op : Set :=
  | op_set_rate (cpu rate : Z) (reason : setrate_reason)
  | op_set_vdd (khz_ vdd_uv : Z)
  | op_hotplug (action : hotplug_action) (cpu : Z).

Definition run_op (plat : platform) (be : backend) (o : op) : M unit :=
  match o with
  | op_set_rate cpu rate reason =>
      acpuclk_8960_set_rate plat be cpu rate reason;; mret tt
  | op_set_vdd khz_ vdd_uv => acpuclk_set_vdd khz_ vdd_uv
  | op_hotplug action cpu => acpuclock_cpu_callback plat be action cpu;; mret tt
  end.

Fixpoint run_ops (plat : platform) (be : backend) (ops : list op) : M unit :=
  match ops with
  | [] => mret tt
  | o :: rest => run_op plat be o;; run_ops plat be rest
  end.

(** The *dying* event of [cpu], which overwrites what an earlier *dying*
    event of that CPU saved. *)
Definition is_dying_of (cpu : Z) (o : op) : Prop :=
  o = op_hotplug CPU_DYING cpu ∨ o = op_hotplug CPU_DYING_FROZEN cpu.

(** ** Notions used in the statements *)

(** A property of the state that a run of [m] carries over. *)
Definition stable {A} (P : state → Prop) (m : M A) : Prop :=
  ∀ st a st', m st = Ok (a, st') → P st → P st'.

(** A property that does not look at the registers, the footprint words or
    the trace. *)
Record hw_closed (P : state → Prop) : Prop := {
  hw_l2_indirect st m : P st → P (set_l2_indirect m st);
  hw_iomem st m : P st → P (set_iomem m st);
  hw_footprint st m : P st → P (set_footprint m st);
  hw_trace st t : P st → P (set_trace t st)
}.

(** A property that survives the update [g] of [scalable[i]]. *)
Definition sc_closed (P : state → Prop) (i : Z) (g : scalable → scalable)
  : Prop :=
  ∀ st s, sc_lookup (st_scalable st) i = Some s →
          P st → P (set_scalable (<[Z.to_nat i := g s]> (st_scalable st)) st).

(** A property that survives every update the transition engine makes to
    the entry of [cpu] and to the entry of the L2. *)
Record engine_closed (P : state → Prop) (cpu : Z) : Prop := {
  eng_hw : hw_closed P;
  eng_speed p : sc_closed P cpu (set_current_speed p);
  eng_vote v : sc_closed P cpu (set_l2_vote v);
  eng_vreg r uv : sc_closed P cpu (set_sc_vreg r (λ v, set_cur_vdd v uv));
  eng_first : sc_closed P cpu (set_first_set_call false);
  eng_l2_speed p : sc_closed P L2 (set_current_speed p)
}.

(** The request one rail receives. *)
Definition rail_call (s : scalable) (r : vregs) (uV : Z) : call :=
  match r with
  | VREG_CORE =>
      regulator_set_voltage (reg (sc_vreg s VREG_CORE)) uV
                            (max_vdd (sc_vreg s VREG_CORE))
  | _ =>
      rpm_vreg_set_voltage (rpm_vreg_id (sc_vreg s r))
                           (rpm_vreg_voter (sc_vreg s r)) uV
                           (max_vdd (sc_vreg s r)) 0
  end.

(** A rail's part of the trace: no call, or the one call [c]. *)
Definition at_most_one (c : call) (seg : list (call * Z)) : Prop :=
  seg = [] ∨ ∃ rc, seg = [(c, rc)].

(** One step of the rail sequencer, in the words of the specification: it
    is skipped, or the backend accepts the call and the cached value becomes
    the requested one, or the backend refuses and the cached value stays. *)
Inductive spec_rail_step (c : call) (cur new : Z)
  : list (call * Z) → Z → Prop :=
  | rail_step_skipped : spec_rail_step c cur new [] cur
  | rail_step_applied : spec_rail_step c cur new [(c, 0)] new
  | rail_step_refused e : e ≠ 0 → spec_rail_step c cur new [(c, e)] cur.

(** Every call of a part of the trace was accepted. *)
Definition accepted (seg : list (call * Z)) : Prop :=
  Forall (λ ce, ce.2 = 0) seg.


(** The field [proj] of [scalable[i]] holds [x]. *)
Definition sc_field {V} (proj : scalable → V) (i : Z) (x : V) (st : state)
  : Prop :=
  proj <$> sc_lookup (st_scalable st) i = Some x.

(** The tables are [acpu] and [l2]. *)
Definition tables_are (acpu : list acpu_level) (l2 : list l2_level)
    (st : state) : Prop :=
  st_acpu_freq_tbl st = acpu ∧ st_l2_freq_tbl st = l2.

(** A CPU, as opposed to the L2. *)
Definition is_cpu (cpu : Z) : Prop := 0 ≤ cpu < L2.

(** [m] runs without a fault from [st], and its result and final state
    satisfy [Q]. *)
Definition wp {A} (m : M A) (st : state) (Q : A → state → Prop) : Prop :=
  ∃ a st', m st = Ok (a, st') ∧ Q a st'.

(** The cached voltage of rail [r] of a [scalable] entry. *)
Definition cached (s : scalable) (r : vregs) : Z := cur_vdd (sc_vreg s r).

(** The outcome of one step of the rail sequencer: the step issues its call
    exactly when it is wanted and every earlier call of the same run was
    accepted, and then follows [spec_rail_step]. *)
Definition spec_step_outcome (wanted : Prop) (c : call) (cur new : Z)
    (earlier seg : list (call * Z)) (cur' : Z) : Prop :=
  spec_rail_step c cur new seg cur' ∧
  (seg ≠ [] ↔ wanted ∧ accepted earlier).

(** The return code that reports the calls [segs] to the caller: 0 when all
    were accepted, and otherwise the code of the refused call. *)
Definition reports (segs : list (call * Z)) (rc : Z) : Prop :=
  (accepted segs → rc = 0) ∧ (∀ c e, (c, e) ∈ segs → e ≠ 0 → rc = e).

(** A property that survives the hotplug callback for [action] on [cpu]. *)
Record hotplug_closed (P : state → Prop) (action : hotplug_action) (cpu : Z)
  : Prop := {
  hp_engine : engine_closed P cpu;
  hp_prev_khz st x :
    P st → P (set_prev_khz (upd (st_prev_khz st) cpu x) st);
  hp_prev_sec st x :
    action = CPU_DYING ∨ action = CPU_DYING_FROZEN →
    P st → P (set_prev_sec_src (upd (st_prev_sec_src st) cpu x) st);
  hp_prev_pri st x :
    action = CPU_DYING ∨ action = CPU_DYING_FROZEN →
    P st → P (set_prev_pri_src (upd (st_prev_pri_src st) cpu x) st)
}.

(** A property that survives the call [o]. *)
Definition op_closed (P : state → Prop) (o : op) : Prop :=
  match o with
  | op_set_rate cpu _ _ => engine_closed P cpu
  | op_set_vdd _ _ => ∀ st t, P st → P (set_acpu_freq_tbl t st)
  | op_hotplug action cpu => hotplug_closed P action cpu
  end.

(** What the *dying* event of [cpu] saved: the two mux selections, to be
    written back to the register [iaddr] of that CPU. *)
Definition saved_mux (cpu pri sec iaddr : Z) (st : state) : Prop :=
  st_prev_pri_src st cpu = pri ∧ st_prev_sec_src st cpu = sec ∧
  sc_field l2cpmr_iaddr cpu iaddr st.

(** The entries of a table before its sentinel. *)
Fixpoint table_entries (tbl : list acpu_level) : list acpu_level :=
  match tbl with
  | [] => []
  | l :: rest => if khz (speed l) =? 0 then [] else l :: table_entries rest
  end.
(** The frequencies of a list of operating points increase from each entry
    to the next. *)
Fixpoint increasing_khz (tbl : list acpu_level) : bool :=
  match tbl with
  | a :: rest =>
      match rest with
      | b :: _ => (khz (speed a) <? khz (speed b)) && increasing_khz rest
      | [] => true
      end
  | [] => true
  end.

(** Two entries are the same operating point: they differ in the core
    voltage at most. *)
Definition same_point (l l' : acpu_level) : Prop :=
  speed l' = speed l ∧ use_for_scaling l' = use_for_scaling l ∧
  acpu_l2_level l' = acpu_l2_level l.

(** What [acpuclk_UV_mV_table] does to an entry it is given the value [v]
    for: the entry takes the core voltage [v*1000] when that lies within
    [MIN_VDD_SC] and [MAX_VDD_SC], and stays as it is otherwise. *)
Definition UV_mV_entry (v : Z) (l : acpu_level) : acpu_level :=
  let uv := s32 (v * 1000) in
  if (uv >=? MIN_VDD_SC) && (uv <=? MAX_VDD_SC) then set_vdd_core l (u32 uv)
  else l.

(** An entry after a change of the voltages, against the entry before: the
    same operating point, with the core voltage it had or one within
    [MIN_VDD_SC] and [MAX_VDD_SC]. *)
Definition revolted (l l' : acpu_level) : Prop :=
  same_point l l' ∧
  (vdd_core l' = vdd_core l ∨ MIN_VDD_SC ≤ vdd_core l' ≤ MAX_VDD_SC).

(** The request to the RPM for the supply [r] of the entry [s]. *)
Definition hfpll_supply_call (s : scalable) (r : vregs) (min_uV max_uV : Z)
  : call :=
  rpm_vreg_set_voltage (rpm_vreg_id (sc_vreg s r))
    (rpm_vreg_voter (sc_vreg s r)) min_uV max_uV 0.

(** A vote for the supplies of the HFPLL of the entry [s]: [hfpll_enable]
    asks the RPM for 2.1 V on [VREG_HFPLL_A] and for 1.8 V on
    [VREG_HFPLL_B], [hfpll_disable] withdraws both requests. *)
Definition hfpll_vote (s : scalable) (c : call) : Prop :=
  c = hfpll_supply_call s VREG_HFPLL_A 2100000
        (max_vdd (sc_vreg s VREG_HFPLL_A)) ∨
  c = hfpll_supply_call s VREG_HFPLL_B 1800000
        (max_vdd (sc_vreg s VREG_HFPLL_B)) ∨
  c = hfpll_supply_call s VREG_HFPLL_B 0 0 ∨
  c = hfpll_supply_call s VREG_HFPLL_A 0 0.

(** A vote for the supplies of the HFPLL of [cpu] or of the L2, with the
    entries as they are in [st]. *)
Definition hfpll_votes_of (st : state) (cpu : Z) (c : call) : Prop :=
  ∃ i s, (i = cpu ∨ i = L2) ∧ sc_lookup (st_scalable st) i = Some s ∧
         hfpll_vote s c.

(** The entries of [scalable] at the indices [idx]. *)
Definition entries_at (st : state) (idx : list Z) : list scalable :=
  omap (sc_lookup (st_scalable st)) idx.

(** A request for a rail or for bus bandwidth: a call of the regulator of a
    core rail, a request to the RPM under the id of the memory or the dig
    rail of one of the CPUs [cpus], or a request to the bus driver. *)
Definition rail_request (st : state) (cpus : list Z) (c : call) : Prop :=
  match c with
  | rpm_vreg_set_voltage id _ _ _ _ =>
      ∃ t r, t ∈ entries_at st cpus ∧ (r = VREG_MEM ∨ r = VREG_DIG) ∧
             rpm_vreg_id (sc_vreg t r) = id
  | _ => True
  end.

(** No HFPLL supply of [cpu] or of the L2 goes by the RPM id of the memory
    or the dig rail of one of the CPUs [cpus]. *)
Definition hfpll_supplies_apart (st : state) (cpus : list Z) (cpu : Z)
  : bool :=
  forallb (λ s,
    forallb (λ t,
      forallb (λ a,
        forallb (λ r,
          negb (rpm_vreg_id (sc_vreg s a) =? rpm_vreg_id (sc_vreg t r)))
          [VREG_MEM; VREG_DIG])
        [VREG_HFPLL_A; VREG_HFPLL_B])
      (entries_at st cpus))
    (entries_at st [cpu; L2]).

(** A request to the regulator of a core rail. *)
Definition core_regulator_call (c : call) : Prop :=
  match c with
  | regulator_set_voltage _ _ _ => True
  | regulator_enable _ => True
  | _ => False
  end.

(** From [st0] to [st] the driver made calls that satisfy [C] only. *)
Definition calls_only (C : call → Prop) (st0 st : state) : Prop :=
  ∃ seg, st_trace st = st_trace st0 ++ seg ∧ Forall (λ ce, C ce.1) seg.

(** The field [proj] of every entry of [scalable] is in [st] what it was in
    [st0]. *)
Definition sc_same {V} (proj : scalable → V) (st0 st : state) : Prop :=
  ∀ i, proj <$> sc_lookup (st_scalable st) i
       = proj <$> sc_lookup (st_scalable st0) i.

(** The clock registers of [st] hold what they held in [st0]: the CP15 L2
    indirect registers, where the muxes live, and the memory-mapped
    registers, where the HFPLLs live. *)
Definition regs_same (st0 st : state) : Prop :=
  st_l2_indirect st = st_l2_indirect st0 ∧ st_iomem st = st_iomem st0.

(** [m] runs from [st] without a fault. *)
Definition runs {A} (m : M A) (st : state) : Prop :=
  ∃ a st', m st = Ok (a, st').

(** The [scalable] array of [st] is [l]. *)
Definition scalable_is (l : list scalable) (st : state) : Prop :=
  st_scalable st = l.

(** From [st] to [st'] the [scalable] array and the tables are the same. *)
Definition sw_same (st st' : state) : Prop :=
  st_scalable st' = st_scalable st ∧
  tables_are (st_acpu_freq_tbl st) (st_l2_freq_tbl st) st'.

(** From [st] to [st'] the register [k] of the register file [f] took the
    value [v], and no other register of it changed. *)
Definition wrote (f : state → Z → Z) (st st' : state) (k v : Z) : Prop :=
  f st' k = v ∧ ∀ k', k' ≠ k → f st' k' = f st k'.

(** The word [set_pri_clk_src] writes over the word [r]. *)
Definition pri_word (r x : Z) : Z :=
  Z.lor (Z.land r (Z.lnot 0x3)) (Z.land x 0x3).

(** The last word [set_sec_clk_src] writes over the word [r]. *)
Definition sec_word (r x : Z) : Z :=
  Z.land
    (Z.lor (Z.land (Z.lor r SECCLKAGD) (Z.lnot (Z.shiftl 0x3 2)))
           (Z.shiftl (Z.land x 0x3) 2))
    (Z.lnot SECCLKAGD).

(** The current speed of the entry [s] is an entry of a table of [st]. *)
Definition speed_ok (st : state) (s : scalable) : Prop :=
  is_Some (speed_at st (current_speed s)).

(** The L2 vote of the entry [s], when it has one, is an entry of the L2
    table of [st]. *)
Definition vote_ok (st : state) (s : scalable) : Prop :=
  ∀ j, l2_vote s = Some j → (j < length (st_l2_freq_tbl st))%nat.

(** The pointers of the driver are sound: every operating point before the
    sentinel names an entry of the L2 table, which is not empty; the L2 and
    the online CPUs have a current speed in the tables; and the vote of
    every present CPU is null or an entry of the L2 table. *)
Definition well_formed (plat : platform) (st : state) : Prop :=
  (∀ l, l ∈ table_entries (st_acpu_freq_tbl st) →
        ∃ j, acpu_l2_level l = Some j ∧
             (j < length (st_l2_freq_tbl st))%nat) ∧
  (0 < length (st_l2_freq_tbl st))%nat ∧
  (∃ s, sc_lookup (st_scalable st) L2 = Some s ∧ speed_ok st s) ∧
  (∀ cpu, cpu ∈ cpu_present_mask plat →
          ∃ s, sc_lookup (st_scalable st) cpu = Some s ∧ vote_ok st s) ∧
  (∀ cpu, cpu ∈ cpu_online_mask plat →
          ∃ s, sc_lookup (st_scalable st) cpu = Some s ∧ speed_ok st s).

(** A well-formed state whose tables are [acpu] and [l2]. *)
Definition well_formed_at (plat : platform) (acpu : list acpu_level)
    (l2 : list l2_level) (st : state) : Prop :=
  tables_are acpu l2 st ∧ well_formed plat st.

(** A call into the driver that concerns an online CPU, or none. *)
Definition op_online (plat : platform) (o : op) : Prop :=
  match o with
  | op_set_rate cpu _ _ => cpu ∈ cpu_online_mask plat
  | op_set_vdd _ _ => True
  | op_hotplug _ cpu => cpu ∈ cpu_online_mask plat
  end.

(** A property that survives the updates the initialisation makes to the
    [scalable] entries once the L2 has its clock source: the current speed
    becomes the one of the level [max], [first_set_call] is set, the vote
    becomes [v], and the core regulator takes a handle; and the bus client
    is registered. *)
Record init_closed (P : state → Prop) (max : nat) (v : option nat)
  : Prop := {
  ini_hw : hw_closed P;
  ini_speed c : sc_closed P c (set_current_speed (Some (acpu_speed max)));
  ini_first c : sc_closed P c (set_first_set_call true);
  ini_vote c : sc_closed P c (set_l2_vote v);
  ini_reg c r : sc_closed P c (set_sc_vreg VREG_CORE (λ x, set_reg x r));
  ini_bus st cl : P st → P (set_bus_perf_client cl st)
}.

(** The field [proj] of [scalable[i]] holds [x] or [y]. *)
Definition sc_field_or {V} (proj : scalable → V) (i : Z) (x y : V)
    (st : state) : Prop :=
  sc_field proj i x st ∨ sc_field proj i y st.

(** ** A concrete machine

    A dual-core MSM8960 (Krait v2) with the slow table fused in.  The values
    given to the constants of the absent headers only tell them apart; no
    result depends on them. *)

Definition hdr_8960 : headers :=
  {| MSM_HFPLL_BASE := 0x1000; MSM_ACC0_BASE := 0x2000;
     MSM_ACC1_BASE := 0x3000; MSM_APCS_GCC_BASE := 0x4000;
     RPM_VREG_VOTER1 := 1; RPM_VREG_VOTER2 := 2; RPM_VREG_VOTER6 := 6;
     RPM_VREG_ID_PM8921_L24 := 24; RPM_VREG_ID_PM8921_S3 := 103;
     RPM_VREG_ID_PM8921_S8 := 108; RPM_VREG_ID_PM8921_L23 := 23;
     KERNEL_FLAG_PVS_SLOW_CPU := BIT 27; KERNEL_FLAG_PVS_NOM_CPU := BIT 28;
     KERNEL_FLAG_PVS_FAST_CPU := BIT 29 |}.

Definition plat_8960 : platform :=
  {| cpu_is_msm8960 := true; cpu_is_msm8930 := false;
     cpu_is_msm8627 := false; cpu_is_krait_v1 := false;
     pte_efuse := 0; read_cpuid_id := 0x511F04D4; get_kernel_flag := 0;
     acpu_max_freq := 0;
     cpu_possible_mask := [0; 1]; cpu_present_mask := [0; 1];
     cpu_online_mask := [0; 1]; bus_client := 1 |}.

(** The same machine built with [CONFIG_ACPU_MAX_FREQ=1512000]. *)
Definition plat_8960_max_1512000 : platform :=
  {| cpu_is_msm8960 := true; cpu_is_msm8930 := false;
     cpu_is_msm8627 := false; cpu_is_krait_v1 := false;
     pte_efuse := 0; read_cpuid_id := 0x511F04D4; get_kernel_flag := 0;
     acpu_max_freq := 1512000;
     cpu_possible_mask := [0; 1]; cpu_present_mask := [0; 1];
     cpu_online_mask := [0; 1]; bus_client := 1 |}.

(** A backend that accepts every request. *)
Definition be_ok : backend := λ _ _, 0.

(** A backend whose core regulator refuses to go below 1 V. *)
Definition be_core_floor : backend := λ _ c,
  match c with
  | regulator_set_voltage _ min_uV _ => if min_uV <? 1000000 then - EINVAL else 0
  | _ => 0
  end.

Definition empty_state : state :=
  {| st_scalable := []; st_l2_freq_tbl := []; st_acpu_freq_tbl := [];
     st_max_vdd := 0; st_bus_perf_client := 0;
     st_l2_indirect := λ _, 0; st_iomem := λ _, 0; st_footprint := λ _, 0;
     st_prev_khz := λ _, 0; st_prev_pri_src := λ _, 0;
     st_prev_sec_src := λ _, 0; st_trace := [] |}.

(** The state a result carries, for running one call after another. *)
Definition state_of {A} (r : result (A * state)) : state :=
  match r with
  | Ok (_, st) => st
  | Fault => empty_state
  end.

(** The entry [scalable[i]] of a state. *)
Definition sc_of (st : state) (i : Z) : scalable :=
  default zero_scalable (sc_lookup (st_scalable st) i).

(** The driver after [acpuclk_8960_init] on that machine, all registers
    reading zero beforehand: both CPUs and the L2 run at the 2160 MHz
    point and its L2 level, and no rail has a cached voltage yet. *)
Definition boot_8960 (be : backend) : state :=
  state_of (acpuclk_8960_init plat_8960 be hdr_8960 (λ _, 0) (λ _, 0)).

(** ... and after a first transition of CPU 0 to 1512 MHz. *)
Definition at_1512_8960 (be : backend) : state :=
  state_of (acpuclk_8960_set_rate plat_8960 be 0 1512000 SETRATE_CPUFREQ
              (boot_8960 be)).

(** ... and after CPU 0 then goes down to 384 MHz. *)
Definition at_384_8960 (be : backend) : state :=
  state_of (acpuclk_8960_set_rate plat_8960 be 0 384000 SETRATE_CPUFREQ
              (at_1512_8960 be)).

(** The driver after boot and an idle entry of CPU 0, which asks for the
    standby frequency for the wait-for-interrupt reason. *)
Definition idle_8960 (be : backend) : state :=
  state_of (acpuclk_8960_set_rate plat_8960 be 0 STBY_KHZ SETRATE_SWFI
              (boot_8960 be)).

(** The calls while CPU 1 is down: it is declared dead, CPU 0 changes its
    frequency, and CPU 1 is prepared to come up again. *)
Definition while_cpu1_down : list op :=
  [ op_hotplug CPU_DEAD 1;
    op_set_rate 0 384000 SETRATE_CPUFREQ;
    op_hotplug CPU_UP_PREPARE 1 ].

(** CPU 1 goes down and comes up again while CPU 0 runs at 1512 MHz. *)
Definition cpu1_dying (be : backend) : state :=
  state_of (acpuclock_cpu_callback plat_8960 be CPU_DYING 1 (at_1512_8960 be)).

Definition cpu1_down (be : backend) : state :=
  state_of (run_ops plat_8960 be while_cpu1_down (cpu1_dying be)).

(** A backend that refuses every request. *)
Definition be_refuse : backend := λ _ _, - EINVAL.

(** The driver after boot and a list of voltages in mV given to
    [acpuclk_UV_mV_table], of which the first and the last are out of
    range. *)
Definition revolted_8960 (be : backend) : state :=
  state_of (acpuclk_UV_mV_table 3 [300; 950; 2000] (boot_8960 be)).

(** CPU 1 taken to the standby speed for hotplug while CPU 0 runs at
    1512 MHz. *)
Definition cpu1_standby (be : backend) : state :=
  state_of (acpuclk_8960_set_rate plat_8960 be 1 STBY_KHZ SETRATE_HOTPLUG
              (at_1512_8960 be)).

(** A transition of CPU 0 from 384 MHz up to 1512 MHz that the regulators
    refuse. *)
Definition refused_8960 (be : backend) : state :=
  state_of (acpuclk_8960_set_rate plat_8960 be_refuse 0 1512000
              SETRATE_CPUFREQ (at_384_8960 be)).

(** CPU 1 is taken down and brought up again, while CPU 0 changes its
    frequency and the core voltages are lowered by 25 mV. *)
Definition hotplug_cycle : list op :=
  [ op_hotplug CPU_DYING 1;
    op_hotplug CPU_DEAD 1;
    op_set_rate 0 384000 SETRATE_CPUFREQ;
    op_set_vdd 0 (-25000);
    op_hotplug CPU_UP_PREPARE 1;
    op_hotplug CPU_STARTING 1 ].

(** * Properties *)

(** ** Voltage requirements *)

(** C5: the core-rail and cache-rail requirements are the maximum of the
    nominal value of the table and the PLL floor of the relevant speed (none
    off the HFPLL, 1100000 uV above the threshold 0x28, 800000 uV at or
    below it); the memory-rail requirement is the nominal value. *)
Theorem calculate_vdd_floor (l2_freq_tbl : list l2_level) (tgt : acpu_level)
    (j : nat) (l : l2_level) :
  acpu_l2_level tgt = Some j →
  l2_freq_tbl !! j = Some l →
  (∃ floor_core,
      spec_pll_floor (speed tgt) floor_core ∧
      calculate_vdd_core tgt = Z.max (vdd_core tgt) floor_core) ∧
  (∃ floor_dig,
      spec_pll_floor (l2_speed l) floor_dig ∧
      calculate_vdd_dig l2_freq_tbl tgt = Some (Z.max (vdd_dig l) floor_dig)) ∧
  calculate_vdd_mem l2_freq_tbl tgt = Some (vdd_mem l).
Proof.
  intros Hj Hl.
  unfold calculate_vdd_core, calculate_vdd_dig, calculate_vdd_mem, l2_level_at.
  rewrite Hj; simpl; rewrite Hl; simpl.
  split; [|split; [|reflexivity]].
  - destruct (src (speed tgt) =? HFPLL) eqn:Hs; simpl.
    + apply Z.eqb_eq in Hs.
      destruct (pll_l_val (speed tgt) >? HFPLL_LOW_VDD_PLL_L_MAX) eqn:Hp.
      * exists 1100000. split; [|reflexivity].
        apply floor_high; [assumption|].
        unfold HFPLL_LOW_VDD_PLL_L_MAX in Hp. lia.
      * exists 800000. split; [|reflexivity].
        apply floor_low; [assumption|].
        unfold HFPLL_LOW_VDD_PLL_L_MAX in Hp. lia.
    + apply Z.eqb_neq in Hs.
      exists 0. split; [|reflexivity]. by apply floor_not_pll.
  - destruct (src (l2_speed l) =? HFPLL) eqn:Hs; simpl.
    + apply Z.eqb_eq in Hs.
      destruct (pll_l_val (l2_speed l) >? HFPLL_LOW_VDD_PLL_L_MAX) eqn:Hp.
      * exists 1100000. split; [|reflexivity].
        apply floor_high; [assumption|].
        unfold HFPLL_LOW_VDD_PLL_L_MAX in Hp. lia.
      * exists 800000. split; [|reflexivity].
        apply floor_low; [assumption|].
        unfold HFPLL_LOW_VDD_PLL_L_MAX in Hp. lia.
    + apply Z.eqb_neq in Hs.
      exists 0. split; [|reflexivity]. by apply floor_not_pll.
Qed.

(** The 1512 MHz point of the slow table, whose L2 level is entry 18. *)
Lemma calculate_vdd_floor_witness :
  calculate_vdd_core (AL 1 (CS 1512000 HFPLL 1 0 0x38) (L2_ 18) 1250000)
    = 1250000 ∧
  calculate_vdd_dig l2_freq_tbl_8960_kraitv2
    (AL 1 (CS 1512000 HFPLL 1 0 0x38) (L2_ 18) 1250000) = Some 1150000 ∧
  calculate_vdd_mem l2_freq_tbl_8960_kraitv2
    (AL 1 (CS 1512000 HFPLL 1 0 0x38) (L2_ 18) 1250000) = Some 1150000.
Proof.
  destruct (calculate_vdd_floor l2_freq_tbl_8960_kraitv2
              (AL 1 (CS 1512000 HFPLL 1 0 0x38) (L2_ 18) 1250000) 18
              (L2L (CS 1350000 HFPLL 1 0 0x30) 1150000 1150000 6)
              eq_refl eq_refl) as (_ & _ & Hmem).
  split; [reflexivity | split; [reflexivity | exact Hmem]].
Defined.

(** ** Run-time voltage adjustment *)

Lemma acpuclk_set_vdd_loop_spec khz_ vdd_uv tbl :
  Forall2 (spec_set_vdd_entry khz_) tbl (acpuclk_set_vdd_loop khz_ vdd_uv tbl).
Proof.
  assert (Hrefl : ∀ l, spec_set_vdd_entry khz_ l l).
  { intros l. split; [by left | done]. }
  induction tbl as [|l rest IH]; simpl; [constructor|].
  destruct (khz (speed l) =? 0) eqn:Hz.
  { apply Forall2_same_length_lookup_2; [done|].
    intros i x y Hx Hy. rewrite Hx in Hy. injection Hy as <-. apply Hrefl. }
  constructor; [|exact IH].
  destruct (khz_ =? 0) eqn:Hk.
  - apply Z.eqb_eq in Hk. split; [|intros []; exact Hk].
    right. split; [reflexivity|]. simpl.
    change (u32 MIN_VDD_SC) with 400000.
    change (u32 MAX_VDD_SC) with 1350000. lia.
  - destruct (khz (speed l) =? khz_) eqn:He.
    + apply Z.eqb_eq in He. split; [|intros _ []; exact He].
      right. split; [reflexivity|]. simpl.
      change (u32 MIN_VDD_SC) with 400000.
    change (u32 MAX_VDD_SC) with 1350000. lia.
    + apply Hrefl.
Qed.

(** C10: every entry [acpuclk_set_vdd] leaves in the table either keeps its
    value or differs in the core voltage alone, which then lies within
    [MIN_VDD_SC, MAX_VDD_SC]; an entry whose frequency differs from a nonzero
    request keeps its value. *)
Theorem acpuclk_set_vdd_clamped (khz_ vdd_uv : Z) (st : state) :
  ∃ st', acpuclk_set_vdd khz_ vdd_uv st = Ok (tt, st') ∧
         Forall2 (spec_set_vdd_entry khz_)
                 (st_acpu_freq_tbl st) (st_acpu_freq_tbl st').
Proof.
  eexists. split; [reflexivity|]. simpl.
  destruct (st_acpu_freq_tbl st) as [|l0 rest]; simpl; [constructor|].
  constructor; [split; [by left | done]|].
  apply acpuclk_set_vdd_loop_spec.
Qed.

(** ** Selection of the frequency plan *)

Lemma select_pvs_table_cases h p :
  select_pvs_table h p = acpu_freq_tbl_8960_fusion_slow ∨
  select_pvs_table h p = acpu_freq_tbl_8960_fusion_nom ∨
  select_pvs_table h p = acpu_freq_tbl_8960_fusion_fast.
Proof.
  unfold select_pvs_table.
  repeat match goal with
         | |- context [if ?b then _ else _] => destruct b
         end; auto.
Qed.

Ltac highest_usable_by_computation :=
  split;
  [ simpl; repeat first [apply list_elem_of_here | apply list_elem_of_further]
  | apply Forall_forall; simpl; repeat constructor; simpl; lia ].

(** Without a configured maximum frequency the selector does return the
    highest usable operating point of the table it selected. *)
Lemma select_freq_plan_untruncated h p :
  cpu_is_msm8960 p = true →
  cpu_is_krait_v1 p = false →
  acpu_max_freq p = 0 →
  ∃ plan l,
    select_freq_plan h p = Ok plan ∧
    plan_acpu_freq_tbl plan !! plan_max_acpu_level plan = Some l ∧
    spec_highest_usable (plan_acpu_freq_tbl plan) l.
Proof.
  intros H8960 Hv2 Hmax. unfold select_freq_plan.
  rewrite H8960, Hv2, Hmax. simpl.
  destruct (select_pvs_table_cases h p) as [-> | [-> | ->]];
    destruct (krait_needs_vmin p); simpl;
    (eexists; eexists; split; [reflexivity|]; split; [reflexivity|]);
    highest_usable_by_computation.
Qed.

(** C9, at a configured maximum of 1512 MHz: the truncation leaves the
    1512 MHz point as the highest usable one, yet the search accepts the
    2160 MHz point alone, finds none, and the selector stops in [BUG_ON]. *)
Theorem select_freq_plan_truncated :
  select_freq_plan hdr_8960 plat_8960_max_1512000 = Fault ∧
  select_pvs_table hdr_8960 plat_8960_max_1512000
  = acpu_freq_tbl_8960_fusion_slow ∧
  find_max_acpu_level
    (apply_acpu_max_freq 1512000 acpu_freq_tbl_8960_fusion_slow) 0 None
  = None ∧
  spec_highest_usable
    (apply_acpu_max_freq 1512000 acpu_freq_tbl_8960_fusion_slow)
    (AL 1 (CS 1512000 HFPLL 1 0 0x38) (L2_ 18) 1250000).
Proof.
  split; [reflexivity|]. split; [reflexivity|]. split; [reflexivity|].
  highest_usable_by_computation.
Qed.

(** ** Running the monad *)

Lemma bind_inv {A B} (m : M A) (f : A → M B) st b st' :
  (m ≫= f) st = Ok (b, st') →
  ∃ a st1, m st = Ok (a, st1) ∧ f a st1 = Ok (b, st').
Proof.
  unfold mbind, M_bind. destruct (m st) as [[a st1]|]; [eauto | discriminate].
Qed.

Lemma bind_run {A B} (m : M A) (f : A → M B) st a st1 :
  m st = Ok (a, st1) → (m ≫= f) st = f a st1.
Proof. unfold mbind, M_bind. by intros ->. Qed.

Lemma ret_inv {A} (a b : A) st st' :
  @mret M _ A a st = Ok (b, st') → b = a ∧ st' = st.
Proof. unfold mret, M_ret. by intros [= -> ->]. Qed.

Lemma gets_inv {A} (f : state → A) st a st' :
  gets f st = Ok (a, st') → a = f st ∧ st' = st.
Proof. unfold gets. by intros [= <- <-]. Qed.

Lemma modify_inv (f : state → state) st a st' :
  modify f st = Ok (a, st') → st' = f st.
Proof. unfold modify. by intros [= <-]. Qed.

Lemma deref_inv {A} (o : option A) st a st' :
  deref o st = Ok (a, st') → o = Some a ∧ st' = st.
Proof. destruct o; simpl; [by intros [= -> ->] | discriminate]. Qed.

Lemma load_sc_inv sc st s st' :
  load_sc sc st = Ok (s, st') →
  sc_lookup (st_scalable st) sc = Some s ∧ st' = st.
Proof.
  unfold load_sc. intros H. apply bind_inv in H as (l & st1 & Hl & H).
  apply gets_inv in Hl as [-> ->]. by apply deref_inv in H.
Qed.

Lemma load_sc_run sc st s :
  sc_lookup (st_scalable st) sc = Some s → load_sc sc st = Ok (s, st).
Proof. unfold load_sc. intros H. by rewrite (bind_run _ _ _ _ _ eq_refl), H. Qed.

Lemma modify_sc_inv sc g st a st' :
  modify_sc sc g st = Ok (a, st') →
  ∃ s, sc_lookup (st_scalable st) sc = Some s ∧
       st' = set_scalable (<[Z.to_nat sc := g s]> (st_scalable st)) st.
Proof.
  unfold modify_sc. intros H. apply bind_inv in H as (s & st1 & Hs & H).
  apply load_sc_inv in Hs as [Hs ->]. apply modify_inv in H. eauto.
Qed.

Lemma modify_sc_run sc g st s :
  sc_lookup (st_scalable st) sc = Some s →
  modify_sc sc g st
  = Ok (tt, set_scalable (<[Z.to_nat sc := g s]> (st_scalable st)) st).
Proof.
  intros H. unfold modify_sc. by rewrite (bind_run _ _ _ _ _ (load_sc_run _ _ _ H)).
Qed.

Lemma deref_speed_inv p st cs st' :
  deref_speed p st = Ok (cs, st') → speed_at st p = Some cs ∧ st' = st.
Proof.
  unfold deref_speed. intros H. apply bind_inv in H as (o & st1 & Ho & H).
  apply gets_inv in Ho as [-> ->]. by apply deref_inv in H.
Qed.

Lemma deref_speed_run p st cs :
  speed_at st p = Some cs → deref_speed p st = Ok (cs, st).
Proof.
  intros H. unfold deref_speed. by rewrite (bind_run _ _ _ _ _ eq_refl), H.
Qed.

Lemma do_call_inv be c st rc st' :
  do_call be c st = Ok (rc, st') →
  rc = be (st_trace st) c ∧ st' = set_trace (st_trace st ++ [(c, rc)]) st.
Proof. unfold do_call. by intros [= <- <-]. Qed.

(** Lookups in the [scalable] array after an update. *)

Lemma sc_lookup_insert_eq l i s x :
  sc_lookup l i = Some s → sc_lookup (<[Z.to_nat i := x]> l) i = Some x.
Proof.
  unfold sc_lookup. destruct (0 <=? i); [|discriminate].
  intros H. apply list_lookup_insert_eq. by eapply lookup_lt_Some.
Qed.

Lemma sc_lookup_insert_ne l i j x :
  0 ≤ i → i ≠ j → sc_lookup (<[Z.to_nat i := x]> l) j = sc_lookup l j.
Proof.
  unfold sc_lookup. intros Hi Hne. destruct (0 <=? j) eqn:Hj; [|done].
  apply list_lookup_insert_ne. apply Z.leb_le in Hj. lia.
Qed.

Lemma sc_lookup_nonneg l i s : sc_lookup l i = Some s → 0 ≤ i.
Proof.
  unfold sc_lookup. destruct (0 <=? i) eqn:H; [|discriminate].
  intros _. by apply Z.leb_le.
Qed.

Lemma sc_lookup_insert l i j s x :
  sc_lookup l i = Some s →
  sc_lookup (<[Z.to_nat i := x]> l) j
  = if decide (j = i) then Some x else sc_lookup l j.
Proof.
  intros H. destruct (decide (j = i)) as [->|Hne].
  - by eapply sc_lookup_insert_eq.
  - apply sc_lookup_insert_ne; [by eapply sc_lookup_nonneg | done].
Qed.

(** ** Properties carried over by a run *)

Section Stable.

Context {P : state → Prop}.

Lemma stable_ret {A} (a : A) : stable P (@mret M _ A a).
Proof. intros st b st' H HP. by apply ret_inv in H as [_ ->]. Qed.

Lemma stable_bind {A B} (m : M A) (f : A → M B) :
  stable P m → (∀ a, stable P (f a)) → stable P (m ≫= f).
Proof.
  intros Hm Hf st b st' H HP. apply bind_inv in H as (a & st1 & H1 & H2).
  eapply Hf; [exact H2|]. eapply Hm; [exact H1 | exact HP].
Qed.

Lemma stable_fault {A} : stable P (@fault A).
Proof. intros st a st' H. discriminate. Qed.

Lemma stable_gets {A} (f : state → A) : stable P (gets f).
Proof. intros st a st' H HP. by apply gets_inv in H as [_ ->]. Qed.

Lemma stable_deref {A} (o : option A) : stable P (deref o).
Proof. intros st a st' H HP. by apply deref_inv in H as [_ ->]. Qed.

Lemma stable_load_sc sc : stable P (load_sc sc).
Proof. intros st a st' H HP. by apply load_sc_inv in H as [_ ->]. Qed.

Lemma stable_deref_speed p : stable P (deref_speed p).
Proof. intros st a st' H HP. by apply deref_speed_inv in H as [_ ->]. Qed.

Lemma stable_modify f : (∀ st, P st → P (f st)) → stable P (modify f).
Proof. intros Hf st a st' H HP. apply modify_inv in H as ->. by apply Hf. Qed.

Lemma stable_modify_sc sc g : sc_closed P sc g → stable P (modify_sc sc g).
Proof.
  intros Hg st a st' H HP. apply modify_sc_inv in H as (s & Hs & ->).
  by apply Hg.
Qed.

Lemma stable_do_call be c : hw_closed P → stable P (do_call be c).
Proof.
  intros Hhw st a st' H HP. apply do_call_inv in H as [_ ->].
  by apply hw_trace.
Qed.

End Stable.

Ltac stable_step :=
  lazymatch goal with
  | |- stable _ (mbind _ _) => apply stable_bind; [ | intros ? ]
  | |- stable _ (mret _) => apply stable_ret
  | |- stable _ fault => apply stable_fault
  | |- stable _ (gets _) => apply stable_gets
  | |- stable _ (deref _) => apply stable_deref
  | |- stable _ (load_sc _) => apply stable_load_sc
  | |- stable _ (deref_speed _) => apply stable_deref_speed
  | |- stable _ (modify_sc _ _) => apply stable_modify_sc
  | |- stable _ (do_call _ _) => apply stable_do_call
  | |- stable _ (modify _) => apply stable_modify; intros ? ?
  | |- stable _ (if ?b then _ else _) => destruct b
  | |- stable _ (match ?x with _ => _ end) => destruct x
  end.

Create HintDb stable discriminated.

Ltac hw_leaf :=
  first [ by apply hw_l2_indirect | by apply hw_iomem
        | by apply hw_footprint | by apply hw_trace ].

Ltac stable_tac := repeat stable_step; try hw_leaf; eauto with stable.

Section StableDriver.

Context (plat : platform) (be : backend).
Context {P : state → Prop} (Hhw : hw_closed P).

Lemma stable_set_acpuclk_foot_print cpu x :
  stable P (set_acpuclk_foot_print cpu x).
Proof. unfold set_acpuclk_foot_print. stable_tac. Qed.

Lemma stable_set_acpuclk_cpu_freq_foot_print cpu x :
  stable P (set_acpuclk_cpu_freq_foot_print cpu x).
Proof. unfold set_acpuclk_cpu_freq_foot_print. stable_tac. Qed.

Lemma stable_set_acpuclk_L2_freq_foot_print x :
  stable P (set_acpuclk_L2_freq_foot_print x).
Proof. unfold set_acpuclk_L2_freq_foot_print. stable_tac. Qed.

Lemma stable_get_l2_indirect_reg a : stable P (get_l2_indirect_reg a).
Proof. unfold get_l2_indirect_reg. stable_tac. Qed.

Lemma stable_set_l2_indirect_reg a v : stable P (set_l2_indirect_reg a v).
Proof. unfold set_l2_indirect_reg. stable_tac. Qed.

Lemma stable_writel_relaxed v a : stable P (writel_relaxed v a).
Proof. unfold writel_relaxed. stable_tac. Qed.

Hint Resolve stable_get_l2_indirect_reg stable_set_l2_indirect_reg
  stable_writel_relaxed : stable.

Lemma stable_get_pri_clk_src sc : stable P (get_pri_clk_src sc).
Proof. unfold get_pri_clk_src. stable_tac. Qed.

Lemma stable_get_sec_clk_src sc : stable P (get_sec_clk_src sc).
Proof. unfold get_sec_clk_src. stable_tac. Qed.

Lemma stable_set_pri_clk_src sc x : stable P (set_pri_clk_src sc x).
Proof. unfold set_pri_clk_src. stable_tac. Qed.

Lemma stable_set_sec_clk_src sc x : stable P (set_sec_clk_src sc x).
Proof. unfold set_sec_clk_src. stable_tac. Qed.

Lemma stable_hfpll_enable sc : stable P (hfpll_enable plat be sc).
Proof. unfold hfpll_enable. stable_tac. Qed.

Lemma stable_hfpll_disable sc : stable P (hfpll_disable plat be sc).
Proof. unfold hfpll_disable. stable_tac. Qed.

Lemma stable_hfpll_set_rate sc tgt_s : stable P (hfpll_set_rate sc tgt_s).
Proof. unfold hfpll_set_rate. stable_tac. Qed.

Lemma stable_set_bus_bw bw : stable P (set_bus_bw be bw).
Proof. unfold set_bus_bw. stable_tac. Qed.

Hint Resolve stable_get_pri_clk_src stable_get_sec_clk_src
  stable_set_pri_clk_src stable_set_sec_clk_src stable_hfpll_enable
  stable_hfpll_disable stable_hfpll_set_rate stable_set_bus_bw
  stable_set_acpuclk_foot_print stable_set_acpuclk_cpu_freq_foot_print
  stable_set_acpuclk_L2_freq_foot_print : stable.

Lemma stable_set_speed sc tgt_s reason :
  sc_closed P sc (set_current_speed (Some tgt_s)) →
  stable P (set_speed plat be sc tgt_s reason).
Proof. intros Hsc. unfold set_speed. stable_tac. Qed.

Lemma stable_max_l2_vote cpus new_l : stable P (max_l2_vote cpus new_l).
Proof.
  revert new_l. induction cpus as [|cpu rest IH]; intros new_l; simpl;
    stable_tac.
Qed.

Lemma stable_compute_l2_level sc vote_l :
  sc_closed P sc (set_l2_vote vote_l) →
  stable P (compute_l2_level plat sc vote_l).
Proof.
  intros Hsc. unfold compute_l2_level. stable_tac; apply stable_max_l2_vote.
Qed.

Lemma stable_increase_vdd cpu vc vm vd reason :
  (∀ r uv, sc_closed P cpu (set_sc_vreg r (λ v, set_cur_vdd v uv))) →
  stable P (increase_vdd be cpu vc vm vd reason).
Proof. intros Hsc. unfold increase_vdd. stable_tac. Qed.

Lemma stable_decrease_vdd cpu vc vm vd reason :
  (∀ r uv, sc_closed P cpu (set_sc_vreg r (λ v, set_cur_vdd v uv))) →
  stable P (decrease_vdd be cpu vc vm vd reason).
Proof. intros Hsc. unfold decrease_vdd. stable_tac. Qed.

End StableDriver.

#[global] Hint Resolve stable_get_l2_indirect_reg stable_set_l2_indirect_reg
  stable_writel_relaxed stable_get_pri_clk_src stable_get_sec_clk_src
  stable_set_pri_clk_src stable_set_sec_clk_src stable_hfpll_enable
  stable_hfpll_disable stable_hfpll_set_rate stable_set_bus_bw
  stable_set_acpuclk_foot_print stable_set_acpuclk_cpu_freq_foot_print
  stable_set_acpuclk_L2_freq_foot_print stable_set_speed
  stable_max_l2_vote stable_compute_l2_level stable_increase_vdd
  stable_decrease_vdd : stable.

(** ** The transition engine *)

Lemma stable_acpuclk_8960_set_rate plat be P cpu rate reason :
  engine_closed P cpu →
  stable P (acpuclk_8960_set_rate plat be cpu rate reason).
Proof.
  intros [Hhw Hspeed Hvote Hvreg Hfirst Hl2].
  unfold acpuclk_8960_set_rate. stable_tac.
Qed.

(** Fields of the [scalable] entries under the updates of the driver. *)

Lemma sc_field_hw_closed {V} (proj : scalable → V) i x :
  hw_closed (sc_field proj i x).
Proof. by split. Qed.

Lemma sc_field_sc_closed {V} (proj : scalable → V) i x j g :
  (j ≠ i ∨ ∀ s, proj (g s) = proj s) →
  sc_closed (sc_field proj i x) j g.
Proof.
  intros Hg st s Hs. unfold sc_field. simpl.
  rewrite (sc_lookup_insert _ _ _ _ _ Hs). destruct (decide (i = j)) as [->|Hne].
  - destruct Hg as [Hg|Hg]; [done|]. rewrite Hs. simpl. by rewrite Hg.
  - done.
Qed.

Lemma sc_field_sc_set {V} (proj : scalable → V) i x j g :
  (∀ s, proj (g s) = x) →
  sc_closed (sc_field proj i x) j g.
Proof.
  intros Hg st s Hs. unfold sc_field. simpl.
  rewrite (sc_lookup_insert _ _ _ _ _ Hs). destruct (decide (i = j)) as [->|Hne].
  - intros _. simpl. by rewrite Hg.
  - done.
Qed.

Lemma tables_are_hw_closed acpu l2 : hw_closed (tables_are acpu l2).
Proof. by split. Qed.

Lemma tables_are_sc_closed acpu l2 j g : sc_closed (tables_are acpu l2) j g.
Proof. by intros st s Hs. Qed.

#[global] Hint Resolve sc_field_hw_closed tables_are_hw_closed
  tables_are_sc_closed stable_modify_sc : stable.

#[global] Hint Extern 1 (sc_closed (sc_field _ _ _) _ _) =>
  apply sc_field_sc_closed;
  first [ right; intros; reflexivity
        | left; unfold is_cpu, L2 in *; lia ] : stable.

(** Taking a run apart. *)

Ltac run_inv_step :=
  match goal with
  | H : mbind _ _ _ = Ok _ |- _ =>
      let a := fresh "a" in
      let st := fresh "st" in
      let Hrun := fresh "Hrun" in
      apply bind_inv in H as (a & st & Hrun & H); cbv beta in H
  | H : @mret M _ _ _ _ = Ok _ |- _ => apply ret_inv in H as [? ?]; subst
  | H : gets _ _ = Ok _ |- _ => apply gets_inv in H as [? ?]; subst
  | H : modify _ _ = Ok _ |- _ => apply modify_inv in H; subst
  | H : deref _ _ = Ok _ |- _ => apply deref_inv in H as [? ?]; subst
  | H : load_sc _ _ = Ok _ |- _ => apply load_sc_inv in H as [? ?]; subst
  | H : deref_speed _ _ = Ok _ |- _ =>
      apply deref_speed_inv in H as [? ?]; subst
  | H : fault _ = Ok _ |- _ => discriminate H
  | H : (if ?b then _ else _) _ = Ok _ |- _ => destruct b eqn:?
  | H : (match ?x with _ => _ end) _ = Ok _ |- _ => destruct x eqn:?
  end.

Ltac run_inv := repeat run_inv_step.

(** Carrying a property along the runs in the context. *)
Ltac carry :=
  repeat match goal with
  | Hrun : ?m ?st = Ok (?a, ?st'), HP : ?P ?st |- _ =>
      lazymatch goal with
      | _ : P st' |- _ => fail
      | _ => idtac
      end;
      assert (P st')
        by (refine ((_ : stable P m) st a st' Hrun HP); eauto with stable)
  end.

Lemma find_tgt_Some tbl rate i0 i tgt :
  find_tgt tbl rate i0 = Some (i, tgt) →
  (i0 ≤ i)%nat ∧ tbl !! (i - i0)%nat = Some tgt ∧ khz (speed tgt) = rate ∧
  rate ≠ 0.
Proof.
  revert i0. induction tbl as [|l rest IH]; intros i0; simpl; [done|].
  destruct (khz (speed l) =? 0) eqn:Hz; [done|].
  destruct (khz (speed l) =? rate) eqn:Hr.
  - intros [= <- <-]. apply Z.eqb_eq in Hr. apply Z.eqb_neq in Hz.
    rewrite Nat.sub_diag. repeat split; [lia | done | lia].
  - intros H. apply IH in H as (Hle & Hl & Hk & Hn).
    repeat split; [lia | | done | done].
    replace (i - i0)%nat with (S (i - S i0)) by lia. done.
Qed.

Section Engine.

Context (plat : platform) (be : backend).

Lemma get_rate_run cpu st s cs :
  sc_lookup (st_scalable st) cpu = Some s →
  speed_at st (current_speed s) = Some cs →
  acpuclk_8960_get_rate cpu st = Ok (khz cs, st).
Proof.
  intros Hs Hcs. unfold acpuclk_8960_get_rate.
  rewrite (bind_run _ _ _ _ _ (load_sc_run cpu _ _ Hs)).
  by rewrite (bind_run _ _ _ _ _ (deref_speed_run _ _ _ Hcs)).
Qed.

Lemma speed_at_tables st st' p :
  tables_are (st_acpu_freq_tbl st) (st_l2_freq_tbl st) st' →
  speed_at st' p = speed_at st p.
Proof. intros [H1 H2]. unfold speed_at. by rewrite H1, H2. Qed.

Lemma get_rate_of_field cpu st st' p cs :
  sc_field current_speed cpu p st' →
  tables_are (st_acpu_freq_tbl st) (st_l2_freq_tbl st) st' →
  speed_at st p = Some cs →
  acpuclk_8960_get_rate cpu st' = Ok (khz cs, st').
Proof.
  unfold sc_field. intros Hf Ht Hcs.
  destruct (sc_lookup (st_scalable st') cpu) as [s|] eqn:Hs; [|done].
  injection Hf as <-. eapply get_rate_run; [exact Hs|].
  by rewrite (speed_at_tables st).
Qed.

Lemma sc_field_intro {V} (proj : scalable → V) i st s :
  sc_lookup (st_scalable st) i = Some s → sc_field proj i (proj s) st.
Proof. unfold sc_field. by intros ->. Qed.

Lemma tables_are_intro st :
  tables_are (st_acpu_freq_tbl st) (st_l2_freq_tbl st) st.
Proof. by split. Qed.

Lemma modify_sc_field {V} (proj : scalable → V) sc g st a st' x :
  modify_sc sc g st = Ok (a, st') → (∀ s, proj (g s) = x) →
  sc_field proj sc x st'.
Proof.
  intros H Hg. apply modify_sc_inv in H as (s & Hs & ->).
  unfold sc_field. simpl. rewrite (sc_lookup_insert_eq _ _ _ _ Hs). simpl.
  by rewrite Hg.
Qed.

Lemma set_speed_current sc tgt_s reason st a st' :
  set_speed plat be sc tgt_s reason st = Ok (a, st') →
  sc_field current_speed sc (Some tgt_s) st'.
Proof.
  intros H. unfold set_speed in H. run_inv;
    try (eapply modify_sc_field; [eassumption | done]).
  match goal with Hb : bool_decide _ = true |- _ =>
    apply bool_decide_eq_true in Hb; rewrite Hb end.
  by apply sc_field_intro.
Qed.

(** C1: when a transition of a CPU to frequency [rate] reports success,
    the frequency the driver reports for that CPU right after is [rate]. *)
Theorem set_rate_then_get_rate cpu rate reason st st' :
  is_cpu cpu →
  acpuclk_8960_set_rate plat be cpu rate reason st = Ok (0, st') →
  acpuclk_8960_get_rate cpu st' = Ok (rate, st').
Proof.
  intros Hcpu H. unfold acpuclk_8960_set_rate in H.
  run_inv; try discriminate.
  { (* the rate did not change *)
    match goal with
    | Hs : sc_lookup (st_scalable ?st3) cpu = Some ?s,
      Hc : (_ && _) = true |- _ =>
        apply andb_true_iff in Hc as [Hc _]; apply Z.eqb_eq in Hc; rewrite Hc;
        pose proof (sc_field_intro current_speed _ _ _ Hs);
        pose proof (tables_are_intro st3)
    end.
    carry. by eapply get_rate_of_field. }
  (* the clock was switched to the entry found for [rate] *)
  all: match goal with
    | Hf : find_tgt (st_acpu_freq_tbl ?st3) _ 0 = Some (?n, ?tgt),
      Hsp : set_speed _ _ _ (acpu_speed ?n) _ _ = Ok _ |- _ =>
        apply find_tgt_Some in Hf as (_ & Hl & <- & _);
        rewrite Nat.sub_0_r in Hl;
        pose proof (tables_are_intro st3);
        pose proof (set_speed_current _ _ _ _ _ _ Hsp)
    end; carry.
    all: (eapply get_rate_of_field; [eassumption | eassumption |]).
    all: unfold speed_at; by rewrite Hl.
Qed.

End Engine.

(** ** The rail sequencer *)

Section Wp.

Context {A : Type} (st : state) (Q : A → state → Prop).

Lemma wp_ret (a : A) : Q a st → wp (@mret M _ A a) st Q.
Proof. intros H. by exists a, st. Qed.

Lemma wp_bind {B} (m : M B) (f : B → M A) :
  wp m st (λ b st1, wp (f b) st1 Q) → wp (m ≫= f) st Q.
Proof.
  intros (b & st1 & Hm & a & st' & Hf & HQ). exists a, st'.
  split; [|done]. by rewrite (bind_run _ _ _ _ _ Hm).
Qed.

End Wp.

Lemma wp_load_sc sc st s (Q : scalable → state → Prop) :
  sc_lookup (st_scalable st) sc = Some s → Q s st → wp (load_sc sc) st Q.
Proof. intros Hs HQ. exists s, st. split; [by apply load_sc_run | done]. Qed.

Lemma wp_do_call be c st (Q : Z → state → Prop) :
  (∀ rc st', st_scalable st' = st_scalable st →
             st_trace st' = st_trace st ++ [(c, rc)] → Q rc st') →
  wp (do_call be c) st Q.
Proof. intros HQ. eexists _, _. split; [reflexivity|]. by apply HQ. Qed.

Lemma wp_modify_sc sc g st s (Q : unit → state → Prop) :
  sc_lookup (st_scalable st) sc = Some s →
  (∀ st', sc_lookup (st_scalable st') sc = Some (g s) →
          st_trace st' = st_trace st → Q tt st') →
  wp (modify_sc sc g) st Q.
Proof.
  intros Hs HQ. eexists _, _. split; [by apply modify_sc_run|].
  apply HQ; [|done]. simpl. by eapply sc_lookup_insert_eq.
Qed.

Ltac wp_step :=
  lazymatch goal with
  | |- wp (mbind _ _) _ _ => apply wp_bind
  | |- wp (mret _) _ _ => apply wp_ret
  | |- wp (load_sc _) _ _ => eapply wp_load_sc; [eassumption|]
  | |- wp (do_call _ _) _ _ =>
      let rc := fresh "rc" in
      let st := fresh "st" in
      let Hsc := fresh "Hsc" in
      let Ht := fresh "Ht" in
      apply wp_do_call; intros rc st Hsc Ht;
      repeat match goal with
             | Hs : sc_lookup (st_scalable _) _ = _ |- _ =>
                 rewrite <- Hsc in Hs
             | Ht' : st_trace _ = _ |- _ =>
                 lazymatch Ht' with Ht => fail | _ => idtac end;
                 rewrite Ht' in Ht; clear Ht'
             end
  | |- wp (modify_sc _ _) _ _ =>
      let st := fresh "st" in
      let Hs' := fresh "Hs" in
      let Ht := fresh "Ht" in
      eapply wp_modify_sc; [eassumption|]; intros st Hs' Ht;
      repeat match goal with
             | Hs : sc_lookup (st_scalable _) _ = _ |- _ =>
                 lazymatch Hs with Hs' => fail | _ => clear Hs end
             | Ht' : st_trace _ = _ |- _ =>
                 lazymatch Ht' with Ht => fail | _ => idtac end;
                 rewrite Ht' in Ht; clear Ht'
             end
  | |- wp (if ?b then _ else _) _ _ => destruct b eqn:?
  end.

(** Branch conditions as propositions. *)
Ltac prep_branch :=
  repeat match goal with
  | H : true = true |- _ => clear H
  | H : false = false |- _ => clear H
  | H : (_ && _) = true |- _ => apply andb_true_iff in H as [? ?]
  | H : (_ && _) = false |- _ => apply andb_false_iff in H as [?|?]
  | H : negb _ = true |- _ => apply negb_true_iff in H
  | H : negb _ = false |- _ => apply negb_false_iff in H
  | H : (_ =? _) = true |- _ => apply Z.eqb_eq in H; subst
  | H : (_ =? _) = false |- _ => apply Z.eqb_neq in H
  | H : (_ >? _) = true |- _ => rewrite Z.gtb_ltb in H; apply Z.ltb_lt in H
  | H : (_ >? _) = false |- _ => rewrite Z.gtb_ltb in H; apply Z.ltb_ge in H
  | H : (_ <? _) = true |- _ => apply Z.ltb_lt in H
  | H : (_ <? _) = false |- _ => apply Z.ltb_ge in H
  | H : not_hotplug _ = true |- _ =>
      unfold not_hotplug in H; apply negb_true_iff, bool_decide_eq_false in H
  | H : not_hotplug _ = false |- _ =>
      unfold not_hotplug in H; apply negb_false_iff, bool_decide_eq_true in H
  end.

Ltac split_accepted :=
  unfold accepted in *; simpl in *;
  repeat match goal with
         | H : Forall _ (_ :: _) |- _ => apply Forall_cons in H as [? ?]
         end;
  simpl in *.

Ltac rail_step_tac :=
  unfold cached; simpl;
  first [ apply rail_step_skipped
        | apply rail_step_applied
        | apply rail_step_refused; assumption ].

Ltac outcome_tac :=
  split;
  [ rail_step_tac
  | split;
    [ intros ?;
      first [ done
            | split;
              [ unfold cached; simpl in *;
                first [ lia | split; [lia | assumption] ]
              | unfold accepted; simpl; repeat constructor ] ]
    | intros [Hw Hacc];
      first [ done
            | exfalso; split_accepted; unfold cached in *; simpl in *;
              first [ lia | congruence
                    | destruct Hw; first [ lia | congruence ] ] ] ] ].

Ltac reports_tac :=
  split;
  [ intros Hacc; first [ reflexivity | exfalso; split_accepted; congruence ]
  | intros c e Hin Hne; simpl in Hin;
    repeat match goal with
           | H : _ ∈ _ :: _ |- _ => apply elem_of_cons in H as [H|H]
           | H : _ ∈ [] |- _ => by apply elem_of_nil in H
           | H : (_, _) = (_, _) |- _ => simplify_eq
           end; congruence ].

(** A leaf of the case analysis: [fin] closes what follows the three
    outcomes.  The three parts of the trace are found by trying, for each,
    the empty part and the part of one call. *)
Ltac rails_leaf fin :=
  try (exfalso; congruence);
  solve
    [ eexists;
      (exists (@nil (call * Z)) + eexists [(_, _)]);
      (exists (@nil (call * Z)) + eexists [(_, _)]);
      (exists (@nil (call * Z)) + eexists [(_, _)]);
      split; [eassumption|];
      split; [ first [ match goal with
                       | Ht : st_trace ?x = _ |- st_trace ?x = _ =>
                           rewrite Ht; simpl; reflexivity
                       end
                     | simpl; by rewrite app_nil_r ] |];
      split; [outcome_tac|];
      split; [outcome_tac|];
      fin ].

Section Rails.

Context (be : backend).

Lemma increase_vdd_outcome cpu vc vm vd reason st s :
  sc_lookup (st_scalable st) cpu = Some s →
  wp (increase_vdd be cpu vc vm vd reason) st (λ rc st',
    ∃ s' mem dig core,
      sc_lookup (st_scalable st') cpu = Some s' ∧
      st_trace st' = st_trace st ++ mem ++ dig ++ core ∧
      spec_step_outcome (cached s VREG_MEM < vm) (rail_call s VREG_MEM vm)
        (cached s VREG_MEM) vm [] mem (cached s' VREG_MEM) ∧
      spec_step_outcome (cached s VREG_DIG < vd) (rail_call s VREG_DIG vd)
        (cached s VREG_DIG) vd mem dig (cached s' VREG_DIG) ∧
      spec_step_outcome (cached s VREG_CORE < vc ∧ reason ≠ SETRATE_HOTPLUG)
        (rail_call s VREG_CORE vc)
        (cached s VREG_CORE) vc (mem ++ dig) core (cached s' VREG_CORE) ∧
      reports (mem ++ dig ++ core) rc).
Proof.
  intros Hs. unfold increase_vdd.
  repeat wp_step.
  all: prep_branch.
  all: try match goal with Ht : st_trace _ = _ |- _ =>
         rewrite <- ?app_assoc in Ht; simpl in Ht end.
  all: rails_leaf ltac:(split; [outcome_tac | reports_tac]).
Qed.

Lemma decrease_vdd_outcome cpu vc vm vd reason st s :
  sc_lookup (st_scalable st) cpu = Some s →
  wp (decrease_vdd be cpu vc vm vd reason) st (λ _ st',
    ∃ s' core dig mem,
      sc_lookup (st_scalable st') cpu = Some s' ∧
      st_trace st' = st_trace st ++ core ++ dig ++ mem ∧
      spec_step_outcome (vc < cached s VREG_CORE ∧ reason ≠ SETRATE_HOTPLUG)
        (rail_call s VREG_CORE vc)
        (cached s VREG_CORE) vc [] core (cached s' VREG_CORE) ∧
      spec_step_outcome (vd < cached s VREG_DIG) (rail_call s VREG_DIG vd)
        (cached s VREG_DIG) vd core dig (cached s' VREG_DIG) ∧
      spec_step_outcome (vm < cached s VREG_MEM) (rail_call s VREG_MEM vm)
        (cached s VREG_MEM) vm (core ++ dig) mem (cached s' VREG_MEM)).
Proof.
  intros Hs. unfold decrease_vdd.
  repeat wp_step.
  all: prep_branch.
  all: try match goal with Ht : st_trace _ = _ |- _ =>
         rewrite <- ?app_assoc in Ht; simpl in Ht end.
  all: rails_leaf ltac:(outcome_tac).
Qed.

Lemma spec_rail_step_at_most_one c cur new seg cur' :
  spec_rail_step c cur new seg cur' → at_most_one c seg.
Proof. intros []; [by left | right; eauto | right; eauto]. Qed.

(** C3: the calls of a voltage increase are, in this order, the one for
    the memory rail, the one for the dig rail and the one for the core rail;
    those of a decrease the one for the core rail, then the dig rail, then
    the memory rail.  Each rail gets its call exactly when the requested
    value exceeds (increase) or falls below (decrease) the cached one and
    every earlier call of the run was accepted, and no other call is made;
    the core rail gets none for the hotplug reason. *)
Theorem rail_sequencer_order cpu vc vm vd reason st s :
  sc_lookup (st_scalable st) cpu = Some s →
  (∃ rc st' mem dig core,
      increase_vdd be cpu vc vm vd reason st = Ok (rc, st') ∧
      st_trace st' = st_trace st ++ mem ++ dig ++ core ∧
      at_most_one (rail_call s VREG_MEM vm) mem ∧
      (mem ≠ [] ↔ cached s VREG_MEM < vm) ∧
      at_most_one (rail_call s VREG_DIG vd) dig ∧
      (dig ≠ [] ↔ cached s VREG_DIG < vd ∧ accepted mem) ∧
      at_most_one (rail_call s VREG_CORE vc) core ∧
      (core ≠ [] ↔ (cached s VREG_CORE < vc ∧ reason ≠ SETRATE_HOTPLUG) ∧
                   accepted (mem ++ dig)) ∧
      (reason = SETRATE_HOTPLUG → core = [])) ∧
  (∃ st' core dig mem,
      decrease_vdd be cpu vc vm vd reason st = Ok (tt, st') ∧
      st_trace st' = st_trace st ++ core ++ dig ++ mem ∧
      at_most_one (rail_call s VREG_CORE vc) core ∧
      (core ≠ [] ↔ vc < cached s VREG_CORE ∧ reason ≠ SETRATE_HOTPLUG) ∧
      at_most_one (rail_call s VREG_DIG vd) dig ∧
      (dig ≠ [] ↔ vd < cached s VREG_DIG ∧ accepted core) ∧
      at_most_one (rail_call s VREG_MEM vm) mem ∧
      (mem ≠ [] ↔ vm < cached s VREG_MEM ∧ accepted (core ++ dig)) ∧
      (reason = SETRATE_HOTPLUG → core = [])).
Proof.
  intros Hs. split.
  - destruct (increase_vdd_outcome cpu vc vm vd reason st s Hs)
      as (rc & st' & Hrun & s' & mem & dig & core & _ & Ht
          & [Hm Hmw] & [Hd Hdw] & [Hc Hcw] & _).
    exists rc, st', mem, dig, core.
    split; [done|]. split; [done|].
    split; [by eapply spec_rail_step_at_most_one|].
    split; [rewrite Hmw; split; [by intros [? _] | by split; [|constructor]]|].
    split; [by eapply spec_rail_step_at_most_one|]. split; [done|].
    split; [by eapply spec_rail_step_at_most_one|]. split; [done|].
    intros ->. destruct core as [|x core]; [done|].
    by destruct Hcw as [[[_ []] _] _].
  - destruct (decrease_vdd_outcome cpu vc vm vd reason st s Hs)
      as ([] & st' & Hrun & s' & core & dig & mem & _ & Ht
          & [Hc Hcw] & [Hd Hdw] & [Hm Hmw]).
    exists st', core, dig, mem.
    split; [done|]. split; [done|].
    split; [by eapply spec_rail_step_at_most_one|].
    split; [rewrite Hcw; split; [by intros [? _] | by split; [|constructor]]|].
    split; [by eapply spec_rail_step_at_most_one|]. split; [done|].
    split; [by eapply spec_rail_step_at_most_one|]. split; [done|].
    intros ->. destruct core as [|x core]; [done|].
    by destruct Hcw as [[[_ []] _] _].
Qed.

End Rails.

(** ** The L2 vote *)

Section Vote.

Context (plat : platform) (be : backend).

Lemma max_l2_vote_run cpus new_l st :
  (∀ c, c ∈ cpus → is_Some (sc_lookup (st_scalable st) c)) →
  ∃ m, max_l2_vote cpus new_l st = Ok (m, st) ∧
       (new_l ≤ m)%nat ∧
       (∀ c s j, c ∈ cpus → sc_lookup (st_scalable st) c = Some s →
                 l2_vote s = Some j → (j ≤ m)%nat) ∧
       (m = new_l ∨
        ∃ c s, c ∈ cpus ∧ sc_lookup (st_scalable st) c = Some s ∧
               l2_vote s = Some m).
Proof.
  revert new_l. induction cpus as [|cpu rest IH]; intros new_l Hall; simpl.
  - exists new_l. repeat split; [lia | | by left].
    intros c s j Hc. by apply elem_of_nil in Hc.
  - destruct (Hall cpu) as [s Hs]; [by left|].
    rewrite (bind_run _ _ _ _ _ (load_sc_run _ _ _ Hs)).
    destruct (IH (l2_ptr_max new_l (l2_vote s))) as (m & Hrun & Hle & Hub & Hw).
    { intros c Hc. apply Hall. by right. }
    exists m. split; [exact Hrun|].
    assert (Hmax : (new_l ≤ l2_ptr_max new_l (l2_vote s))%nat).
    { unfold l2_ptr_max. destruct (l2_vote s); lia. }
    split; [lia|]. split.
    + intros c s' j Hc Hs' Hj. apply elem_of_cons in Hc as [->|Hc].
      * rewrite Hs in Hs'. injection Hs' as <-.
        unfold l2_ptr_max in Hle. rewrite Hj in Hle. lia.
      * by eapply Hub.
    + destruct Hw as [->|(c & s' & Hc & Hs' & Hv)].
      * unfold l2_ptr_max. destruct (l2_vote s) as [j|] eqn:Hj; [|by left].
        destruct (Nat.max_spec new_l j) as [[_ ->]|[_ ->]]; [|by left].
        right. exists cpu, s. repeat split; [by left | done | done].
      * right. exists c, s'. repeat split; [by right | done | done].
Qed.

End Vote.

(** ** Sequences of calls *)

Section Ops.

Context (plat : platform) (be : backend).

Lemma stable_acpuclk_8960_get_rate P cpu :
  stable P (acpuclk_8960_get_rate cpu).
Proof. unfold acpuclk_8960_get_rate. stable_tac. Qed.

Lemma stable_acpuclock_cpu_callback P action cpu :
  hotplug_closed P action cpu →
  stable P (acpuclock_cpu_callback plat be action cpu).
Proof.
  intros [Heng Hkhz Hsec Hpri]. pose proof (eng_hw _ _ Heng) as Hhw.
  pose proof (stable_acpuclk_8960_set_rate plat be P cpu) as Hset.
  pose proof (stable_acpuclk_8960_get_rate P cpu) as Hget.
  unfold acpuclock_cpu_callback. destruct action; stable_tac.
Qed.

Lemma stable_run_op P o : op_closed P o → stable P (run_op plat be o).
Proof.
  destruct o as [cpu rate reason | khz_ vdd_uv | action cpu]; simpl; intros H.
  - pose proof (stable_acpuclk_8960_set_rate plat be P cpu rate reason H).
    stable_tac.
  - unfold acpuclk_set_vdd. stable_tac.
  - pose proof (stable_acpuclock_cpu_callback P action cpu H). stable_tac.
Qed.

Lemma stable_run_ops P ops :
  Forall (op_closed P) ops → stable P (run_ops plat be ops).
Proof.
  induction 1 as [|o ops Ho _ IH]; simpl; [apply stable_ret|].
  pose proof (stable_run_op P o Ho). stable_tac.
Qed.

End Ops.

(** ** The mux selections across a power-down *)

Lemma testbit_3 n : 0 ≤ n → Z.testbit 3 n = (n <? 2).
Proof.
  intros Hn. destruct (Z.ltb_spec n 2).
  - assert (n = 0 ∨ n = 1) as [-> | ->] by lia; reflexivity.
  - apply Z.bits_above_log2; [lia|]. change (Z.log2 3) with 1. lia.
Qed.

Lemma land_3_bits a b :
  (∀ n, 0 ≤ n < 2 → Z.testbit a n = Z.testbit b n) → Z.land a 3 = Z.land b 3.
Proof.
  intros H. apply Z.bits_inj'. intros n Hn.
  rewrite !Z.land_spec, testbit_3 by done.
  destruct (Z.ltb_spec n 2); [|by rewrite !andb_false_r].
  rewrite H by lia. done.
Qed.

(** The primary field of the word [set_pri_clk_src] writes. *)
Lemma mux_pri_bits r x :
  Z.land (Z.lor (Z.land r (Z.lnot 3)) (Z.land x 3)) 3 = Z.land x 3.
Proof.
  apply Z.bits_inj'. intros n Hn.
  rewrite !Z.land_spec, Z.lor_spec, !Z.land_spec, Z.lnot_spec by done.
  destruct (Z.testbit 3 n); simpl;
    rewrite ?andb_false_r, ?andb_true_r, ?orb_false_l; done.
Qed.

(** [set_pri_clk_src] leaves the secondary field alone. *)
Lemma mux_pri_keeps_sec r x :
  Z.land (Z.shiftr (Z.lor (Z.land r (Z.lnot 3)) (Z.land x 3)) 2) 3
  = Z.land (Z.shiftr r 2) 3.
Proof.
  apply land_3_bits. intros n Hn.
  rewrite !Z.shiftr_spec, Z.lor_spec, !Z.land_spec, Z.lnot_spec by lia.
  rewrite (testbit_3 (n + 2)) by lia.
  replace (n + 2 <? 2) with false by (symmetry; apply Z.ltb_ge; lia).
  simpl. by rewrite andb_true_r, andb_false_r, orb_false_r.
Qed.

(** The secondary field of the last word [set_sec_clk_src] writes. *)
Lemma mux_sec_bits r x :
  Z.land
    (Z.shiftr
       (Z.land
          (Z.lor (Z.land (Z.lor r SECCLKAGD) (Z.lnot (Z.shiftl 3 2)))
                 (Z.shiftl (Z.land x 3) 2))
          (Z.lnot SECCLKAGD)) 2) 3
  = Z.land x 3.
Proof.
  change SECCLKAGD with 16.
  apply land_3_bits. intros n Hn.
  rewrite Z.shiftr_spec by lia.
  rewrite !Z.land_spec, Z.lor_spec, !Z.land_spec, !Z.lnot_spec by lia.
  rewrite !Z.shiftl_spec by lia.
  replace (n + 2 - 2) with n by lia.
  rewrite Z.land_spec, testbit_3 by lia.
  replace (n <? 2) with true by (symmetry; apply Z.ltb_lt; lia).
  assert (n = 0 ∨ n = 1) as [-> | ->] by lia; simpl;
    by rewrite ?andb_true_r, ?andb_false_r, ?orb_false_l.
Qed.

Lemma land_3_u32 x : Z.land (u32 x) 3 = Z.land x 3.
Proof.
  unfold u32. rewrite <- (Z.land_ones x 32) by lia.
  rewrite <- Z.land_assoc. reflexivity.
Qed.

Lemma land_3_idemp y : Z.land (Z.land y 3) 3 = Z.land y 3.
Proof. by rewrite <- Z.land_assoc. Qed.

Lemma upd_same m k v : upd m k v k = v.
Proof. unfold upd. by rewrite Z.eqb_refl. Qed.

Lemma upd_other m k v k' : k' ≠ k → upd m k v k' = m k'.
Proof. unfold upd. intros H. by apply Z.eqb_neq in H as ->. Qed.

Lemma get_pri_clk_src_run sc st s :
  sc_lookup (st_scalable st) sc = Some s →
  get_pri_clk_src sc st
  = Ok (Z.land (st_l2_indirect st (l2cpmr_iaddr s)) 3, st).
Proof.
  intros Hs. unfold get_pri_clk_src.
  by rewrite (bind_run _ _ _ _ _ (load_sc_run _ _ _ Hs)).
Qed.

Lemma get_sec_clk_src_run sc st s :
  sc_lookup (st_scalable st) sc = Some s →
  get_sec_clk_src sc st
  = Ok (Z.land (Z.shiftr (st_l2_indirect st (l2cpmr_iaddr s)) 2) 3, st).
Proof.
  intros Hs. unfold get_sec_clk_src.
  by rewrite (bind_run _ _ _ _ _ (load_sc_run _ _ _ Hs)).
Qed.

Lemma get_pri_clk_src_inv sc st v st' :
  get_pri_clk_src sc st = Ok (v, st') →
  ∃ s, sc_lookup (st_scalable st) sc = Some s ∧ st' = st ∧
       v = Z.land (st_l2_indirect st (l2cpmr_iaddr s)) 3.
Proof.
  intros H. unfold get_pri_clk_src, get_l2_indirect_reg in H. run_inv. eauto.
Qed.

Lemma get_sec_clk_src_inv sc st v st' :
  get_sec_clk_src sc st = Ok (v, st') →
  ∃ s, sc_lookup (st_scalable st) sc = Some s ∧ st' = st ∧
       v = Z.land (Z.shiftr (st_l2_indirect st (l2cpmr_iaddr s)) 2) 3.
Proof.
  intros H. unfold get_sec_clk_src, get_l2_indirect_reg in H. run_inv. eauto.
Qed.

Lemma set_sec_clk_src_inv sc x st a st' :
  set_sec_clk_src sc x st = Ok (a, st') →
  ∃ s, sc_lookup (st_scalable st) sc = Some s ∧
       st_scalable st' = st_scalable st ∧
       Z.land (Z.shiftr (st_l2_indirect st' (l2cpmr_iaddr s)) 2) 3
       = Z.land x 3.
Proof.
  intros H.
  unfold set_sec_clk_src, get_l2_indirect_reg, set_l2_indirect_reg in H.
  run_inv. eexists. split; [eassumption|]. split; [done|].
  simpl. rewrite upd_same. apply mux_sec_bits.
Qed.

Lemma set_pri_clk_src_inv sc x st a st' :
  set_pri_clk_src sc x st = Ok (a, st') →
  ∃ s, sc_lookup (st_scalable st) sc = Some s ∧
       st_scalable st' = st_scalable st ∧
       Z.land (st_l2_indirect st' (l2cpmr_iaddr s)) 3 = Z.land x 3 ∧
       Z.land (Z.shiftr (st_l2_indirect st' (l2cpmr_iaddr s)) 2) 3
       = Z.land (Z.shiftr (st_l2_indirect st (l2cpmr_iaddr s)) 2) 3.
Proof.
  intros H.
  unfold set_pri_clk_src, get_l2_indirect_reg, set_l2_indirect_reg in H.
  run_inv. eexists. split; [eassumption|]. split; [done|].
  simpl. rewrite upd_same. split; [apply mux_pri_bits | apply mux_pri_keeps_sec].
Qed.

Lemma set_sec_clk_src_ok sc x st s :
  sc_lookup (st_scalable st) sc = Some s →
  ∃ st', set_sec_clk_src sc x st = Ok (tt, st') ∧
         st_scalable st' = st_scalable st.
Proof.
  intros Hs. eexists. unfold set_sec_clk_src.
  erewrite bind_run; [|apply load_sc_run; exact Hs].
  split; reflexivity.
Qed.

Lemma set_pri_clk_src_ok sc x st s :
  sc_lookup (st_scalable st) sc = Some s →
  ∃ st', set_pri_clk_src sc x st = Ok (tt, st') ∧
         st_scalable st' = st_scalable st.
Proof.
  intros Hs. eexists. unfold set_pri_clk_src.
  erewrite bind_run; [|apply load_sc_run; exact Hs].
  split; reflexivity.
Qed.

(** What was saved survives every call but the *dying* event of the CPU. *)

Lemma saved_mux_hw_closed cpu pri sec iaddr :
  hw_closed (saved_mux cpu pri sec iaddr).
Proof. by split. Qed.

Lemma saved_mux_sc_closed cpu pri sec iaddr j g :
  (∀ s, l2cpmr_iaddr (g s) = l2cpmr_iaddr s) →
  sc_closed (saved_mux cpu pri sec iaddr) j g.
Proof.
  intros Hg st s Hs (Hp & Hq & Ha). repeat split; [done | done |].
  revert Ha. apply sc_field_sc_closed; [by right | done].
Qed.

Lemma saved_mux_engine_closed cpu pri sec iaddr cpu' :
  engine_closed (saved_mux cpu pri sec iaddr) cpu'.
Proof.
  split; intros; first [apply saved_mux_hw_closed | by apply saved_mux_sc_closed].
Qed.

Lemma saved_mux_op_closed cpu pri sec iaddr o :
  ¬ is_dying_of cpu o → op_closed (saved_mux cpu pri sec iaddr) o.
Proof.
  destruct o as [cpu' rate reason | khz_ vdd_uv | action cpu']; simpl; intros Hnd.
  - apply saved_mux_engine_closed.
  - done.
  - split; [apply saved_mux_engine_closed | done | |].
    + intros st x Hact (Hp & Hq & Ha). repeat split; [done | | done].
      simpl. rewrite upd_other; [done|].
      intros ->. apply Hnd. unfold is_dying_of. destruct Hact as [-> | ->]; auto.
    + intros st x Hact (Hp & Hq & Ha). repeat split; [ | done | done].
      simpl. rewrite upd_other; [done|].
      intros ->. apply Hnd. unfold is_dying_of. destruct Hact as [-> | ->]; auto.
Qed.

(** The [scalable] array keeps its length. *)

Lemma scalable_length_engine_closed n cpu :
  engine_closed (λ st, length (st_scalable st) = n) cpu.
Proof.
  split; [by split|..]; intros; intros st s Hs Hn; simpl;
    by rewrite length_insert.
Qed.

Lemma scalable_length_hotplug_closed n action cpu :
  hotplug_closed (λ st, length (st_scalable st) = n) action cpu.
Proof. split; [apply scalable_length_engine_closed | done..]. Qed.

Lemma scalable_length_op_closed n o :
  op_closed (λ st, length (st_scalable st) = n) o.
Proof.
  destruct o as [cpu' rate reason | khz_ vdd_uv | action cpu']; simpl.
  - apply scalable_length_engine_closed.
  - done.
  - apply scalable_length_hotplug_closed.
Qed.

#[global] Hint Resolve saved_mux_hw_closed : stable.

Section Hotplug.

Context (plat : platform) (be : backend).

(** Once the events have run: what the *starting* event leaves in the mux
    fields is what the *dying* event read there. *)
Lemma mux_round_trip_of_runs cpu dying starting pri sec st0 r1 st1 ops st2
    r3 st3 :
  dying = CPU_DYING ∨ dying = CPU_DYING_FROZEN →
  starting = CPU_STARTING ∨ starting = CPU_STARTING_FROZEN →
  get_pri_clk_src cpu st0 = Ok (pri, st0) →
  get_sec_clk_src cpu st0 = Ok (sec, st0) →
  acpuclock_cpu_callback plat be dying cpu st0 = Ok (r1, st1) →
  Forall (λ o, ¬ is_dying_of cpu o) ops →
  run_ops plat be ops st1 = Ok (tt, st2) →
  acpuclock_cpu_callback plat be starting cpu st2 = Ok (r3, st3) →
  get_pri_clk_src cpu st3 = Ok (pri, st3) ∧
  get_sec_clk_src cpu st3 = Ok (sec, st3).
Proof.
  intros Hd Hs Hpri Hsec Hdying Hops Hrun Hstarting.
  apply get_pri_clk_src_inv in Hpri as (s & Hlk & _ & Hpri).
  pose proof (get_sec_clk_src_run cpu st0 s Hlk) as Hsec'.
  rewrite Hsec' in Hsec. injection Hsec as Hsec.
  (* what the dying event saves *)
  assert (Hsaved : saved_mux cpu pri sec (l2cpmr_iaddr s) st1).
  { assert (Hd' : acpuclock_cpu_callback plat be CPU_DYING cpu st0
                  = Ok (r1, st1)) by (by destruct Hd as [-> | ->]).
    clear Hdying. unfold acpuclock_cpu_callback in Hd'. run_inv.
    match goal with H : get_sec_clk_src cpu st0 = Ok _ |- _ =>
      rewrite Hsec' in H; injection H as <- <- end.
    match goal with H : get_pri_clk_src cpu _ = Ok _ |- _ =>
      apply get_pri_clk_src_inv in H as (s' & Hlk' & -> & ->) end.
    simpl in Hlk'. rewrite Hlk in Hlk'. injection Hlk' as <-.
    match goal with
    | H : set_sec_clk_src cpu _ ?st = Ok _ |- saved_mux ?c ?p ?q ?a _ =>
        assert (saved_mux c p q a st)
    end.
    { repeat split; simpl; rewrite ?upd_same; try done.
      unfold sc_field. simpl. by rewrite Hlk. }
    carry. done. }
  (* it survives the calls in between *)
  assert (Hsaved2 : saved_mux cpu pri sec (l2cpmr_iaddr s) st2).
  { eapply (stable_run_ops plat be); [|exact Hrun|exact Hsaved].
    eapply Forall_impl; [exact Hops|]. intros o. apply saved_mux_op_closed. }
  (* what the starting event writes back *)
  assert (Hs' : acpuclock_cpu_callback plat be CPU_STARTING cpu st2
                = Ok (r3, st3)) by (by destruct Hs as [-> | ->]).
  clear Hstarting. unfold acpuclock_cpu_callback in Hs'. run_inv.
  carry.
  repeat match goal with
  | H : saved_mux _ _ _ _ _ |- _ => destruct H as (? & ? & ?)
  end.
  match goal with H : set_sec_clk_src _ _ _ = Ok _ |- _ =>
    apply set_sec_clk_src_inv in H as (s2 & Hlk2 & Hsc2 & Hsec2) end.
  match goal with H : set_pri_clk_src _ _ _ = Ok _ |- _ =>
    apply set_pri_clk_src_inv in H as (s4 & Hlk4 & Hsc4 & Hpri4 & Hsec4) end.
  rewrite Hsc2, Hlk2 in Hlk4. injection Hlk4 as <-.
  match goal with |- get_pri_clk_src _ ?st = _ ∧ _ =>
    assert (Hlk6 : sc_lookup (st_scalable st) cpu = Some s2)
      by (by rewrite Hsc4, Hsc2)
  end.
  rewrite (get_pri_clk_src_run _ _ _ Hlk6), (get_sec_clk_src_run _ _ _ Hlk6).
  rewrite Hpri4, Hsec4, Hsec2, !land_3_u32.
  repeat match goal with
  | H : st_prev_pri_src _ _ = _ |- _ => rewrite H; clear H
  | H : st_prev_sec_src _ _ = _ |- _ => rewrite H; clear H
  end.
  by rewrite !land_3_idemp.
Qed.

Lemma dying_runs cpu dying st0 s :
  dying = CPU_DYING ∨ dying = CPU_DYING_FROZEN →
  sc_lookup (st_scalable st0) cpu = Some s →
  ∃ st1, acpuclock_cpu_callback plat be dying cpu st0 = Ok (NOTIFY_OK, st1).
Proof.
  intros Hd Hs.
  assert (∃ st1, acpuclock_cpu_callback plat be CPU_DYING cpu st0
                 = Ok (NOTIFY_OK, st1)) as [st1 Hrun];
    [|exists st1; by destruct Hd as [-> | ->]].
  unfold acpuclock_cpu_callback.
  erewrite bind_run; [|apply get_sec_clk_src_run; exact Hs].
  erewrite bind_run; [|reflexivity].
  erewrite bind_run; [|apply get_pri_clk_src_run; exact Hs].
  erewrite bind_run; [|reflexivity].
  edestruct set_sec_clk_src_ok as (stA & HA & HscA);
    [|erewrite bind_run; [|exact HA]]; [exact Hs|].
  edestruct (set_pri_clk_src_ok cpu PRI_SRC_SEL_SEC_SRC stA) as (stB & HB & _);
    [|erewrite bind_run; [|exact HB]]; [rewrite HscA; exact Hs|].
  by eexists.
Qed.

Lemma starting_runs cpu starting st2 s :
  starting = CPU_STARTING ∨ starting = CPU_STARTING_FROZEN →
  sc_lookup (st_scalable st2) cpu = Some s →
  ∃ st3, acpuclock_cpu_callback plat be starting cpu st2 = Ok (NOTIFY_OK, st3).
Proof.
  intros Hd Hs.
  assert (∃ st3, acpuclock_cpu_callback plat be CPU_STARTING cpu st2
                 = Ok (NOTIFY_OK, st3)) as [st3 Hrun];
    [|exists st3; by destruct Hd as [-> | ->]].
  unfold acpuclock_cpu_callback.
  erewrite bind_run; [|reflexivity].
  edestruct set_sec_clk_src_ok as (stA & HA & HscA);
    [|erewrite bind_run; [|exact HA]]; [exact Hs|].
  erewrite bind_run; [|reflexivity].
  edestruct (set_pri_clk_src_ok cpu (u32 (st_prev_pri_src stA cpu)) stA)
    as (stB & HB & _);
    [|erewrite bind_run; [|exact HB]]; [rewrite HscA; exact Hs|].
  by eexists.
Qed.

(** C8: the *dying* event of a CPU runs and saves the primary and secondary
    mux selections it reads; whatever transitions, voltage adjustments and
    hotplug events other than a *dying* event of that CPU run after it, the
    *starting* event of the CPU then runs and leaves exactly those two
    selections in the mux. *)
Theorem hotplug_mux_round_trip cpu dying starting st0 s :
  dying = CPU_DYING ∨ dying = CPU_DYING_FROZEN →
  starting = CPU_STARTING ∨ starting = CPU_STARTING_FROZEN →
  sc_lookup (st_scalable st0) cpu = Some s →
  ∃ pri sec st1,
    get_pri_clk_src cpu st0 = Ok (pri, st0) ∧
    get_sec_clk_src cpu st0 = Ok (sec, st0) ∧
    acpuclock_cpu_callback plat be dying cpu st0 = Ok (NOTIFY_OK, st1) ∧
    ∀ ops st2,
      Forall (λ o, ¬ is_dying_of cpu o) ops →
      run_ops plat be ops st1 = Ok (tt, st2) →
      ∃ st3,
        acpuclock_cpu_callback plat be starting cpu st2 = Ok (NOTIFY_OK, st3) ∧
        get_pri_clk_src cpu st3 = Ok (pri, st3) ∧
        get_sec_clk_src cpu st3 = Ok (sec, st3).
Proof.
  intros Hd Hst Hs.
  destruct (dying_runs cpu dying st0 s Hd Hs) as [st1 Hdying].
  eexists _, _, st1.
  split; [by apply get_pri_clk_src_run|].
  split; [by apply get_sec_clk_src_run|].
  split; [exact Hdying|].
  intros ops st2 Hops Hrun.
  (* the entry of the CPU is still there when it starts *)
  assert (Hlen : length (st_scalable st2) = length (st_scalable st0)).
  { assert (Hl1 : length (st_scalable st1) = length (st_scalable st0)).
    { eapply (stable_acpuclock_cpu_callback plat be
                (λ st, length (st_scalable st) = length (st_scalable st0)));
        [|exact Hdying|done].
      apply scalable_length_hotplug_closed. }
    eapply (stable_run_ops plat be
              (λ st, length (st_scalable st) = length (st_scalable st0)));
      [|exact Hrun|exact Hl1].
    apply Forall_forall. intros o _. apply scalable_length_op_closed. }
  assert (Hs2 : is_Some (sc_lookup (st_scalable st2) cpu)).
  { revert Hs. unfold sc_lookup. destruct (0 <=? cpu); [|done].
    intros Hs. apply lookup_lt_is_Some. rewrite Hlen.
    by eapply lookup_lt_Some. }
  destruct Hs2 as [s2 Hs2].
  destruct (starting_runs cpu starting st2 s2 Hst Hs2) as [st3 Hstarting].
  exists st3. split; [exact Hstarting|].
  eapply (mux_round_trip_of_runs cpu dying starting _ _ st0 _ st1 ops st2);
    eauto using get_pri_clk_src_run, get_sec_clk_src_run.
Qed.

End Hotplug.

(** ** Requests for the current frequency *)

Lemma first_set_call_engine_closed cpu cpu' :
  engine_closed (sc_field first_set_call cpu false) cpu'.
Proof.
  split; intros;
    first [ apply sc_field_hw_closed
          | by apply sc_field_sc_closed; right
          | by apply sc_field_sc_set ].
Qed.

Lemma first_set_call_op_closed cpu o :
  op_closed (sc_field first_set_call cpu false) o.
Proof.
  destruct o as [cpu' rate reason | khz_ vdd_uv | action cpu']; simpl.
  - apply first_set_call_engine_closed.
  - done.
  - split; [apply first_set_call_engine_closed | done..].
Qed.

Section Noop.

Context (plat : platform) (be : backend).

(** A request for the frequency the CPU runs at, once [first_set_call] is
    cleared, writes the footprint words and nothing else. *)
Lemma set_rate_same_rate cpu reason st s cs :
  (u32 cpu >? num_possible_cpus plat) = false →
  sc_lookup (st_scalable st) cpu = Some s →
  speed_at st (current_speed s) = Some cs →
  first_set_call s = false →
  ∃ fp, acpuclk_8960_set_rate plat be cpu (khz cs) reason st
        = Ok (0, set_footprint fp st).
Proof.
  intros Hcpu Hs Hcs Hfirst. eexists. unfold acpuclk_8960_set_rate.
  erewrite bind_run; [|reflexivity].
  rewrite Hcpu.
  erewrite bind_run; cycle 1.
  { erewrite bind_run; [|reflexivity].
    erewrite bind_run; [|apply load_sc_run; exact Hs].
    erewrite bind_run; [|apply deref_speed_run; exact Hcs].
    rewrite Z.eqb_refl, Hfirst. reflexivity. }
  reflexivity.
Qed.

(** A transition for a normal or hotplug reason that reports success leaves
    [first_set_call] cleared. *)
Lemma set_rate_clears_first_set_call cpu rate reason st st' :
  takes_driver_lock reason = true →
  acpuclk_8960_set_rate plat be cpu rate reason st = Ok (0, st') →
  sc_field first_set_call cpu false st' ∧
  (u32 cpu >? num_possible_cpus plat) = false.
Proof.
  intros Hlock H. unfold acpuclk_8960_set_rate in H.
  run_inv; try discriminate.
  { match goal with
    | Hs : sc_lookup (st_scalable _) cpu = Some ?s,
      Hc : (_ && _) = true |- _ =>
        apply andb_true_iff in Hc as [_ Hc]; apply negb_true_iff in Hc;
        pose proof (sc_field_intro first_set_call _ _ _ Hs) as Hf;
        rewrite Hc in Hf
    end.
    carry. done. }
  all: try (exfalso; unfold takes_driver_lock in Hlock;
            destruct reason; simpl in *; discriminate).
  all: match goal with
       | H : modify_sc _ (set_first_set_call false) _ = Ok _ |- _ =>
           pose proof (modify_sc_field first_set_call _ _ _ _ _ false H
                         (λ _, eq_refl))
       end; carry; done.
Qed.

(** C7, as the code has it: once a transition of the CPU for a normal or
    hotplug reason has reported success, a later request for the frequency
    the CPU then runs at reports success and does nothing but write the
    footprint words: no call to a backend, no change to the [scalable]
    entries, the registers or the tables.  Any calls into the driver may
    lie in between. *)
Theorem same_rate_is_noop cpu rate0 reason0 st0 st1 ops st2 rate reason :
  takes_driver_lock reason0 = true →
  acpuclk_8960_set_rate plat be cpu rate0 reason0 st0 = Ok (0, st1) →
  run_ops plat be ops st1 = Ok (tt, st2) →
  acpuclk_8960_get_rate cpu st2 = Ok (rate, st2) →
  ∃ st3,
    acpuclk_8960_set_rate plat be cpu rate reason st2 = Ok (0, st3) ∧
    st_trace st3 = st_trace st2 ∧
    st_scalable st3 = st_scalable st2 ∧
    st_l2_indirect st3 = st_l2_indirect st2 ∧
    st_iomem st3 = st_iomem st2 ∧
    st_acpu_freq_tbl st3 = st_acpu_freq_tbl st2.
Proof.
  intros Hlock Hfirst Hops Hget.
  apply set_rate_clears_first_set_call in Hfirst as [Hfirst Hcpu]; [|done].
  assert (Hfirst2 : sc_field first_set_call cpu false st2).
  { eapply (stable_run_ops plat be); [|exact Hops|exact Hfirst].
    apply Forall_forall. intros o _. apply first_set_call_op_closed. }
  unfold acpuclk_8960_get_rate in Hget. run_inv.
  match goal with
  | Hs : sc_lookup _ cpu = Some ?s, Hcs : speed_at ?st _ = Some ?cs |- _ =>
      destruct (set_rate_same_rate cpu reason st s cs Hcpu Hs Hcs)
        as [fp Hrun]
  end.
  { unfold sc_field in Hfirst2.
    match goal with Hs : sc_lookup _ cpu = Some _ |- _ =>
      rewrite Hs in Hfirst2 end.
    by injection Hfirst2. }
  eexists. split; [exact Hrun|]. done.
Qed.

End Noop.

(** ** Invalid requests *)

Section Invalid.

Context (plat : platform) (be : backend).

(** A CPU index above [num_possible_cpus()] is refused with [-EINVAL].  The
    footprint stores come before and after the bounds check and go to the
    word [0x3C + 4 * cpu], which for such an index is past the words of the
    CPUs; of the state they are the only change.  [driver_lock], which the
    source unlocks on this path for the reasons [SETRATE_CPUFREQ] and
    [SETRATE_HOTPLUG] without having taken it, is not part of the state. *)
Lemma set_rate_cpu_above_range cpu rate reason st :
  (u32 cpu >? num_possible_cpus plat) = true →
  ∃ fp, acpuclk_8960_set_rate plat be cpu rate reason st
        = Ok (- EINVAL, set_footprint fp st).
Proof.
  intros Hcpu. eexists. unfold acpuclk_8960_set_rate.
  erewrite bind_run; [|reflexivity].
  rewrite Hcpu. reflexivity.
Qed.

Lemma find_tgt_None tbl rate i :
  (∀ l, l ∈ table_entries tbl → khz (speed l) ≠ rate) →
  find_tgt tbl rate i = None.
Proof.
  revert i. induction tbl as [|l rest IH]; intros i Hall; simpl; [done|].
  simpl in Hall. destruct (khz (speed l) =? 0); [done|].
  destruct (khz (speed l) =? rate) eqn:Hr.
  - apply Z.eqb_eq in Hr. destruct (Hall l); [by left | done].
  - apply IH. intros l' Hl'. apply Hall. by right.
Qed.

(** X22: a frequency that no entry of the active table has is refused, and only
    the footprint words are written: the CPU keeps its speed, its votes and
    its cached voltages, and no backend is called. *)
Lemma set_rate_unknown_rate cpu rate reason st s cs :
  (u32 cpu >? num_possible_cpus plat) = false →
  sc_lookup (st_scalable st) cpu = Some s →
  speed_at st (current_speed s) = Some cs →
  khz cs ≠ rate →
  (∀ l, l ∈ table_entries (st_acpu_freq_tbl st) → khz (speed l) ≠ rate) →
  ∃ fp, acpuclk_8960_set_rate plat be cpu rate reason st
        = Ok (- EINVAL, set_footprint fp st).
Proof.
  intros Hcpu Hs Hcs Hne Hall. eexists. unfold acpuclk_8960_set_rate.
  erewrite bind_run; [|reflexivity].
  rewrite Hcpu.
  erewrite bind_run; cycle 1.
  { erewrite bind_run; [|reflexivity].
    erewrite bind_run; [|apply load_sc_run; exact Hs].
    erewrite bind_run; [|apply deref_speed_run; exact Hcs].
    replace (rate =? khz cs) with false by (symmetry; apply Z.eqb_neq; lia).
    simpl. erewrite bind_run; [|reflexivity].
    simpl. rewrite (find_tgt_None _ _ _ Hall). reflexivity. }
  reflexivity.
Qed.

End Invalid.

(** ** The properties on the concrete machine *)

Lemma set_rate_then_get_rate_witness :
  acpuclk_8960_get_rate 0 (at_1512_8960 be_ok)
  = Ok (1512000, at_1512_8960 be_ok).
Proof.
  apply (set_rate_then_get_rate plat_8960 be_ok 0 1512000 SETRATE_CPUFREQ
           (boot_8960 be_ok)).
  - unfold is_cpu, L2. lia.
  - vm_compute. reflexivity.
Defined.

(** At boot no rail has a cached voltage, so an increase starts with the
    call for the memory rail; at 1512 MHz the core rail is at 1.25 V, so a
    decrease to the voltages of the 384 MHz point starts with the call for
    the core rail. *)
Lemma rail_sequencer_order_witness :
  (∃ rc st' e dig core,
      increase_vdd be_ok 0 1250000 1150000 1150000 SETRATE_CPUFREQ
        (boot_8960 be_ok) = Ok (rc, st') ∧
      st_trace st'
      = st_trace (boot_8960 be_ok)
        ++ [(rail_call (sc_of (boot_8960 be_ok) 0) VREG_MEM 1150000, e)]
        ++ dig ++ core ∧
      at_most_one (rail_call (sc_of (boot_8960 be_ok) 0) VREG_DIG 1150000) dig ∧
      at_most_one (rail_call (sc_of (boot_8960 be_ok) 0) VREG_CORE 1250000)
        core) ∧
  (∃ st' e dig mem,
      decrease_vdd be_ok 0 900000 1050000 1050000 SETRATE_CPUFREQ
        (at_1512_8960 be_ok) = Ok (tt, st') ∧
      st_trace st'
      = st_trace (at_1512_8960 be_ok)
        ++ [(rail_call (sc_of (at_1512_8960 be_ok) 0) VREG_CORE 900000, e)]
        ++ dig ++ mem ∧
      at_most_one (rail_call (sc_of (at_1512_8960 be_ok) 0) VREG_DIG 1050000)
        dig ∧
      at_most_one (rail_call (sc_of (at_1512_8960 be_ok) 0) VREG_MEM 1050000)
        mem).
Proof.
  split.
  - destruct (rail_sequencer_order be_ok 0 1250000 1150000 1150000
                SETRATE_CPUFREQ (boot_8960 be_ok) (sc_of (boot_8960 be_ok) 0))
      as [(rc & st' & mem & dig & core & Hrun & Ht & Hm & Hmw & Hd & _ & Hc
           & _) _];
      [vm_compute; reflexivity|].
    destruct Hm as [-> | [e ->]].
    + exfalso. apply (proj2 Hmw); [vm_compute; reflexivity | reflexivity].
    + exists rc, st', e, dig, core.
      split; [exact Hrun | split; [exact Ht | split; [exact Hd | exact Hc]]].
  - destruct (rail_sequencer_order be_ok 0 900000 1050000 1050000
                SETRATE_CPUFREQ (at_1512_8960 be_ok)
                (sc_of (at_1512_8960 be_ok) 0))
      as [_ (st' & core & dig & mem & Hrun & Ht & Hc & Hcw & Hd & _ & Hm
             & _)];
      [vm_compute; reflexivity|].
    destruct Hc as [-> | [e ->]].
    + exfalso.
      apply (proj2 Hcw);
        [split; [vm_compute; reflexivity | discriminate] | reflexivity].
    + exists st', e, dig, mem.
      split; [exact Hrun | split; [exact Ht | split; [exact Hd | exact Hm]]].
Defined.

(** C4 as stated fails on the decrease path: CPU 0 goes from 1512 MHz down
    to 384 MHz, the core regulator refuses the lower voltage, and the
    transition still reports success; its last call is the refused one. *)
Lemma decrease_refusal_not_reported :
  acpuclk_8960_set_rate plat_8960 be_core_floor 0 384000 SETRATE_CPUFREQ
    (at_1512_8960 be_core_floor)
  = Ok (0, at_384_8960 be_core_floor) ∧
  last (st_trace (at_384_8960 be_core_floor))
  = Some (regulator_set_voltage (Some "krait0") 900000 1350000, - EINVAL) ∧
  cached (sc_of (at_384_8960 be_core_floor) 0) VREG_CORE = 1250000.
Proof. vm_compute. repeat split. Qed.

(** C6 at the CPU index 2 of the dual-core machine: the index equals
    [num_possible_cpus()], passes the bounds check, and the driver reads
    the speed of the entry [scalable[2]] through its null pointer. *)
Theorem set_rate_cpu_at_range_end :
  num_possible_cpus plat_8960 = 2 ∧
  current_speed (sc_of (boot_8960 be_ok) 2) = None ∧
  acpuclk_8960_set_rate plat_8960 be_ok 2 384000 SETRATE_CPUFREQ
    (boot_8960 be_ok) = Fault.
Proof. vm_compute. repeat split. Qed.

(** C7 as stated fails when the first successful transition is an idle
    entry: it leaves [first_set_call] set, and the request for the frequency
    the CPU then runs at raises the three rails and asks for bandwidth. *)
Lemma same_rate_after_idle_calls_backends :
  acpuclk_8960_set_rate plat_8960 be_ok 0 STBY_KHZ SETRATE_SWFI
    (boot_8960 be_ok) = Ok (0, idle_8960 be_ok) ∧
  acpuclk_8960_get_rate 0 (idle_8960 be_ok) = Ok (STBY_KHZ, idle_8960 be_ok) ∧
  ∃ st2,
    acpuclk_8960_set_rate plat_8960 be_ok 0 STBY_KHZ SETRATE_CPUFREQ
      (idle_8960 be_ok) = Ok (0, st2) ∧
    st_trace st2
    = st_trace (idle_8960 be_ok)
      ++ [ (rpm_vreg_set_voltage 24 1 1050000 1150000 0, 0);
           (rpm_vreg_set_voltage 103 1 1050000 1150000 0, 0);
           (regulator_set_voltage (Some "krait0") 850000 1350000, 0);
           (msm_bus_scale_client_update_request 1 7, 0) ].
Proof.
  split; [vm_compute; reflexivity|]. split; [vm_compute; reflexivity|].
  eexists. split; vm_compute; reflexivity.
Qed.

Lemma same_rate_is_noop_witness :
  ∃ st3,
    acpuclk_8960_set_rate plat_8960 be_ok 0 384000 SETRATE_SWFI
      (at_384_8960 be_ok) = Ok (0, st3) ∧
    st_trace st3 = st_trace (at_384_8960 be_ok) ∧
    st_scalable st3 = st_scalable (at_384_8960 be_ok) ∧
    st_l2_indirect st3 = st_l2_indirect (at_384_8960 be_ok) ∧
    st_iomem st3 = st_iomem (at_384_8960 be_ok) ∧
    st_acpu_freq_tbl st3 = st_acpu_freq_tbl (at_384_8960 be_ok).
Proof.
  apply (same_rate_is_noop plat_8960 be_ok 0 1512000 SETRATE_CPUFREQ
           (boot_8960 be_ok) (at_1512_8960 be_ok)
           [op_set_rate 0 384000 SETRATE_CPUFREQ] (at_384_8960 be_ok)
           384000 SETRATE_SWFI).
  - reflexivity.
  - vm_compute. reflexivity.
  - vm_compute. reflexivity.
  - vm_compute. reflexivity.
Defined.

Lemma hotplug_mux_round_trip_witness :
  ∃ st3,
    acpuclock_cpu_callback plat_8960 be_ok CPU_STARTING 1 (cpu1_down be_ok)
    = Ok (NOTIFY_OK, st3) ∧
    get_pri_clk_src 1 st3 = Ok (1, st3) ∧
    get_sec_clk_src 1 st3 = Ok (2, st3).
Proof.
  destruct (hotplug_mux_round_trip plat_8960 be_ok 1 CPU_DYING CPU_STARTING
              (at_1512_8960 be_ok) (sc_of (at_1512_8960 be_ok) 1))
    as (pri & sec & st1 & Hpri & Hsec & Hdying & Hafter).
  - by left.
  - by left.
  - vm_compute. reflexivity.
  - assert (Hp : get_pri_clk_src 1 (at_1512_8960 be_ok)
                 = Ok (1, at_1512_8960 be_ok)) by (vm_compute; reflexivity).
    assert (Hq : get_sec_clk_src 1 (at_1512_8960 be_ok)
                 = Ok (2, at_1512_8960 be_ok)) by (vm_compute; reflexivity).
    assert (Hd : acpuclock_cpu_callback plat_8960 be_ok CPU_DYING 1
                   (at_1512_8960 be_ok) = Ok (NOTIFY_OK, cpu1_dying be_ok))
      by (vm_compute; reflexivity).
    assert (pri = 1) as -> by congruence.
    assert (sec = 2) as -> by congruence.
    assert (st1 = cpu1_dying be_ok) as -> by congruence.
    apply (Hafter while_cpu1_down (cpu1_down be_ok)).
    + unfold while_cpu1_down, is_dying_of.
      repeat constructor; intros [H | H]; discriminate H.
    + vm_compute. reflexivity.
Defined.
(** ** The tables under the adjustments of the selector *)

Lemma set_vdd_core_same l : set_vdd_core l (vdd_core l) = l.
Proof. by destruct l. Qed.

(** X1: the errata fix raises the core voltage of every operating point before
    the sentinel to [MIN_VDD_SC] at least and changes nothing else: the
    frequencies, the sentinel and what lies behind it stay, and a second
    application changes nothing. *)
Theorem kraitv2_apply_vmin_floor (tbl : list acpu_level) :
  table_entries (kraitv2_apply_vmin tbl)
  = (λ l, set_vdd_core l (Z.max (vdd_core l) MIN_VDD_SC)) <$> table_entries tbl ∧
  drop (length (table_entries tbl)) (kraitv2_apply_vmin tbl)
  = drop (length (table_entries tbl)) tbl ∧
  kraitv2_apply_vmin (kraitv2_apply_vmin tbl) = kraitv2_apply_vmin tbl.
Proof.
  induction tbl as [|l rest (IH1 & IH2 & IH3)]; simpl; [done|].
  destruct (khz (speed l) =? 0) eqn:Hz; simpl.
  { by rewrite ?Hz. }
  destruct (vdd_core l <? MIN_VDD_SC) eqn:Hv; simpl; rewrite ?Hz; simpl.
  - rewrite IH1, IH3. apply Z.ltb_lt in Hv.
    rewrite Z.max_r by lia. split; [done|]. split; [done|].
    by replace (MIN_VDD_SC <? MIN_VDD_SC) with false.
  - rewrite ?Hv, IH1, IH3. apply Z.ltb_ge in Hv.
    rewrite Z.max_l by lia. by rewrite set_vdd_core_same.
Qed.

(** *** The truncation at the configured maximum *)

Lemma mark_not_supported_entries tbl :
  table_entries (mark_not_supported tbl)
  = (λ e, set_use_for_scaling e 0) <$> table_entries tbl.
Proof.
  induction tbl as [|l rest IH]; simpl; [done|].
  destruct (khz (speed l) =? 0) eqn:Hz; simpl; rewrite Hz; [done|].
  by rewrite IH.
Qed.

Lemma mark_not_supported_usable tbl :
  usable_levels (mark_not_supported tbl) = [].
Proof.
  induction tbl as [|l rest IH]; simpl; [done|].
  destruct (khz (speed l) =? 0) eqn:Hz; simpl; rewrite Hz; done.
Qed.

Lemma usable_levels_app pre tbl :
  Forall (λ e, khz (speed e) ≠ 0) pre →
  usable_levels (pre ++ tbl)
  = filter (λ e, use_for_scaling e ≠ 0) pre ++ usable_levels tbl.
Proof.
  induction 1 as [|e pre He _ IH]; simpl; [done|].
  apply Z.eqb_neq in He as ->. rewrite filter_cons.
  destruct (use_for_scaling e =? 0) eqn:Hu.
  - apply Z.eqb_eq in Hu. by rewrite decide_False by (by intros []).
  - apply Z.eqb_neq in Hu. rewrite decide_True by done. simpl. by rewrite IH.
Qed.

Lemma table_entries_app pre tbl :
  Forall (λ e, khz (speed e) ≠ 0) pre →
  table_entries (pre ++ tbl) = pre ++ table_entries tbl.
Proof.
  induction 1 as [|e pre He _ IH]; simpl; [done|].
  apply Z.eqb_neq in He as ->. by rewrite IH.
Qed.

Lemma apply_acpu_max_freq_app m pre l post :
  Forall (λ e, khz (speed e) ≠ 0 ∧ khz (speed e) ≠ m) pre →
  khz (speed l) = m → m ≠ 0 →
  apply_acpu_max_freq m (pre ++ l :: post)
  = pre ++ l :: mark_not_supported post.
Proof.
  intros Hpre Hl Hm. induction Hpre as [|e pre [He1 He2] _ IH]; simpl.
  - rewrite Hl. apply Z.eqb_neq in Hm as ->. by rewrite Z.eqb_refl.
  - apply Z.eqb_neq in He1 as ->. apply Z.eqb_neq in He2 as ->. by rewrite IH.
Qed.

(** The first entry of a table that has the frequency [m]. *)
Lemma table_entries_first m tbl e :
  e ∈ table_entries tbl → khz (speed e) = m →
  ∃ pre l post,
    tbl = pre ++ l :: post ∧
    Forall (λ e, khz (speed e) ≠ 0 ∧ khz (speed e) ≠ m) pre ∧
    khz (speed l) = m ∧ m ≠ 0.
Proof.
  induction tbl as [|x rest IH]; simpl; [by intros ?%elem_of_nil|].
  destruct (khz (speed x) =? 0) eqn:Hz; [by intros ?%elem_of_nil|].
  apply Z.eqb_neq in Hz. intros Hin Hm.
  destruct (decide (khz (speed x) = m)) as [Hx|Hx].
  - exists [], x, rest.
    split; [done|]. split; [constructor|]. split; [done | lia].
  - apply elem_of_cons in Hin as [-> | Hin]; [done|].
    destruct (IH Hin Hm) as (pre & l & post & -> & Hpre & Hl & Hne).
    exists (x :: pre), l, post.
    split; [done|]. split; [by constructor|]. by split.
Qed.

(** X2: when the table has the configured maximum [m], the truncation clears
    the scaling flag of every entry between the first entry of frequency
    [m] and the sentinel and changes nothing else: the usable operating
    points are those up to that entry. *)
Theorem apply_acpu_max_freq_found (m : Z) (pre : list acpu_level)
    (l : acpu_level) (post : list acpu_level) :
  Forall (λ e, khz (speed e) ≠ 0 ∧ khz (speed e) ≠ m) pre →
  khz (speed l) = m → m ≠ 0 →
  apply_acpu_max_freq m (pre ++ l :: post)
  = pre ++ l :: mark_not_supported post ∧
  table_entries (mark_not_supported post)
  = (λ e, set_use_for_scaling e 0) <$> table_entries post ∧
  drop (length (table_entries post)) (mark_not_supported post)
  = drop (length (table_entries post)) post ∧
  usable_levels (apply_acpu_max_freq m (pre ++ l :: post))
  = filter (λ e, use_for_scaling e ≠ 0) (pre ++ [l]).
Proof.
  intros Hpre Hl Hm.
  split; [by apply apply_acpu_max_freq_app|].
  split; [apply mark_not_supported_entries|]. split.
  - clear. induction post as [|e post IH]; simpl; [done|].
    destruct (khz (speed e) =? 0) eqn:Hz; simpl; [done|]. exact IH.
  - rewrite apply_acpu_max_freq_app by done.
    replace (pre ++ l :: mark_not_supported post)
      with ((pre ++ [l]) ++ mark_not_supported post)
      by (by rewrite <- app_assoc).
    rewrite usable_levels_app, mark_not_supported_usable, app_nil_r; [done|].
    apply Forall_app. split; [|repeat constructor; lia].
    eapply Forall_impl; [exact Hpre|]. by intros e [? _].
Qed.

(** X3: a configured maximum that no entry of the table has truncates
    nothing. *)
Theorem apply_acpu_max_freq_absent (m : Z) (tbl : list acpu_level) :
  (∀ e, e ∈ table_entries tbl → khz (speed e) ≠ m) →
  apply_acpu_max_freq m tbl = tbl.
Proof.
  induction tbl as [|l rest IH]; simpl; [done|].
  destruct (khz (speed l) =? 0) eqn:Hz; [done|]. intros Hall.
  destruct (khz (speed l) =? m) eqn:Hm.
  - apply Z.eqb_eq in Hm. destruct (Hall l); [by left | done].
  - rewrite IH; [done|]. intros e He. apply Hall. by right.
Qed.

Lemma increasing_khz_cons a l :
  increasing_khz (a :: l) = true →
  Forall (λ b, khz (speed a) < khz (speed b)) l ∧ increasing_khz l = true.
Proof.
  revert a. induction l as [|b l IH]; intros a; simpl; [by split|].
  intros [Hab Hl]%andb_true_iff. apply Z.ltb_lt in Hab.
  split; [|exact Hl]. constructor; [exact Hab|].
  destruct (IH b Hl) as [Hb _].
  eapply Forall_impl; [exact Hb|]. simpl. intros c Hc. lia.
Qed.

Lemma increasing_khz_app_r l1 l2 :
  increasing_khz (l1 ++ l2) = true → increasing_khz l2 = true.
Proof.
  induction l1 as [|a l1 IH]; [done|]. intros H. apply IH.
  by apply (increasing_khz_cons a (l1 ++ l2)).
Qed.

(** X4: on a table of increasing frequencies that has the configured maximum
    [m], the operating points left usable are the usable ones of frequency
    [m] at most. *)
Theorem apply_acpu_max_freq_caps (m : Z) (tbl : list acpu_level)
    (l e : acpu_level) :
  increasing_khz (table_entries tbl) = true →
  l ∈ table_entries tbl → khz (speed l) = m →
  e ∈ usable_levels (apply_acpu_max_freq m tbl)
  ↔ e ∈ usable_levels tbl ∧ khz (speed e) ≤ m.
Proof.
  intros Hsort Hin Hl.
  destruct (table_entries_first m tbl l Hin Hl)
    as (pre & x & post & -> & Hpre & Hx & Hm).
  assert (Hpre0 : Forall (λ e, khz (speed e) ≠ 0) (pre ++ [x])).
  { apply Forall_app. split; [|repeat constructor; lia].
    eapply Forall_impl; [exact Hpre|]. by intros ? [? _]. }
  rewrite apply_acpu_max_freq_app by done.
  replace (pre ++ x :: mark_not_supported post)
    with ((pre ++ [x]) ++ mark_not_supported post)
    by (by rewrite <- app_assoc).
  replace (pre ++ x :: post) with ((pre ++ [x]) ++ post) in *
    by (by rewrite <- app_assoc).
  rewrite !usable_levels_app, mark_not_supported_usable, app_nil_r by done.
  rewrite table_entries_app in Hsort by done.
  rewrite <- app_assoc in Hsort. simpl in Hsort.
  assert (Hlow : ∀ a, a ∈ pre ++ [x] → khz (speed a) ≤ m).
  { intros a [Ha | Ha%list_elem_of_singleton]%elem_of_app; [|subst; lia].
    clear Hpre0 Hpre Hin.
    induction pre as [|b pre IH]; [by apply elem_of_nil in Ha|].
    simpl in Hsort. apply increasing_khz_cons in Hsort as [Hb Hs].
    apply elem_of_cons in Ha as [-> | Ha]; [|by apply IH].
    rewrite Forall_forall in Hb.
    assert (khz (speed b) < khz (speed x)); [|lia].
    apply Hb, elem_of_app. right. by left. }
  assert (Hhigh : ∀ a, a ∈ usable_levels post → m < khz (speed a)).
  { apply increasing_khz_app_r, increasing_khz_cons in Hsort as [Hpost _].
    intros a Ha. rewrite Forall_forall in Hpost. rewrite <- Hx.
    apply Hpost. clear -Ha. induction post as [|b post IH]; simpl in *;
      [by apply elem_of_nil in Ha|].
    destruct (khz (speed b) =? 0); [by apply elem_of_nil in Ha|].
    destruct (use_for_scaling b =? 0); [right; by apply IH|].
    apply elem_of_cons in Ha as [-> | Ha]; [by left | right; by apply IH]. }
  rewrite elem_of_app, !list_elem_of_filter. split.
  - intros [Hu Ha]. split; [by left | by apply Hlow].
  - intros [[Ha | Ha] Hle]; [done|]. apply Hhigh in Ha. lia.
Qed.
(** *** The level the selector returns *)

Lemma usable_levels_cons l rest :
  usable_levels (l :: rest)
  = if khz (speed l) =? 0 then []
    else if use_for_scaling l =? 0 then usable_levels rest
         else l :: usable_levels rest.
Proof. reflexivity. Qed.

Lemma find_max_acpu_level_Some tbl i0 acc i :
  find_max_acpu_level tbl i0 acc = Some i →
  acc = Some i ∨
  ∃ l, (i0 ≤ i)%nat ∧ tbl !! (i - i0)%nat = Some l ∧
       l ∈ usable_levels tbl ∧ khz (speed l) = 2160000.
Proof.
  revert i0 acc. induction tbl as [|l rest IH]; intros i0 acc; simpl;
    [by left|].
  destruct (khz (speed l) =? 0) eqn:Hz; [by left|].
  apply Z.eqb_neq in Hz. intros H. apply IH in H as [H | (l' & Hle & Hl' & Hin & Hk)].
  - destruct (use_for_scaling l =? 0) eqn:Hu; simpl in H; [by left|].
    destruct (khz (speed l) =? 2160000) eqn:Hk; simpl in H; [|by left].
    injection H as <-. right. exists l. rewrite Nat.sub_diag.
    apply Z.eqb_eq in Hk.
    split; [lia|]. split; [done|]. split; [|done].
    by left.
  - right. exists l'. split; [lia|]. split; [|split; [|done]].
    + by replace (i - i0)%nat with (S (i - S i0)) by lia.
    + destruct (use_for_scaling l =? 0); [done | by right].
Qed.

(** X5: whenever the selector returns a plan, the SoC is an MSM8960 with a
    Krait v2, and the level it returns is a usable operating point of
    2160000 kHz of the table it leaves active, whose core voltage is
    [max_vdd]: the frequency the CPUs boot at does not depend on the fuses,
    the kernel flags or the configured maximum. *)
Theorem select_freq_plan_boot_level (h : headers) (p : platform)
    (plan : freq_plan) :
  select_freq_plan h p = Ok plan →
  cpu_is_msm8960 p = true ∧ cpu_is_krait_v1 p = false ∧
  ∃ l, plan_acpu_freq_tbl plan !! plan_max_acpu_level plan = Some l ∧
       l ∈ usable_levels (plan_acpu_freq_tbl plan) ∧
       khz (speed l) = 2160000 ∧
       plan_max_vdd plan = vdd_core l.
Proof.
  unfold select_freq_plan.
  destruct (cpu_is_msm8960 p); [|done].
  destruct (cpu_is_krait_v1 p); [done|].
  set (tbl := if negb (acpu_max_freq p =? 0) then _ else _).
  destruct (find_max_acpu_level tbl 0 None) as [i|] eqn:Hfind; [|done].
  destruct (tbl !! i) as [l|] eqn:Hl; [|done].
  intros [= <-]. simpl. split; [done|]. split; [done|].
  apply find_max_acpu_level_Some in Hfind as [? | (l' & _ & Hl' & Hin & Hk)];
    [done|].
  rewrite Nat.sub_0_r, Hl in Hl'. injection Hl' as <-.
  by exists l.
Qed.
(** ** Run-time voltage adjustment, continued *)

Lemma acpuclk_set_vdd_loop_same_point khz_ vdd_uv tbl :
  Forall2 same_point tbl (acpuclk_set_vdd_loop khz_ vdd_uv tbl).
Proof.
  induction tbl as [|l rest IH]; simpl; [constructor|].
  destruct (khz (speed l) =? 0).
  { apply Forall2_same_length_lookup_2; [done|].
    intros i x y Hx Hy. rewrite Hx in Hy. by injection Hy as <-. }
  constructor; [|exact IH].
  destruct (khz_ =? 0); [done|]. by destruct (khz (speed l) =? khz_).
Qed.

Lemma acpuclk_set_vdd_tbl_same_point khz_ vdd_uv tbl :
  Forall2 same_point tbl (acpuclk_set_vdd_tbl khz_ vdd_uv tbl).
Proof.
  destruct tbl as [|l0 rest]; simpl; [constructor|].
  constructor; [done|]. apply acpuclk_set_vdd_loop_same_point.
Qed.

Lemma same_point_lookup_speed tbl tbl' i :
  Forall2 same_point tbl tbl' → speed <$> tbl' !! i = speed <$> tbl !! i.
Proof.
  intros H. revert i. induction H as [|l l' tbl tbl' (Hs & _) _ IH];
    intros [|i]; simpl; [done | done | by rewrite Hs | apply IH].
Qed.

Lemma same_point_find_tgt tbl tbl' rate i0 :
  Forall2 same_point tbl tbl' →
  fst <$> find_tgt tbl' rate i0 = fst <$> find_tgt tbl rate i0.
Proof.
  intros H. revert i0. induction H as [|l l' tbl tbl' (Hs & _) _ IH];
    intros i0; simpl; [done|]. rewrite Hs.
  destruct (khz (speed l) =? 0); [done|].
  destruct (khz (speed l) =? rate); [done|]. apply IH.
Qed.

Lemma same_point_usable tbl tbl' :
  Forall2 same_point tbl tbl' →
  speed <$> usable_levels tbl' = speed <$> usable_levels tbl.
Proof.
  induction 1 as [|l l' tbl tbl' (Hs & Hu & _) _ IH]; simpl; [done|].
  rewrite Hs, Hu. destruct (khz (speed l) =? 0); [done|].
  destruct (use_for_scaling l =? 0); [done|]. rewrite !fmap_cons.
  by rewrite Hs, IH.
Qed.

(** X6: adjusting the core voltages changes no frequency: every CPU and the L2
    report the frequency they reported before, a request for a frequency
    finds the entry of the same index, and the usable frequencies are the
    same. *)
Theorem acpuclk_set_vdd_keeps_rates (khz_ vdd_uv : Z) (st : state) :
  ∃ st',
    acpuclk_set_vdd khz_ vdd_uv st = Ok (tt, st') ∧
    (∀ cpu, acpuclk_8960_get_rate cpu st'
            = match acpuclk_8960_get_rate cpu st with
              | Ok (rate, _) => Ok (rate, st')
              | Fault => Fault
              end) ∧
    (∀ rate, fst <$> find_tgt (st_acpu_freq_tbl st') rate 0
             = fst <$> find_tgt (st_acpu_freq_tbl st) rate 0) ∧
    speed <$> usable_levels (st_acpu_freq_tbl st')
    = speed <$> usable_levels (st_acpu_freq_tbl st).
Proof.
  eexists. split; [reflexivity|].
  pose proof (acpuclk_set_vdd_tbl_same_point khz_ vdd_uv (st_acpu_freq_tbl st))
    as Hsame.
  split; [|split; [intros rate; by apply same_point_find_tgt
                  | by apply same_point_usable]].
  intros cpu. unfold acpuclk_8960_get_rate, load_sc, deref_speed, gets, deref.
  unfold mbind, M_bind. simpl.
  destruct (sc_lookup (st_scalable st) cpu) as [s|]; simpl; [|done].
  destruct (current_speed s) as [[i|j]|]; simpl; [| |done].
  - rewrite (same_point_lookup_speed _ _ i Hsame).
    by destruct (st_acpu_freq_tbl st !! i).
  - by destruct (st_l2_freq_tbl st !! j).
Qed.

Lemma acpuclk_set_vdd_loop_entries khz_ vdd_uv tbl :
  table_entries (acpuclk_set_vdd_loop khz_ vdd_uv tbl)
  = (λ l, if khz_ =? 0 then
            set_vdd_core l
              (Z.min (Z.max (u32 (vdd_core l + vdd_uv)) (u32 MIN_VDD_SC))
                     (u32 MAX_VDD_SC))
          else if khz (speed l) =? khz_ then
            set_vdd_core l
              (Z.min (Z.max (u32 vdd_uv) (u32 MIN_VDD_SC)) (u32 MAX_VDD_SC))
          else l) <$> table_entries tbl.
Proof.
  induction tbl as [|l rest IH]; [done|].
  change (acpuclk_set_vdd_loop khz_ vdd_uv (l :: rest))
    with (if khz (speed l) =? 0 then l :: rest
          else (if khz_ =? 0 then
                  set_vdd_core l
                    (Z.min (Z.max (u32 (vdd_core l + vdd_uv)) (u32 MIN_VDD_SC))
                           (u32 MAX_VDD_SC))
                else if khz (speed l) =? khz_ then
                  set_vdd_core l
                    (Z.min (Z.max (u32 vdd_uv) (u32 MIN_VDD_SC)) (u32 MAX_VDD_SC))
                else l) :: acpuclk_set_vdd_loop khz_ vdd_uv rest).
  change (table_entries (l :: rest))
    with (if khz (speed l) =? 0 then [] else l :: table_entries rest).
  destruct (khz (speed l) =? 0) eqn:Hz.
  { change (table_entries (l :: rest))
      with (if khz (speed l) =? 0 then [] else l :: table_entries rest).
    by rewrite Hz. }
  rewrite fmap_cons, <- IH.
  match goal with |- table_entries (?x :: _) = _ =>
    change (table_entries (x :: acpuclk_set_vdd_loop khz_ vdd_uv rest))
      with (if khz (speed x) =? 0 then []
            else x :: table_entries (acpuclk_set_vdd_loop khz_ vdd_uv rest));
    replace (khz (speed x)) with (khz (speed l))
      by (destruct (khz_ =? 0); [done|]; by destruct (khz (speed l) =? khz_))
  end.
  by rewrite Hz.
Qed.

(** X7: a request below zero stores the maximum, not the minimum: the voltage
    asked for at one frequency, or the sum of the entry's voltage and the
    offset asked for all, is converted to [unsigned int] before it is
    clamped. *)
Theorem acpuclk_set_vdd_wraps (khz_ vdd_uv : Z) (st : state) (i : nat)
    (l : acpu_level) :
  table_entries (drop 1 (st_acpu_freq_tbl st)) !! i = Some l →
  0 ≤ vdd_core l < 2 ^ 32 → - 2 ^ 31 ≤ vdd_uv < 2 ^ 31 →
  (khz_ = 0 ∧ vdd_core l + vdd_uv < 0) ∨
  (khz_ = khz (speed l) ∧ vdd_uv < 0) →
  ∃ st',
    acpuclk_set_vdd khz_ vdd_uv st = Ok (tt, st') ∧
    table_entries (drop 1 (st_acpu_freq_tbl st')) !! i
    = Some (set_vdd_core l MAX_VDD_SC).
Proof.
  intros Hl Hcore Huv Hreq. eexists. split; [reflexivity|]. simpl.
  destruct (st_acpu_freq_tbl st) as [|l0 rest]; [done|].
  simpl in *. rewrite drop_0 in *.
  rewrite acpuclk_set_vdd_loop_entries, list_lookup_fmap, Hl. simpl.
  assert (Hk : khz (speed l) ≠ 0).
  { apply list_elem_of_lookup_2 in Hl. clear -Hl.
    induction rest as [|e rest IH]; simpl in Hl; [by apply elem_of_nil in Hl|].
    destruct (khz (speed e) =? 0) eqn:Hz; [by apply elem_of_nil in Hl|].
    apply Z.eqb_neq in Hz.
    apply elem_of_cons in Hl as [-> | Hl]; [done | by apply IH]. }
  change (u32 MIN_VDD_SC) with 400000. change (u32 MAX_VDD_SC) with 1350000.
  change MAX_VDD_SC with 1350000. unfold u32.
  destruct Hreq as [[-> Hneg] | [-> Hneg]]; simpl.
  - f_equal. f_equal.
    replace ((vdd_core l + vdd_uv) mod 2 ^ 32)
      with (vdd_core l + vdd_uv + 2 ^ 32); [lia|].
    apply Z.mod_unique with (-1); lia.
  - apply Z.eqb_neq in Hk as Hk'. rewrite Hk', Z.eqb_refl.
    f_equal. f_equal.
    replace (vdd_uv mod 2 ^ 32) with (vdd_uv + 2 ^ 32); [lia|].
    apply Z.mod_unique with (-1); lia.
Qed.
(** ** The table handed to cpufreq *)

Lemma cpufreq_table_loop_room tbl row :
  (length row + length (usable_levels tbl) < 30)%nat →
  ∃ rest,
    cpufreq_table_loop tbl row
    = (rest,
       row ++ imap (λ i l, {| index := Z.of_nat (length row + i);
                              frequency := khz (speed l) |})
                   (usable_levels tbl)) ∧
    match rest with
    | l :: _ => khz (speed l) = 0
    | [] => True
    end.
Proof.
  revert row. induction tbl as [|l rest IH]; intros row Hroom.
  { exists []. simpl. by rewrite app_nil_r. }
  rewrite usable_levels_cons in Hroom |- *.
  change (cpufreq_table_loop (l :: rest) row)
    with (if negb (khz (speed l) =? 0)
             && (Z.of_nat (length row) <? freq_table_row_size)
          then cpufreq_table_loop rest
                 (if negb (use_for_scaling l =? 0)
                  then row ++ [ {| index := Z.of_nat (length row);
                                   frequency := khz (speed l) |} ]
                  else row)
          else (l :: rest, row)).
  destruct (khz (speed l) =? 0) eqn:Hz.
  { exists (l :: rest). simpl. rewrite app_nil_r.
    split; [done|]. by apply Z.eqb_eq. }
  replace (Z.of_nat (length row) <? freq_table_row_size) with true
    by (symmetry; apply Z.ltb_lt; unfold freq_table_row_size; lia).
  simpl negb. simpl andb. cbv iota.
  destruct (use_for_scaling l =? 0) eqn:Hu; simpl negb; cbv iota.
  - apply IH. exact Hroom.
  - destruct (IH (row ++ [ {| index := Z.of_nat (length row);
                             frequency := khz (speed l) |} ]))
      as (rest' & Hrun & Hrest).
    { rewrite length_app. simpl in *. lia. }
    exists rest'. split; [|exact Hrest]. rewrite Hrun. f_equal.
    rewrite <- app_assoc. f_equal. simpl. f_equal.
    + by rewrite Nat.add_0_r.
    + apply imap_ext. intros i x _. simpl. rewrite length_app. simpl.
      do 2 f_equal. lia.
Qed.

Lemma cpufreq_table_loop_full tbl row :
  (length row ≤ 30)%nat →
  (30 ≤ length row + length (usable_levels tbl))%nat →
  ∃ rest row',
    cpufreq_table_loop tbl row = (rest, row') ∧
    (length row' = 30%nat ∨
     match rest with
     | l :: _ => khz (speed l) ≠ 0
     | [] => False
     end).
Proof.
  revert row. induction tbl as [|l rest IH]; intros row Hle Hfull.
  { exists [], row. simpl in *. split; [done|]. left. lia. }
  rewrite usable_levels_cons in Hfull.
  change (cpufreq_table_loop (l :: rest) row)
    with (if negb (khz (speed l) =? 0)
             && (Z.of_nat (length row) <? freq_table_row_size)
          then cpufreq_table_loop rest
                 (if negb (use_for_scaling l =? 0)
                  then row ++ [ {| index := Z.of_nat (length row);
                                   frequency := khz (speed l) |} ]
                  else row)
          else (l :: rest, row)).
  destruct (khz (speed l) =? 0) eqn:Hz.
  { exists (l :: rest), row. simpl in *. split; [done|]. left. lia. }
  simpl negb. simpl andb.
  destruct (Z.of_nat (length row) <? freq_table_row_size) eqn:Hrow.
  - apply Z.ltb_lt in Hrow. unfold freq_table_row_size in Hrow.
    destruct (use_for_scaling l =? 0) eqn:Hu; simpl negb; cbv iota.
    + apply IH; [done|exact Hfull].
    + apply IH; rewrite length_app; simpl in *; lia.
  - exists (l :: rest), row. split; [done|]. right. by apply Z.eqb_neq.
Qed.

Lemma cpufreq_table_row_eq (tbl : list acpu_level) :
  cpufreq_table_row tbl
  = if decide (length (usable_levels tbl) < 30)%nat
    then Ok (imap (λ i l, {| index := Z.of_nat i;
                             frequency := khz (speed l) |})
                  (usable_levels tbl)
             ++ [ {| index := Z.of_nat (length (usable_levels tbl));
                     frequency := CPUFREQ_TABLE_END |} ])
    else Fault.
Proof.
  unfold cpufreq_table_row.
  destruct (decide (length (usable_levels tbl) < 30)%nat) as [Hlt|Hge].
  - destruct (cpufreq_table_loop_room tbl []) as (rest & -> & Hrest);
      [simpl; lia|].
    simpl app. rewrite length_imap.
    replace (match rest with
             | l :: _ => negb (khz (speed l) =? 0)
             | [] => false
             end) with false
      by (destruct rest; [done|]; by rewrite Hrest).
    replace (Z.of_nat (length (usable_levels tbl)) <? freq_table_row_size)
      with true
      by (symmetry; apply Z.ltb_lt; unfold freq_table_row_size; lia).
    done.
  - destruct (cpufreq_table_loop_full tbl []) as (rest & row' & -> & Hfull);
      [simpl; lia | simpl; lia |].
    destruct Hfull as [Hlen | Hrest].
    + destruct (match rest with
                | l :: _ => negb (khz (speed l) =? 0)
                | [] => false
                end); [done|].
      rewrite Hlen. done.
    + destruct rest as [|l rest]; [done|].
      by apply Z.eqb_neq in Hrest as ->.
Qed.

(** X8: the row of a CPU holds the frequencies of the usable operating points
    in the order of the table, numbered from 0, and the end marker behind
    them, when there are fewer than 30 of them; with 30 or more the
    function does not return. *)
Theorem cpufreq_table_row_usable (tbl : list acpu_level) :
  cpufreq_table_row tbl
  = if decide (length (usable_levels tbl) < 30)%nat
    then Ok (imap (λ i l, {| index := Z.of_nat i;
                             frequency := khz (speed l) |})
                  (usable_levels tbl)
             ++ [ {| index := Z.of_nat (length (usable_levels tbl));
                     frequency := CPUFREQ_TABLE_END |} ])
    else Fault.
Proof. apply cpufreq_table_row_eq. Qed.

Lemma usable_levels_entries tbl l :
  l ∈ usable_levels tbl → l ∈ table_entries tbl.
Proof.
  induction tbl as [|x rest IH]; [done|].
  rewrite usable_levels_cons.
  change (table_entries (x :: rest))
    with (if khz (speed x) =? 0 then [] else x :: table_entries rest).
  destruct (khz (speed x) =? 0); [done|].
  destruct (use_for_scaling x =? 0); [intros ?; right; by apply IH|].
  intros [-> | ?]%elem_of_cons; [by left | right; by apply IH].
Qed.

Lemma find_tgt_entry tbl l i0 :
  l ∈ table_entries tbl →
  ∃ i tgt, find_tgt tbl (khz (speed l)) i0 = Some (i, tgt) ∧
           khz (speed tgt) = khz (speed l).
Proof.
  revert i0. induction tbl as [|x rest IH]; intros i0;
    [by intros ?%elem_of_nil|].
  change (table_entries (x :: rest))
    with (if khz (speed x) =? 0 then [] else x :: table_entries rest).
  change (find_tgt (x :: rest) (khz (speed l)) i0)
    with (if khz (speed x) =? 0 then None
          else if khz (speed x) =? khz (speed l) then Some (i0, x)
               else find_tgt rest (khz (speed l)) (S i0)).
  destruct (khz (speed x) =? 0); [by intros ?%elem_of_nil|].
  destruct (khz (speed x) =? khz (speed l)) eqn:Hx.
  - intros _. apply Z.eqb_eq in Hx. by exists i0, x.
  - intros [-> | Hin]%elem_of_cons; [by rewrite Z.eqb_refl in Hx|].
    by apply IH.
Qed.

(** X9: every frequency of the row of a CPU, the end marker apart, is one the
    transition engine finds in the table: cpufreq is offered no frequency
    that a transition would refuse as unknown. *)
Theorem cpufreq_frequencies_are_found (tbl : list acpu_level)
    (row : list cpufreq_frequency_table) (k : nat)
    (e : cpufreq_frequency_table) :
  cpufreq_table_row tbl = Ok row →
  row !! k = Some e → (S k < length row)%nat →
  index e = Z.of_nat k ∧
  ∃ i tgt, find_tgt tbl (frequency e) 0 = Some (i, tgt) ∧
           khz (speed tgt) = frequency e.
Proof.
  rewrite cpufreq_table_row_eq.
  destruct (decide (length (usable_levels tbl) < 30)%nat); [|done].
  intros [= <-] He Hk. rewrite length_app, length_imap in Hk. simpl in Hk.
  rewrite lookup_app_l in He by (rewrite length_imap; lia).
  rewrite list_lookup_imap in He.
  destruct (usable_levels tbl !! k) as [x|] eqn:Hx; [|done].
  injection He as <-. simpl. split; [done|].
  apply find_tgt_entry, usable_levels_entries.
  by eapply list_elem_of_lookup_2.
Qed.
(** ** Voltages set from a list *)

Lemma int_at_nat a (i : nat) : int_at a (Z.of_nat i) = a !! i.
Proof.
  unfold int_at. replace (0 <=? Z.of_nat i) with true
    by (symmetry; apply Z.leb_le; lia).
  by rewrite Nat2Z.id.
Qed.

Lemma int_at_nonneg a i : 0 ≤ i → int_at a i = a !! Z.to_nat i.
Proof.
  intros Hi. unfold int_at.
  by replace (0 <=? i) with true by (symmetry; apply Z.leb_le; lia).
Qed.

Lemma UV_mV_step_middle vdd_uv (i j : nat) v pre l post :
  length pre = S i → vdd_uv !! j = Some v →
  UV_mV_step vdd_uv (Z.of_nat i) (Z.of_nat j) (pre ++ l :: post)
  = Some (pre ++ UV_mV_entry v l :: post).
Proof.
  intros Hpre Hv. unfold UV_mV_step, UV_mV_entry.
  rewrite int_at_nat, Hv. simpl.
  replace (Z.to_nat (Z.of_nat i + 1)) with (length pre + 0)%nat by lia.
  destruct ((s32 (v * 1000) >=? MIN_VDD_SC) && (s32 (v * 1000) <=? MAX_VDD_SC));
    [|done].
  rewrite lookup_app_r by lia.
  replace (length pre + 0 - length pre)%nat with 0%nat by lia. simpl.
  by rewrite insert_app_r.
Qed.

Lemma UV_mV_loop_up_middle vdd_uv (i : nat) vals pre mid post :
  length pre = S i → length mid = length vals →
  take (length vals) (drop i vdd_uv) = vals →
  UV_mV_loop_up (length vals) (Z.of_nat i) vdd_uv (pre ++ mid ++ post)
  = Some (pre ++ zip_with UV_mV_entry vals mid ++ post).
Proof.
  revert i pre mid. induction vals as [|v vals IH]; intros i pre mid Hpre Hmid Hvals.
  { destruct mid; [done | discriminate]. }
  destruct mid as [|l mid]; [discriminate|]. simpl in Hmid.
  assert (Hv : vdd_uv !! i = Some v ∧ take (length vals) (drop (S i) vdd_uv) = vals).
  { simpl in Hvals. destruct (drop i vdd_uv) as [|x rest] eqn:Hd; [done|].
    injection Hvals as -> Hvals.
    assert (Hx : vdd_uv !! i = Some v).
    { rewrite <- (Nat.add_0_r i), <- lookup_drop, Hd. done. }
    split; [done|].
    rewrite <- (Nat.add_1_r i), <- drop_drop, Hd. simpl. by rewrite drop_0. }
  destruct Hv as [Hv Hvals'].
  simpl UV_mV_loop_up. simpl app at 2.
  rewrite (UV_mV_step_middle _ i i v) by done. simpl.
  replace (Z.of_nat i + 1) with (Z.of_nat (S i)) by lia.
  replace (pre ++ UV_mV_entry v l :: mid ++ post)
    with ((pre ++ [UV_mV_entry v l]) ++ mid ++ post)
    by (by rewrite <- app_assoc).
  rewrite IH; [by rewrite <- app_assoc | | lia | done].
  rewrite length_app. simpl. lia.
Qed.

Lemma UV_mV_loop_down_middle vdd_uv n (i : nat) pre mid post :
  length pre = S i → length mid = n → (n ≤ length vdd_uv)%nat →
  UV_mV_loop_down n (Z.of_nat i) (Z.of_nat n - 1) vdd_uv (pre ++ mid ++ post)
  = Some (pre ++ zip_with UV_mV_entry (reverse (take n vdd_uv)) mid ++ post).
Proof.
  revert i pre mid. induction n as [|n IH]; intros i pre mid Hpre Hmid Hn.
  { destruct mid; [done | discriminate]. }
  destruct mid as [|l mid]; [discriminate|]. simpl in Hmid.
  destruct (lookup_lt_is_Some_2 vdd_uv n) as [v Hv]; [lia|].
  rewrite (take_S_r _ _ _ Hv), reverse_snoc.
  simpl UV_mV_loop_down. simpl app at 2.
  replace (Z.of_nat (S n) - 1) with (Z.of_nat n) by lia.
  rewrite (UV_mV_step_middle _ i n v) by done. simpl.
  replace (Z.of_nat i + 1) with (Z.of_nat (S i)) by lia.
  replace (pre ++ UV_mV_entry v l :: mid ++ post)
    with ((pre ++ [UV_mV_entry v l]) ++ mid ++ post)
    by (by rewrite <- app_assoc).
  rewrite IH; [by rewrite <- app_assoc | | lia | lia].
  rewrite length_app. simpl. lia.
Qed.

(** X10: given [cnt] values for a table with more than [cnt] entries, the
    function fills the entries 1 to [cnt], whatever their frequency, and
    leaves the others: with the values in the order given when the first
    is below the last, and in the reverse order otherwise; an entry whose
    value times 1000 lies outside [MIN_VDD_SC, MAX_VDD_SC] is skipped. *)
Theorem acpuclk_UV_mV_table_fills (cnt : Z) (vdd_uv : list Z)
    (tbl : list acpu_level) (first last : Z) :
  0 < cnt ≤ Z.of_nat (length vdd_uv) → cnt < Z.of_nat (length tbl) →
  vdd_uv !! 0%nat = Some first → vdd_uv !! Z.to_nat (cnt - 1) = Some last →
  acpuclk_UV_mV_table_tbl cnt vdd_uv tbl
  = Some (take 1 tbl
          ++ zip_with UV_mV_entry
               (if first <? last then take (Z.to_nat cnt) vdd_uv
                else reverse (take (Z.to_nat cnt) vdd_uv))
               (take (Z.to_nat cnt) (drop 1 tbl))
          ++ drop (S (Z.to_nat cnt)) tbl).
Proof.
  intros Hcnt Htbl Hfirst Hlast. unfold acpuclk_UV_mV_table_tbl.
  rewrite (int_at_nonneg vdd_uv 0) by lia.
  change (Z.to_nat 0) with 0%nat. rewrite Hfirst. simpl.
  rewrite (int_at_nonneg vdd_uv (cnt - 1)) by lia. rewrite Hlast. simpl.
  set (n := Z.to_nat cnt).
  assert (Hsplit : tbl = take 1 tbl ++ take n (drop 1 tbl) ++ drop (S n) tbl).
  { change (S n) with (1 + n)%nat. by rewrite <- drop_drop, !take_drop. }
  assert (Hlen1 : length (take 1 tbl) = 1%nat) by (rewrite length_take; lia).
  assert (Hlen2 : length (take n (drop 1 tbl)) = n).
  { rewrite length_take, length_drop. lia. }
  destruct (first <? last).
  - rewrite Hsplit at 1.
    replace n with (length (take n vdd_uv)) at 1 by (rewrite length_take; lia).
    change 0 with (Z.of_nat 0).
    apply UV_mV_loop_up_middle; [done | | ].
    + rewrite Hlen2, length_take. lia.
    + rewrite drop_0, length_take.
      replace (n `min` length vdd_uv)%nat with n by lia. done.
  - rewrite Hsplit at 1.
    replace (cnt - 1) with (Z.of_nat n - 1) by lia.
    change 0 with (Z.of_nat 0).
    apply UV_mV_loop_down_middle; [done | done | lia].
Qed.

Lemma UV_mV_step_revolted vdd_uv i j tbl cur cur' :
  0 ≤ i →
  UV_mV_step vdd_uv i j cur = Some cur' →
  Forall2 revolted tbl cur ∧ cur !! 0%nat = tbl !! 0%nat →
  Forall2 revolted tbl cur' ∧ cur' !! 0%nat = tbl !! 0%nat.
Proof.
  intros Hi Hstep [Hrev H0]. unfold UV_mV_step in Hstep.
  destruct (int_at vdd_uv j) as [v|]; [|done]. simpl in Hstep.
  destruct ((s32 (v * 1000) >=? MIN_VDD_SC) && (s32 (v * 1000) <=? MAX_VDD_SC))
    eqn:Hrange; [|by injection Hstep as <-].
  apply andb_true_iff in Hrange as [Hlo Hhi].
  apply Z.geb_le in Hlo. apply Z.leb_le in Hhi.
  destruct (cur !! Z.to_nat (i + 1)) as [l|] eqn:Hl; [|done].
  injection Hstep as <-. split.
  - apply Forall2_same_length_lookup. split.
    { rewrite length_insert. by eapply Forall2_length. }
    intros k x y Hx Hy.
    destruct (decide (k = Z.to_nat (i + 1))) as [->|Hne].
    + rewrite list_lookup_insert_eq in Hy by (by eapply lookup_lt_Some).
      injection Hy as <-.
      destruct (Forall2_lookup_lr _ _ _ _ _ _ Hrev Hx Hl) as [Hsame _].
      split; [exact Hsame|]. right. simpl.
      unfold u32. rewrite Z.mod_small; [lia|].
      unfold MIN_VDD_SC, MAX_VDD_SC in *. lia.
    + rewrite list_lookup_insert_ne in Hy by done.
      by eapply Forall2_lookup_lr.
  - rewrite list_lookup_insert_ne by lia. exact H0.
Qed.

Lemma UV_mV_loop_up_revolted vdd_uv n i tbl cur cur' :
  0 ≤ i →
  UV_mV_loop_up n i vdd_uv cur = Some cur' →
  Forall2 revolted tbl cur ∧ cur !! 0%nat = tbl !! 0%nat →
  Forall2 revolted tbl cur' ∧ cur' !! 0%nat = tbl !! 0%nat.
Proof.
  revert i cur. induction n as [|n IH]; intros i cur Hi; simpl.
  { by intros [= <-]. }
  destruct (UV_mV_step vdd_uv i i cur) as [cur1|] eqn:Hstep; [|done]. simpl.
  intros Hrun Hinv. eapply IH; [|exact Hrun|]; [lia|].
  by eapply UV_mV_step_revolted.
Qed.

Lemma UV_mV_loop_down_revolted vdd_uv n i j tbl cur cur' :
  0 ≤ i →
  UV_mV_loop_down n i j vdd_uv cur = Some cur' →
  Forall2 revolted tbl cur ∧ cur !! 0%nat = tbl !! 0%nat →
  Forall2 revolted tbl cur' ∧ cur' !! 0%nat = tbl !! 0%nat.
Proof.
  revert i j cur. induction n as [|n IH]; intros i j cur Hi; simpl.
  { by intros [= <-]. }
  destruct (UV_mV_step vdd_uv i j cur) as [cur1|] eqn:Hstep; [|done]. simpl.
  intros Hrun Hinv. eapply IH; [|exact Hrun|]; [lia|].
  by eapply UV_mV_step_revolted.
Qed.

Lemma revolted_refl tbl : Forall2 revolted tbl tbl.
Proof.
  apply Forall2_same_length_lookup. split; [done|].
  intros i x y Hx Hy. rewrite Hx in Hy. injection Hy as <-.
  split; [done | by left].
Qed.

(** X11: whatever the values and their number, a call that returns has stored
    core voltages within [MIN_VDD_SC] and [MAX_VDD_SC] only, and has
    changed neither a frequency, a scaling flag or an L2 level, nor the
    entry 0 of the table, nor anything of the driver but the table. *)
Theorem acpuclk_UV_mV_table_range (cnt : Z) (vdd_uv : list Z)
    (st st' : state) :
  acpuclk_UV_mV_table cnt vdd_uv st = Ok (tt, st') →
  Forall2 revolted (st_acpu_freq_tbl st) (st_acpu_freq_tbl st') ∧
  st_acpu_freq_tbl st' !! 0%nat = st_acpu_freq_tbl st !! 0%nat ∧
  st' = set_acpu_freq_tbl (st_acpu_freq_tbl st') st.
Proof.
  unfold acpuclk_UV_mV_table. intros H. run_inv.
  match goal with H : acpuclk_UV_mV_table_tbl _ _ _ = Some ?t |- _ =>
    rename H into Hrun; rename t into tbl' end.
  simpl. split; [|split; [|done]].
  all: unfold acpuclk_UV_mV_table_tbl in Hrun.
  all: destruct (int_at vdd_uv 0) as [first|]; [|done]; simpl in Hrun.
  all: destruct (int_at vdd_uv (cnt - 1)) as [last|]; [|done]; simpl in Hrun.
  all: destruct (first <? last).
  all: first [ eapply UV_mV_loop_up_revolted in Hrun as [H1 H2]
             | eapply UV_mV_loop_down_revolted in Hrun as [H1 H2] ].
  all: first [ exact H1 | exact H2 | lia
             | split; [apply revolted_refl | done] ].
Qed.
(** ** The mux accessors *)

(** [set_pri_clk_src] leaves every bit above the primary field alone. *)
Lemma mux_pri_keeps_high r x :
  Z.shiftr (Z.lor (Z.land r (Z.lnot 3)) (Z.land x 3)) 2 = Z.shiftr r 2.
Proof.
  apply Z.bits_inj'. intros n Hn.
  rewrite !Z.shiftr_spec, Z.lor_spec, !Z.land_spec, Z.lnot_spec by lia.
  rewrite (testbit_3 (n + 2)) by lia.
  replace (n + 2 <? 2) with false by (symmetry; apply Z.ltb_ge; lia).
  simpl. by rewrite andb_true_r, andb_false_r, orb_false_r.
Qed.

Lemma testbit_12 n : 0 ≤ n → Z.testbit 12 n = (2 <=? n) && (n <? 4).
Proof.
  intros Hn. change 12 with (Z.shiftl 3 2).
  destruct (Z.leb_spec 2 n); simpl.
  - rewrite Z.shiftl_spec, testbit_3 by lia.
    destruct (Z.ltb_spec (n - 2) 2), (Z.ltb_spec n 4); done || lia.
  - rewrite Z.shiftl_spec_low by lia. done.
Qed.

Lemma testbit_16 n : 0 ≤ n → Z.testbit 16 n = (n =? 4).
Proof.
  intros Hn. change 16 with (2 ^ 4).
  destruct (Z.eqb_spec n 4) as [->|Hne]; [done|].
  by apply Z.pow2_bits_false.
Qed.

(** The bits of the last word [set_sec_clk_src] writes. *)
Lemma mux_sec_word_bits r x n :
  0 ≤ n →
  Z.testbit
    (Z.land
       (Z.lor (Z.land (Z.lor r SECCLKAGD) (Z.lnot (Z.shiftl 3 2)))
              (Z.shiftl (Z.land x 3) 2))
       (Z.lnot SECCLKAGD)) n
  = if n =? 4 then false
    else if (2 <=? n) && (n <? 4) then Z.testbit x (n - 2)
         else Z.testbit r n.
Proof.
  intros Hn. change SECCLKAGD with 16. change (Z.shiftl 3 2) with 12.
  rewrite !Z.land_spec, Z.lor_spec, !Z.land_spec, Z.lor_spec, !Z.lnot_spec
    by lia.
  rewrite testbit_12, testbit_16 by lia.
  destruct (Z.eqb_spec n 4) as [->|Hne]; [by rewrite andb_false_r|].
  rewrite andb_true_r.
  destruct (Z.leb_spec 2 n), (Z.ltb_spec n 4); simpl.
  - rewrite Z.shiftl_spec, Z.land_spec, testbit_3 by lia.
    replace (n - 2 <? 2) with true by (symmetry; apply Z.ltb_lt; lia).
    by rewrite andb_false_r, andb_true_r.
  - rewrite Z.shiftl_spec, Z.land_spec, testbit_3 by lia.
    replace (n - 2 <? 2) with false by (symmetry; apply Z.ltb_ge; lia).
    by rewrite andb_false_r, orb_false_r, andb_true_r, orb_false_r.
  - rewrite Z.shiftl_spec_low by lia.
    by rewrite orb_false_r, andb_true_r, orb_false_r.
  - lia.
Qed.

(** X12: writing the primary mux: the mux then reads the two low bits of what
    was written, the secondary mux and every other bit of the register read
    as before, and nothing but that register changes. *)
Theorem set_pri_clk_src_selects (sc x : Z) (st : state) (s : scalable) :
  sc_lookup (st_scalable st) sc = Some s →
  ∃ st',
    set_pri_clk_src sc x st = Ok (tt, st') ∧
    get_pri_clk_src sc st' = Ok (Z.land x 3, st') ∧
    (∀ sec, get_sec_clk_src sc st = Ok (sec, st) →
            get_sec_clk_src sc st' = Ok (sec, st')) ∧
    Z.shiftr (st_l2_indirect st' (l2cpmr_iaddr s)) 2
    = Z.shiftr (st_l2_indirect st (l2cpmr_iaddr s)) 2 ∧
    (∀ a, a ≠ l2cpmr_iaddr s → st_l2_indirect st' a = st_l2_indirect st a) ∧
    st' = set_l2_indirect (st_l2_indirect st') st.
Proof.
  intros Hs. eexists. split.
  { unfold set_pri_clk_src.
    erewrite bind_run; [|apply load_sc_run; exact Hs]. reflexivity. }
  split; [|split; [|split; [|split]]].
  - rewrite (get_pri_clk_src_run _ _ s) by exact Hs. simpl.
    by rewrite upd_same, mux_pri_bits.
  - intros sec. rewrite (get_sec_clk_src_run _ _ s Hs).
    rewrite (get_sec_clk_src_run _ _ s) by exact Hs. simpl.
    rewrite upd_same, mux_pri_keeps_sec. by intros [= <-].
  - simpl. by rewrite upd_same, mux_pri_keeps_high.
  - intros a Ha. simpl. by rewrite upd_other.
  - reflexivity.
Qed.

(** X13: writing the secondary mux: the mux then reads the two low bits of what
    was written, the gating bit SECCLKAGD is clear, the primary mux and
    every other bit of the register read as before, and nothing but that
    register changes. *)
Theorem set_sec_clk_src_selects (sc x : Z) (st : state) (s : scalable) :
  sc_lookup (st_scalable st) sc = Some s →
  ∃ st',
    set_sec_clk_src sc x st = Ok (tt, st') ∧
    get_sec_clk_src sc st' = Ok (Z.land x 3, st') ∧
    (∀ pri, get_pri_clk_src sc st = Ok (pri, st) →
            get_pri_clk_src sc st' = Ok (pri, st')) ∧
    Z.land (st_l2_indirect st' (l2cpmr_iaddr s)) SECCLKAGD = 0 ∧
    Z.shiftr (st_l2_indirect st' (l2cpmr_iaddr s)) 5
    = Z.shiftr (st_l2_indirect st (l2cpmr_iaddr s)) 5 ∧
    (∀ a, a ≠ l2cpmr_iaddr s → st_l2_indirect st' a = st_l2_indirect st a) ∧
    st' = set_l2_indirect (st_l2_indirect st') st.
Proof.
  intros Hs. eexists. split.
  { unfold set_sec_clk_src.
    erewrite bind_run; [|apply load_sc_run; exact Hs]. reflexivity. }
  split; [|split; [|split; [|split; [|split]]]].
  - rewrite (get_sec_clk_src_run _ _ s) by exact Hs. simpl.
    by rewrite !upd_same, mux_sec_bits.
  - intros pri. rewrite (get_pri_clk_src_run _ _ s Hs).
    rewrite (get_pri_clk_src_run _ _ s) by exact Hs. simpl.
    rewrite !upd_same. intros [= <-]. do 2 f_equal.
    apply land_3_bits. intros n Hn. rewrite mux_sec_word_bits by lia.
    replace (n =? 4) with false by (symmetry; apply Z.eqb_neq; lia).
    by replace (2 <=? n) with false by (symmetry; apply Z.leb_gt; lia).
  - simpl. rewrite !upd_same. apply Z.bits_inj'. intros n Hn.
    rewrite Z.land_spec, mux_sec_word_bits, Z.bits_0 by lia.
    change SECCLKAGD with 16. rewrite testbit_16 by lia.
    destruct (n =? 4); [done | by rewrite andb_false_r].
  - simpl. rewrite !upd_same. apply Z.bits_inj'. intros n Hn.
    rewrite !Z.shiftr_spec, mux_sec_word_bits by lia.
    replace (n + 5 =? 4) with false by (symmetry; apply Z.eqb_neq; lia).
    by replace (n + 5 <? 4) with false
      by (symmetry; apply Z.ltb_ge; lia); rewrite andb_false_r.
  - intros a Ha. simpl. by rewrite !upd_other.
  - reflexivity.
Qed.
(** ** What a run leaves alone *)

(** A call carries a property over when appending the call to the trace
    does. *)
Lemma stable_do_call_app be c (P : state → Prop) :
  (∀ st rc, P st → P (set_trace (st_trace st ++ [(c, rc)]) st)) →
  stable P (do_call be c).
Proof.
  intros HP st rc st' H Hst. apply do_call_inv in H as [_ ->]. by apply HP.
Qed.

Ltac frame_step :=
  lazymatch goal with
  | |- stable _ (do_call _ _) => apply stable_do_call_app; intros ? ? ?
  | |- stable _ (modify_sc _ _) => apply stable_modify_sc; intros ? ? ? ?
  | |- stable _ (max_l2_vote _ _) => fail
  | _ => stable_step
  end.

Ltac unfold_engine :=
  unfold acpuclk_8960_set_rate, set_speed, increase_vdd, decrease_vdd,
    compute_l2_level, set_bus_bw, hfpll_enable, hfpll_disable, hfpll_set_rate,
    set_sec_clk_src, set_pri_clk_src, get_sec_clk_src, get_pri_clk_src,
    set_acpuclk_foot_print, set_acpuclk_cpu_freq_foot_print,
    set_acpuclk_L2_freq_foot_print, writel_relaxed, get_l2_indirect_reg,
    set_l2_indirect_reg.

Lemma stable_max_l2_vote_any (P : state → Prop) cpus new_l :
  stable P (max_l2_vote cpus new_l).
Proof.
  revert new_l. induction cpus as [|cpu rest IH]; intros new_l; simpl.
  - apply stable_ret.
  - apply stable_bind; [apply stable_load_sc | intros s; apply IH].
Qed.

(** *** The calls of a run *)

Lemma calls_only_refl C st : calls_only C st st.
Proof. exists []. by rewrite app_nil_r. Qed.

Lemma calls_only_call C st0 st c rc :
  C c → calls_only C st0 st →
  calls_only C st0 (set_trace (st_trace st ++ [(c, rc)]) st).
Proof.
  intros Hc (seg & Ht & Hseg). exists (seg ++ [(c, rc)]). simpl.
  rewrite Ht, app_assoc. split; [done|].
  apply Forall_app. split; [done|]. by repeat constructor.
Qed.

(** Leaves of a run that does not touch the trace but by calls. *)
Ltac calls_leaf :=
  first [ assumption
        | apply calls_only_call; [simpl; by auto | assumption] ].

(** *** Fields of the [scalable] entries *)

Lemma sc_same_refl {V} (proj : scalable → V) st : sc_same proj st st.
Proof. by intros i. Qed.

Lemma sc_same_insert {V} (proj : scalable → V) st0 st j s g :
  sc_lookup (st_scalable st) j = Some s →
  proj (g s) = proj s →
  sc_same proj st0 st →
  sc_same proj st0 (set_scalable (<[Z.to_nat j := g s]> (st_scalable st)) st).
Proof.
  intros Hs Hg Hsame i. simpl. rewrite (sc_lookup_insert _ _ _ _ _ Hs).
  destruct (decide (i = j)) as [->|_]; [|apply Hsame].
  rewrite <- Hsame, Hs. simpl. by rewrite Hg.
Qed.

Ltac sc_same_leaf :=
  first [ assumption
        | eapply sc_same_insert; [eassumption | reflexivity | assumption] ].
(** ** Transitions by reason *)

Ltac hotplug_step :=
  lazymatch goal with
  | |- stable _ (if _ && false then _ else _) => rewrite andb_false_r
  | _ => frame_step
  end.

Lemma calls_only_impl (C C' : call → Prop) st0 st :
  (∀ c, C c → C' c) → calls_only C st0 st → calls_only C' st0 st.
Proof.
  intros Himpl (seg & Ht & Hseg). exists seg. split; [done|].
  eapply Forall_impl; [exact Hseg|]. intros [c e]. apply Himpl.
Qed.

(** Where the supplies are apart, a vote for an HFPLL is no request for a
    rail. *)
Lemma hfpll_vote_no_rail_request st cpus cpu c :
  hfpll_supplies_apart st cpus cpu = true →
  hfpll_votes_of st cpu c → ¬ rail_request st cpus c.
Proof.
  intros Hapart (i & s & Hi & Hs & Hc) Hreq.
  assert (Hin : s ∈ entries_at st [cpu; L2]).
  { apply list_elem_of_omap. exists i. split; [|done].
    destruct Hi as [-> | ->]; [by left | by right; left]. }
  assert (Hne : ∀ t a r, t ∈ entries_at st cpus →
            a = VREG_HFPLL_A ∨ a = VREG_HFPLL_B →
            r = VREG_MEM ∨ r = VREG_DIG →
            rpm_vreg_id (sc_vreg s a) ≠ rpm_vreg_id (sc_vreg t r)).
  { intros t a r Ht Ha Hr. unfold hfpll_supplies_apart in Hapart.
    rewrite forallb_forall in Hapart.
    specialize (Hapart s (proj1 (list_elem_of_In _ _) Hin)).
    rewrite forallb_forall in Hapart.
    specialize (Hapart t (proj1 (list_elem_of_In _ _) Ht)).
    simpl in Hapart. rewrite !andb_true_r in Hapart.
    repeat match goal with
           | H : (_ && _) = true |- _ => apply andb_true_iff in H as [? ?]
           | H : negb _ = true |- _ => apply negb_true_iff, Z.eqb_neq in H
           end.
    destruct Ha as [-> | ->], Hr as [-> | ->]; done. }
  destruct Hc as [-> | [-> | [-> | ->]]]; simpl in Hreq;
    destruct Hreq as (t & r & Ht & Hr & Hid);
    symmetry in Hid; revert Hid;
    apply Hne; eauto.
Qed.

Section Reasons.

Context (plat : platform) (be : backend).

#[local] Arguments hfpll_enable : simpl never.
#[local] Arguments hfpll_disable : simpl never.

(** The calls of [hfpll_enable] and [hfpll_disable] for [cpu] or the L2,
    while the regulators of the entries are as in [st], are votes for the
    supplies of that HFPLL. *)
Lemma hfpll_switch_votes st cpu sc (m : M unit) :
  m = hfpll_enable plat be sc ∨ m = hfpll_disable plat be sc →
  sc = cpu ∨ sc = L2 →
  stable (λ x, calls_only (hfpll_votes_of st cpu) st x ∧
               sc_same sc_vreg st x) m.
Proof.
  intros Hm Hsc x a x' Hrun [Hc Hv]. split.
  - assert (Hvote : ∀ s', sc_lookup (st_scalable x) sc = Some s' →
              ∀ c, hfpll_vote s' c → hfpll_votes_of st cpu c).
    { intros s' Hl c Hvt. pose proof (Hv sc) as Hsame. rewrite Hl in Hsame.
      destruct (sc_lookup (st_scalable st) sc) as [s|] eqn:Hs; [|done].
      simpl in Hsame. injection Hsame as Hsame.
      exists sc, s. split; [done|]. split; [done|].
      unfold hfpll_vote, hfpll_supply_call in *. by rewrite <- Hsame. }
    destruct Hm as [-> | ->];
      [unfold hfpll_enable in Hrun | unfold hfpll_disable in Hrun].
    all: apply bind_inv in Hrun as (s' & x1 & Hl & Hrun).
    all: apply load_sc_inv in Hl as [Hl ->].
    all: specialize (Hvote s' Hl).
    all: refine ((_ : stable (calls_only (hfpll_votes_of st cpu) st) _)
                   _ _ _ Hrun Hc).
    all: unfold_engine; simpl.
    all: repeat frame_step.
    all: first [ assumption
               | apply calls_only_call; [|assumption];
                 apply Hvote; unfold hfpll_vote, hfpll_supply_call; auto ].
  - refine ((_ : stable (sc_same sc_vreg st) _) _ _ _ Hrun Hv).
    destruct Hm as [-> | ->]; unfold_engine; simpl.
    all: repeat frame_step.
    all: sc_same_leaf.
Qed.

Ltac vote_step :=
  lazymatch goal with
  | |- stable _ (hfpll_enable _ _ _) =>
      apply (hfpll_switch_votes _ _ _ _ (or_introl eq_refl)); auto
  | |- stable _ (hfpll_disable _ _ _) =>
      apply (hfpll_switch_votes _ _ _ _ (or_intror eq_refl)); auto
  | _ => frame_step
  end.

(** X14: a transition for the wait-for-interrupt or the power-collapse reason
    calls no service but the RPM, and the RPM only with the votes of
    [hfpll_enable] and [hfpll_disable] for the supplies of the HFPLL of the
    CPU or of the L2, under the ids and voters of those entries; it leaves
    the cached voltages, the regulator handles and the [first_set_call] flag
    of every entry as they were.  Where no HFPLL supply of the CPU or of
    the L2 shares its RPM id with the memory or dig rail of a present CPU,
    none of its calls is a request for the core, memory or dig rail or for
    bus bandwidth. *)
Theorem idle_transition_spares_rails (cpu rate : Z) (reason : setrate_reason)
    (st : state) (rc : Z) (st' : state) :
  reason = SETRATE_SWFI ∨ reason = SETRATE_PC →
  acpuclk_8960_set_rate plat be cpu rate reason st = Ok (rc, st') →
  calls_only (hfpll_votes_of st cpu) st st' ∧
  sc_same sc_vreg st st' ∧
  sc_same first_set_call st st' ∧
  (hfpll_supplies_apart st (cpu_present_mask plat) cpu = true →
   calls_only (λ c, ¬ rail_request st (cpu_present_mask plat) c) st st').
Proof.
  intros Hreason Hrun.
  assert (Hvotes : calls_only (hfpll_votes_of st cpu) st st' ∧
                   sc_same sc_vreg st st').
  { refine ((_ : stable (λ x, calls_only (hfpll_votes_of st cpu) st x ∧
                              sc_same sc_vreg st x) _) _ _ _ Hrun
              (conj (calls_only_refl _ _) (sc_same_refl _ _))).
    destruct Hreason as [-> | ->].
    all: unfold acpuclk_8960_set_rate, set_speed, increase_vdd, decrease_vdd,
           compute_l2_level, set_bus_bw, hfpll_set_rate,
           set_sec_clk_src, set_pri_clk_src, get_sec_clk_src, get_pri_clk_src,
           set_acpuclk_foot_print, set_acpuclk_cpu_freq_foot_print,
           set_acpuclk_L2_freq_foot_print, writel_relaxed,
           get_l2_indirect_reg, set_l2_indirect_reg; simpl.
    all: repeat vote_step.
    all: try apply stable_max_l2_vote_any.
    all: cbv beta in *.
    all: match goal with
         | HP : _ ∧ _ |- _ ∧ _ =>
             destruct HP as [? ?]; split; [assumption | sc_same_leaf]
         end. }
  destruct Hvotes as [Hcalls Hvreg].
  split; [done|]. split; [done|]. split.
  - refine ((_ : stable (sc_same first_set_call st) _) _ _ _ Hrun
              (sc_same_refl _ _)).
    destruct Hreason as [-> | ->]; unfold_engine; simpl.
    all: repeat frame_step.
    all: try apply stable_max_l2_vote_any.
    all: sc_same_leaf.
  - intros Hapart. eapply calls_only_impl; [|exact Hcalls].
    intros c. by apply hfpll_vote_no_rail_request.
Qed.

(** X15: a transition for the hotplug reason makes no request to the regulator
    of a core rail and leaves the cached core voltage of every entry as it
    was. *)
Theorem hotplug_transition_spares_core (cpu rate : Z) (st : state) (rc : Z)
    (st' : state) :
  acpuclk_8960_set_rate plat be cpu rate SETRATE_HOTPLUG st = Ok (rc, st') →
  calls_only (λ c, ¬ core_regulator_call c) st st' ∧
  sc_same (λ s, cur_vdd (sc_vreg s VREG_CORE)) st st'.
Proof.
  intros Hrun. split.
  - refine ((_ : stable (calls_only (λ c, ¬ core_regulator_call c) st) _)
              _ _ _ Hrun (calls_only_refl _ _)).
    unfold_engine. change (not_hotplug SETRATE_HOTPLUG) with false.
    all: repeat hotplug_step.
    all: try apply stable_max_l2_vote_any.
    all: calls_leaf.
  - refine ((_ : stable (sc_same (λ s, cur_vdd (sc_vreg s VREG_CORE)) st) _)
              _ _ _ Hrun (sc_same_refl _ _)).
    unfold_engine. change (not_hotplug SETRATE_HOTPLUG) with false.
    all: repeat hotplug_step.
    all: try apply stable_max_l2_vote_any.
    all: sc_same_leaf.
Qed.

End Reasons.
(** ** Transitions that fail *)

Lemma regs_same_refl st : regs_same st st.
Proof. by split. Qed.

(** Carrying a property along the runs in the context, with [tac] to show
    that each run keeps it. *)
Ltac carry_by tac :=
  repeat match goal with
  | Hrun : ?m ?st = Ok (?a, ?st'), HP : ?P ?st |- _ =>
      lazymatch goal with
      | _ : P st' |- _ => fail
      | _ => idtac
      end;
      assert (P st') by (refine ((_ : stable P m) st a st' Hrun HP); tac)
  end.

Ltac rails_frame :=
  unfold_engine; repeat frame_step;
  first [ assumption
        | eapply sc_same_insert; [eassumption | reflexivity | assumption] ].

Section Failed.

Context (plat : platform) (be : backend).

(** X16: a transition that does not report success has not touched the clocks:
    the mux and HFPLL registers, the current speed, the L2 vote and the
    [first_set_call] flag of every entry and the tables are as they were,
    whether the CPU index or the frequency was refused or a rail could not
    be raised. *)
Theorem failed_transition_keeps_clocks (cpu rate : Z)
    (reason : setrate_reason) (st : state) (rc : Z) (st' : state) :
  acpuclk_8960_set_rate plat be cpu rate reason st = Ok (rc, st') →
  rc ≠ 0 →
  regs_same st st' ∧
  sc_same current_speed st st' ∧
  sc_same l2_vote st st' ∧
  sc_same first_set_call st st' ∧
  tables_are (st_acpu_freq_tbl st) (st_l2_freq_tbl st) st'.
Proof.
  intros H Hrc.
  pose proof (regs_same_refl st) as Hregs.
  pose proof (sc_same_refl current_speed st) as Hspeed.
  pose proof (sc_same_refl l2_vote st) as Hvote.
  pose proof (sc_same_refl first_set_call st) as Hfirst.
  pose proof (tables_are_intro st) as Htbl.
  unfold acpuclk_8960_set_rate in H. run_inv; try done.
  all: try match goal with
           | H : negb (?x =? 0) = false |- _ =>
               apply negb_false_iff, Z.eqb_eq in H; congruence
           end.
  all: carry_by rails_frame.
  all: done.
Qed.

End Failed.
(** ** Voltages after a transition *)

Ltac fp_inv H :=
  unfold set_acpuclk_foot_print in H; apply modify_inv in H; subst.

Section Cover.

Context (plat : platform) (be : backend).

Lemma reports_zero_accepted segs : reports segs 0 → accepted segs.
Proof.
  intros [_ H]. apply Forall_forall. intros [c e] Hin. simpl.
  destruct (decide (e = 0)) as [->|Hne]; [done|].
  symmetry. by eapply H.
Qed.

(** A step of a voltage increase whose calls were all accepted leaves the
    cached value at the requested one or above. *)
Lemma raise_step_covers (wanted : Prop) c cur new earlier seg cur' :
  spec_step_outcome wanted c cur new earlier seg cur' →
  (¬ wanted → new ≤ cur) →
  accepted earlier → accepted seg →
  new ≤ cur'.
Proof.
  intros [Hstep Hiff] Hw Hearlier Hseg.
  destruct Hstep as [| |e He].
  - apply Hw. intros Hwanted.
    by destruct (proj2 Hiff (conj Hwanted Hearlier)).
  - lia.
  - exfalso. apply Forall_cons in Hseg as [Hseg _]. simpl in Hseg. done.
Qed.

(** A step of a voltage decrease leaves the cached value at the requested
    one or above when it was there before. *)
Lemma lower_step_covers (wanted : Prop) c cur new earlier seg cur' :
  spec_step_outcome wanted c cur new earlier seg cur' →
  new ≤ cur → new ≤ cur'.
Proof. intros [[| |e He] _] Hle; lia. Qed.

Lemma increase_vdd_covers cpu vc vm vd reason st s st' :
  sc_lookup (st_scalable st) cpu = Some s →
  increase_vdd be cpu vc vm vd reason st = Ok (0, st') →
  ∃ s', sc_lookup (st_scalable st') cpu = Some s' ∧
        vm ≤ cached s' VREG_MEM ∧ vd ≤ cached s' VREG_DIG ∧
        (reason ≠ SETRATE_HOTPLUG → vc ≤ cached s' VREG_CORE).
Proof.
  intros Hs Hrun.
  destruct (increase_vdd_outcome be cpu vc vm vd reason st s Hs)
    as (rc & st'' & Hrun' & s' & mem & dig & core & Hs' & _ & Hm & Hd & Hc
        & Hrep).
  rewrite Hrun in Hrun'. injection Hrun' as <- <-.
  apply reports_zero_accepted in Hrep.
  apply Forall_app in Hrep as [Hmem Hrep].
  apply Forall_app in Hrep as [Hdig Hcore].
  exists s'. split; [done|]. split; [|split].
  - eapply raise_step_covers; [exact Hm | lia | constructor | done].
  - eapply raise_step_covers; [exact Hd | lia | done | done].
  - intros Hne. eapply raise_step_covers; [exact Hc | | | done].
    + intros Hnot. destruct (decide (cached s VREG_CORE < vc)); [|lia].
      by destruct Hnot.
    + by apply Forall_app.
Qed.

Lemma decrease_vdd_covers cpu vc vm vd reason st s st' :
  sc_lookup (st_scalable st) cpu = Some s →
  decrease_vdd be cpu vc vm vd reason st = Ok (tt, st') →
  ∃ s', sc_lookup (st_scalable st') cpu = Some s' ∧
        (vm ≤ cached s VREG_MEM → vm ≤ cached s' VREG_MEM) ∧
        (vd ≤ cached s VREG_DIG → vd ≤ cached s' VREG_DIG) ∧
        (vc ≤ cached s VREG_CORE → vc ≤ cached s' VREG_CORE).
Proof.
  intros Hs Hrun.
  destruct (decrease_vdd_outcome be cpu vc vm vd reason st s Hs)
    as ([] & st'' & Hrun' & s' & core & dig & mem & Hs' & _ & Hc & Hd & Hm).
  rewrite Hrun in Hrun'. injection Hrun' as <-.
  exists s'. split; [done|].
  split; [|split]; intros Hle; eapply lower_step_covers; eauto.
Qed.

Lemma sc_field_lookup {V} (proj : scalable → V) i x st :
  sc_field proj i x st →
  ∃ s, sc_lookup (st_scalable st) i = Some s ∧ proj s = x.
Proof.
  unfold sc_field. destruct (sc_lookup (st_scalable st) i) as [s|]; [|done].
  intros [= <-]. by exists s.
Qed.

(** X17: when a transition for the cpufreq or the hotplug reason reports
    success and was not the request for the current frequency that returns
    at once, the cached voltages of the memory and dig rails of the CPU are
    at or above what the new operating point requires, and so is that of
    the core rail for the cpufreq reason: a rail that could not be lowered
    stays above, and none ends below. *)
Theorem transition_voltages_cover (cpu rate : Z) (reason : setrate_reason)
    (st st' : state) (s : scalable) :
  takes_driver_lock reason = true →
  acpuclk_8960_set_rate plat be cpu rate reason st = Ok (0, st') →
  sc_lookup (st_scalable st) cpu = Some s →
  first_set_call s = true ∨
  (∀ cs, speed_at st (current_speed s) = Some cs → khz cs ≠ rate) →
  ∃ i tgt vdd_mem_ vdd_dig_ s',
    find_tgt (st_acpu_freq_tbl st) rate 0 = Some (i, tgt) ∧
    calculate_vdd_mem (st_l2_freq_tbl st) tgt = Some vdd_mem_ ∧
    calculate_vdd_dig (st_l2_freq_tbl st) tgt = Some vdd_dig_ ∧
    sc_lookup (st_scalable st') cpu = Some s' ∧
    vdd_mem_ ≤ cached s' VREG_MEM ∧
    vdd_dig_ ≤ cached s' VREG_DIG ∧
    (reason = SETRATE_CPUFREQ → calculate_vdd_core tgt ≤ cached s' VREG_CORE).
Proof.
  intros Hlock H Hs Hnew.
  unfold acpuclk_8960_set_rate in H. run_inv; try discriminate.
  all: repeat match goal with
       | H : set_acpuclk_foot_print _ 1 _ = Ok _ |- _ => fp_inv H
       | H : set_acpuclk_foot_print _ 2 _ = Ok _ |- _ => fp_inv H
       end.
  all: simpl in *.
  all: match goal with
       | H : sc_lookup _ _ = Some ?x, Hs : sc_lookup _ _ = Some ?y |- _ =>
           is_var x; assert (x = y) by congruence; subst x; clear H
       end.
  - (* the request for the current frequency *)
    exfalso. prep_branch. destruct Hnew as [Hnew | Hnew]; [congruence|].
    by eapply Hnew.
  - (* an idle reason *)
    exfalso. destruct reason; simpl in *; discriminate.
  - (* the full transition *)
    match goal with
    | Hinc : increase_vdd _ _ _ _ _ _ _ = Ok _ |- _ =>
        eapply increase_vdd_covers in Hinc
          as (s7 & Hs7 & Hmem7 & Hdig7 & Hcore7); [|exact Hs]
    end.
    pose proof (sc_field_intro (λ s, cached s VREG_MEM) _ _ _ Hs7) as Fm.
    pose proof (sc_field_intro (λ s, cached s VREG_DIG) _ _ _ Hs7) as Fd.
    pose proof (sc_field_intro (λ s, cached s VREG_CORE) _ _ _ Hs7) as Fc.
    simpl in Fm, Fd, Fc.
    carry.
    match goal with
    | Hdec : decrease_vdd _ _ _ _ _ _ ?st15 = Ok _,
      Fm' : sc_field _ cpu (cached s7 VREG_MEM) ?st15,
      Fd' : sc_field _ cpu (cached s7 VREG_DIG) ?st15,
      Fc' : sc_field _ cpu (cached s7 VREG_CORE) ?st15 |- _ =>
        destruct (sc_field_lookup _ _ _ _ Fm') as (s15 & Hs15 & Em);
        destruct (sc_field_lookup _ _ _ _ Fd') as (? & Hs15' & Ed);
        destruct (sc_field_lookup _ _ _ _ Fc') as (? & Hs15'' & Ec);
        rewrite Hs15 in Hs15', Hs15''; injection Hs15' as <-;
        injection Hs15'' as <-;
        match type of Hdec with _ = Ok (?u, _) => destruct u end;
        eapply decrease_vdd_covers in Hdec
          as (s16 & Hs16 & Hmem16 & Hdig16 & Hcore16); [|exact Hs15]
    end.
    simpl in Em, Ed, Ec.
    pose proof (sc_field_intro (λ s, cached s VREG_MEM) _ _ _ Hs16) as Gm.
    pose proof (sc_field_intro (λ s, cached s VREG_DIG) _ _ _ Hs16) as Gd.
    pose proof (sc_field_intro (λ s, cached s VREG_CORE) _ _ _ Hs16) as Gc.
    simpl in Gm, Gd, Gc.
    carry.
    match goal with
    | Gm' : sc_field _ cpu (cached s16 VREG_MEM) ?stf,
      Gd' : sc_field _ cpu (cached s16 VREG_DIG) ?stf,
      Gc' : sc_field _ cpu (cached s16 VREG_CORE) ?stf
      |- context [st_scalable ?stf] =>
        destruct (sc_field_lookup _ _ _ _ Gm') as (s' & Hs' & Fm');
        destruct (sc_field_lookup _ _ _ _ Gd') as (? & Hs'' & Fd');
        destruct (sc_field_lookup _ _ _ _ Gc') as (? & Hs''' & Fc');
        rewrite Hs' in Hs'', Hs'''; injection Hs'' as <-;
        injection Hs''' as <-
    end.
    simpl in Fm', Fd', Fc'.
    eexists _, _, _, _, s'.
    split; [eassumption|]. split; [eassumption|]. split; [eassumption|].
    split; [exact Hs'|].
    unfold cached in *.
    split; [|split].
    + rewrite Fm'. apply Hmem16. rewrite Em. exact Hmem7.
    + rewrite Fd'. apply Hdig16. rewrite Ed. exact Hdig7.
    + intros ->. rewrite Fc'. apply Hcore16. rewrite Ec. by apply Hcore7.
Qed.

End Cover.
(** ** Runs without a fault *)

Lemma runs_bind {A B} (m : M A) (f : A → M B) st :
  runs m st → (∀ a st1, m st = Ok (a, st1) → runs (f a) st1) →
  runs (m ≫= f) st.
Proof.
  intros (a & st1 & Hm) Hf. destruct (Hf a st1 Hm) as (b & st2 & Hb).
  exists b, st2. by rewrite (bind_run _ _ _ _ _ Hm).
Qed.

Lemma runs_ret {A} (a : A) st : runs (@mret M _ A a) st.
Proof. by exists a, st. Qed.

Lemma runs_gets {A} (f : state → A) st : runs (gets f) st.
Proof. by eexists _, _. Qed.

Lemma runs_modify f st : runs (modify f) st.
Proof. by eexists _, _. Qed.

Lemma runs_do_call be c st : runs (do_call be c) st.
Proof. by eexists _, _. Qed.

Lemma runs_deref {A} (o : option A) st : is_Some o → runs (deref o) st.
Proof. intros [a ->]. by exists a, st. Qed.

Lemma runs_load_sc sc st :
  is_Some (sc_lookup (st_scalable st) sc) → runs (load_sc sc) st.
Proof. intros [s Hs]. exists s, st. by apply load_sc_run. Qed.

Lemma runs_deref_speed p st :
  is_Some (speed_at st p) → runs (deref_speed p) st.
Proof. intros [cs Hcs]. exists cs, st. by apply deref_speed_run. Qed.

Lemma runs_modify_sc sc g st :
  is_Some (sc_lookup (st_scalable st) sc) → runs (modify_sc sc g) st.
Proof. intros [s Hs]. eexists _, _. by apply modify_sc_run. Qed.

Lemma runs_wp {A} (m : M A) st Q : wp m st Q → runs m st.
Proof. intros (a & st' & H & _). by exists a, st'. Qed.

Lemma scalable_is_hw_closed l : hw_closed (scalable_is l).
Proof. by split. Qed.

#[global] Hint Resolve scalable_is_hw_closed : stable.

(** Inverting the runs of the context, the calls to services too. *)
Ltac run_inv_calls :=
  repeat first
    [ run_inv_step
    | match goal with
      | H : do_call _ _ _ = Ok _ |- _ => apply do_call_inv in H as [? ?]; subst
      | H : modify_sc _ _ _ = Ok _ |- _ =>
          apply modify_sc_inv in H as (? & ? & ?); subst
      end ].

Ltac runs_step :=
  lazymatch goal with
  | |- runs (mbind _ _) _ => apply runs_bind; [| intros ? ? ?]
  | |- runs (mret _) _ => apply runs_ret
  | |- runs (gets _) _ => apply runs_gets
  | |- runs (modify _) _ => apply runs_modify
  | |- runs (do_call _ _) _ => apply runs_do_call
  | |- runs (if ?b then _ else _) _ => destruct b eqn:?
  end.

Section RunsClock.

Context (plat : platform) (be : backend).

(** The functions that write registers and call services run whenever the
    entry they work on exists. *)
Lemma runs_hw_on_entry sc st :
  is_Some (sc_lookup (st_scalable st) sc) →
  (∀ x, runs (set_sec_clk_src sc x) st) ∧
  (∀ x, runs (set_pri_clk_src sc x) st) ∧
  runs (hfpll_enable plat be sc) st ∧
  runs (hfpll_disable plat be sc) st.
Proof.
  intros [s Hs].
  split; [|split; [|split]]; intros;
    unfold set_sec_clk_src, set_pri_clk_src, hfpll_enable, hfpll_disable.
  all: destruct (soc_has_hfpll_vregs plat).
  all: (eexists _, _; erewrite bind_run; [|apply load_sc_run; exact Hs]).
  all: reflexivity.
Qed.

Lemma runs_hfpll_set_rate sc tgt_s st :
  is_Some (sc_lookup (st_scalable st) sc) →
  is_Some (speed_at st (Some tgt_s)) →
  runs (hfpll_set_rate sc tgt_s) st.
Proof.
  intros [s Hs] [cs Hcs]. eexists _, _. unfold hfpll_set_rate.
  erewrite bind_run; [|apply load_sc_run; exact Hs].
  erewrite bind_run; [|apply deref_speed_run; exact Hcs].
  reflexivity.
Qed.

Lemma runs_set_speed sc tgt_s reason st s :
  sc_lookup (st_scalable st) sc = Some s →
  is_Some (speed_at st (current_speed s)) →
  is_Some (speed_at st (Some tgt_s)) →
  runs (set_speed plat be sc tgt_s reason) st.
Proof.
  intros Hs Hcur Htgt. unfold set_speed.
  pose proof (eq_refl : scalable_is (st_scalable st) st) as Hsc.
  pose proof (tables_are_intro st) as Htbl.
  assert (Hentry : ∀ st', scalable_is (st_scalable st) st' →
                          is_Some (sc_lookup (st_scalable st') sc)).
  { intros st' ->. by eexists. }
  assert (Hspeed : ∀ st' p,
             tables_are (st_acpu_freq_tbl st) (st_l2_freq_tbl st) st' →
             is_Some (speed_at st p) → is_Some (speed_at st' p)).
  { intros st' p Ht. by rewrite (speed_at_tables st st'). }
  apply runs_bind; [apply runs_load_sc; by eexists|].
  intros s' st1 Hrun. apply load_sc_inv in Hrun as [Hs' ->].
  rewrite Hs in Hs'. injection Hs' as <-.
  destruct (bool_decide (Some tgt_s = current_speed s)); [apply runs_ret|].
  apply runs_bind; [by apply runs_deref_speed|].
  intros strt st1 Hrun. apply deref_speed_inv in Hrun as [_ ->].
  apply runs_bind; [by apply runs_deref_speed|].
  intros tgt st1 Hrun. apply deref_speed_inv in Hrun as [_ ->].
  apply runs_bind.
  - repeat first
      [ runs_step
      | match goal with
        | |- runs (set_sec_clk_src _ _) ?st' =>
            apply (runs_hw_on_entry sc st')
        | |- runs (set_pri_clk_src _ _) ?st' =>
            apply (runs_hw_on_entry sc st')
        | |- runs (hfpll_enable _ _ _) ?st' =>
            apply (runs_hw_on_entry sc st')
        | |- runs (hfpll_disable _ _ _) ?st' =>
            apply (runs_hw_on_entry sc st')
        | |- runs (hfpll_set_rate _ _) _ => apply runs_hfpll_set_rate
        end
      | progress run_inv
      | progress carry
      | by auto ].
  - intros ? st1 Hrun. apply runs_modify_sc. apply Hentry.
    refine ((_ : stable (scalable_is (st_scalable st)) _) _ _ _ Hrun Hsc).
    stable_tac.
Qed.

End RunsClock.
(** ** The clock switch *)

#[local] Arguments upd : simpl never.

Section ClockPost.

Context (plat : platform) (be : backend).

Lemma set_pri_clk_src_post sc x st s a st' :
  sc_lookup (st_scalable st) sc = Some s →
  set_pri_clk_src sc x st = Ok (a, st') →
  sw_same st st' ∧ st_iomem st' = st_iomem st ∧
  wrote st_l2_indirect st st' (l2cpmr_iaddr s)
        (pri_word (st_l2_indirect st (l2cpmr_iaddr s)) x).
Proof.
  intros Hs H.
  unfold set_pri_clk_src, get_l2_indirect_reg, set_l2_indirect_reg in H.
  run_inv. simplify_eq. split; [by split|]. split; [done|]. split; simpl.
  - by rewrite upd_same.
  - intros k Hk. by rewrite upd_other.
Qed.

Lemma set_sec_clk_src_post sc x st s a st' :
  sc_lookup (st_scalable st) sc = Some s →
  set_sec_clk_src sc x st = Ok (a, st') →
  sw_same st st' ∧ st_iomem st' = st_iomem st ∧
  wrote st_l2_indirect st st' (l2cpmr_iaddr s)
        (sec_word (st_l2_indirect st (l2cpmr_iaddr s)) x).
Proof.
  intros Hs H.
  unfold set_sec_clk_src, get_l2_indirect_reg, set_l2_indirect_reg in H.
  run_inv. simplify_eq. split; [by split|]. split; [done|]. split; simpl.
  - by rewrite !upd_same.
  - intros k Hk. by rewrite !upd_other.
Qed.

Lemma hfpll_enable_post sc st s a st' :
  sc_lookup (st_scalable st) sc = Some s →
  hfpll_enable plat be sc st = Ok (a, st') →
  sw_same st st' ∧ st_l2_indirect st' = st_l2_indirect st ∧
  wrote st_iomem st st' (hfpll_base s + HFPLL_MODE) 7.
Proof.
  intros Hs H. unfold hfpll_enable, writel_relaxed in H.
  run_inv_calls; simplify_eq.
  all: split; [by split|]; split; [done|]; split; simpl.
  all: first [ by rewrite !upd_same | intros k Hk; by rewrite !upd_other ].
Qed.

Lemma hfpll_disable_post sc st s a st' :
  sc_lookup (st_scalable st) sc = Some s →
  hfpll_disable plat be sc st = Ok (a, st') →
  sw_same st st' ∧ st_l2_indirect st' = st_l2_indirect st ∧
  wrote st_iomem st st' (hfpll_base s + HFPLL_MODE) 0.
Proof.
  intros Hs H. unfold hfpll_disable, writel_relaxed in H.
  run_inv_calls; simplify_eq.
  all: split; [by split|]; split; [done|]; split; simpl.
  all: first [ by rewrite !upd_same | intros k Hk; by rewrite !upd_other ].
Qed.

Lemma hfpll_set_rate_post sc tgt_s st s tgt a st' :
  sc_lookup (st_scalable st) sc = Some s →
  speed_at st (Some tgt_s) = Some tgt →
  hfpll_set_rate sc tgt_s st = Ok (a, st') →
  sw_same st st' ∧ st_l2_indirect st' = st_l2_indirect st ∧
  wrote st_iomem st st' (hfpll_base s + HFPLL_L_VAL) (pll_l_val tgt).
Proof.
  intros Hs Htgt H. unfold hfpll_set_rate, writel_relaxed in H.
  run_inv. simplify_eq. split; [by split|]. split; [done|]. split; simpl.
  - by rewrite !upd_same.
  - intros k Hk. by rewrite !upd_other.
Qed.

End ClockPost.

(** What is known of the entry and of the speeds in [st1] holds in [st2]. *)
Ltac advance_facts st1 st2 Hsw Htb :=
  repeat match goal with
  | Hs : sc_lookup (st_scalable st1) ?sc = Some ?s |- _ =>
      lazymatch goal with
      | _ : sc_lookup (st_scalable st2) sc = Some s |- _ => fail
      | _ => idtac
      end;
      assert (sc_lookup (st_scalable st2) sc = Some s) by (by rewrite Hsw)
  | Ht : speed_at st1 ?p = Some ?x |- _ =>
      lazymatch goal with
      | _ : speed_at st2 p = Some x |- _ => fail
      | _ => idtac
      end;
      assert (speed_at st2 p = Some x)
        by (by rewrite (speed_at_tables st1 st2 p Htb))
  end.

(** Walking the runs of the hardware functions in the context, from the
    state where the entry and the target speed are known. *)
Ltac clock_walk :=
  repeat match goal with
  | Hs : sc_lookup (st_scalable ?st1) ?sc = Some ?s,
    H : set_sec_clk_src ?sc _ ?st1 = Ok (_, ?st2) |- _ =>
      let Hsw := fresh "Hsw" in
      let Htb := fresh "Htb" in
      destruct (set_sec_clk_src_post _ _ _ _ _ _ Hs H)
        as ([Hsw Htb] & ? & ?);
      clear H; advance_facts st1 st2 Hsw Htb
  | Hs : sc_lookup (st_scalable ?st1) ?sc = Some ?s,
    H : set_pri_clk_src ?sc _ ?st1 = Ok (_, ?st2) |- _ =>
      let Hsw := fresh "Hsw" in
      let Htb := fresh "Htb" in
      destruct (set_pri_clk_src_post _ _ _ _ _ _ Hs H)
        as ([Hsw Htb] & ? & ?);
      clear H; advance_facts st1 st2 Hsw Htb
  | Hs : sc_lookup (st_scalable ?st1) ?sc = Some ?s,
    H : hfpll_enable _ _ ?sc ?st1 = Ok (_, ?st2) |- _ =>
      let Hsw := fresh "Hsw" in
      let Htb := fresh "Htb" in
      destruct (hfpll_enable_post _ _ _ _ _ _ _ Hs H)
        as ([Hsw Htb] & ? & ?);
      clear H; advance_facts st1 st2 Hsw Htb
  | Hs : sc_lookup (st_scalable ?st1) ?sc = Some ?s,
    H : hfpll_disable _ _ ?sc ?st1 = Ok (_, ?st2) |- _ =>
      let Hsw := fresh "Hsw" in
      let Htb := fresh "Htb" in
      destruct (hfpll_disable_post _ _ _ _ _ _ _ Hs H)
        as ([Hsw Htb] & ? & ?);
      clear H; advance_facts st1 st2 Hsw Htb
  | Hs : sc_lookup (st_scalable ?st1) ?sc = Some ?s,
    Ht : speed_at ?st1 (Some ?p) = Some ?tgt,
    H : hfpll_set_rate ?sc ?p ?st1 = Ok (_, ?st2) |- _ =>
      let Hsw := fresh "Hsw" in
      let Htb := fresh "Htb" in
      destruct (hfpll_set_rate_post _ _ _ _ _ _ _ Hs Ht H)
        as ([Hsw Htb] & ? & ?);
      clear H; advance_facts st1 st2 Hsw Htb
  end.

(** Reading a register of the last state back to the first. *)
Ltac reg_back :=
  repeat match goal with
  | H : st_iomem ?st2 = st_iomem _ |- context [st_iomem ?st2] => rewrite H
  | H : st_l2_indirect ?st2 = st_l2_indirect _
    |- context [st_l2_indirect ?st2] => rewrite H
  | H : wrote st_iomem _ ?st2 ?k _ |- context [st_iomem ?st2 ?k] =>
      rewrite (proj1 H)
  | H : wrote st_l2_indirect _ ?st2 ?k _
    |- context [st_l2_indirect ?st2 ?k] => rewrite (proj1 H)
  | H : wrote st_iomem _ ?st2 _ _ |- context [st_iomem ?st2 ?x] =>
      rewrite (proj2 H x) by (unfold HFPLL_MODE, HFPLL_L_VAL; lia)
  | H : wrote st_l2_indirect _ ?st2 _ _
    |- context [st_l2_indirect ?st2 ?x] => rewrite (proj2 H x) by done
  end.

(** The paths of a run of [set_speed] to another speed than the current
    one, each with what its hardware functions did. *)
Ltac set_speed_paths Hs Hstrt Htgt Hne Hrun :=
  unfold set_speed in Hrun;
  let Hl := fresh in
  let Hd := fresh in
  apply bind_inv in Hrun as (? & ? & Hl & Hrun);
  apply load_sc_inv in Hl as [Hl ->]; rewrite Hs in Hl; injection Hl as <-;
  rewrite bool_decide_false in Hrun by done;
  apply bind_inv in Hrun as (? & ? & Hd & Hrun);
  apply deref_speed_inv in Hd as [Hd ->]; rewrite Hstrt in Hd;
  injection Hd as <-;
  apply bind_inv in Hrun as (? & ? & Hd & Hrun);
  apply deref_speed_inv in Hd as [Hd ->]; rewrite Htgt in Hd;
  injection Hd as <-;
  run_inv_calls; clock_walk; prep_branch;
  repeat match goal with
  | H : sc_lookup (st_scalable ?st0) ?sc = Some ?x,
    H' : sc_lookup (st_scalable ?st0) ?sc = Some ?y |- _ =>
      is_var x; rewrite H' in H; injection H as ->
  end;
  simpl.

Section SetSpeed.

Context (plat : platform) (be : backend).

Lemma set_speed_entry sc tgt_s reason st s strt tgt st' :
  sc_lookup (st_scalable st) sc = Some s →
  speed_at st (current_speed s) = Some strt →
  speed_at st (Some tgt_s) = Some tgt →
  Some tgt_s ≠ current_speed s →
  set_speed plat be sc tgt_s reason st = Ok (tt, st') →
  sc_lookup (st_scalable st') sc = Some (set_current_speed (Some tgt_s) s).
Proof.
  intros Hs Hstrt Htgt Hne Hrun.
  set_speed_paths Hs Hstrt Htgt Hne Hrun.
  all: by eapply sc_lookup_insert_eq.
Qed.

(** X18: a switch to another speed leaves the HFPLL of the entry enabled and
    programmed with the L value of the target when the target is sourced
    from it, disabled when the switch leaves it for another source, and
    untouched when neither speed is sourced from it; the target becomes the
    current speed of the entry. *)
Theorem set_speed_programs_hfpll (sc : Z) (tgt_s : speed_ptr)
    (reason : setrate_reason) (st : state) (s : scalable)
    (strt tgt : core_speed) :
  sc_lookup (st_scalable st) sc = Some s →
  speed_at st (current_speed s) = Some strt →
  speed_at st (Some tgt_s) = Some tgt →
  Some tgt_s ≠ current_speed s →
  ∃ st',
    set_speed plat be sc tgt_s reason st = Ok (tt, st') ∧
    sc_lookup (st_scalable st') sc = Some (set_current_speed (Some tgt_s) s) ∧
    (src tgt = HFPLL →
     st_iomem st' (hfpll_base s + HFPLL_MODE) = 7 ∧
     st_iomem st' (hfpll_base s + HFPLL_L_VAL) = pll_l_val tgt) ∧
    (src tgt ≠ HFPLL → src strt = HFPLL →
     st_iomem st' (hfpll_base s + HFPLL_MODE) = 0) ∧
    (src tgt ≠ HFPLL → src strt ≠ HFPLL → st_iomem st' = st_iomem st).
Proof.
  intros Hs Hstrt Htgt Hne.
  destruct (runs_set_speed plat be sc tgt_s reason st s Hs)
    as ([] & st' & Hrun); [by eexists | by eexists |].
  exists st'. split; [exact Hrun|].
  set_speed_paths Hs Hstrt Htgt Hne Hrun.
  all: (split; [by eapply sc_lookup_insert_eq|]).
  all: split; [intros ?; try done; split; by reg_back|].
  all: split; [intros ? ?; try done; by reg_back|].
  all: intros ? ?; try done; by reg_back.
Qed.

Lemma pri_word_pri r x : Z.land (pri_word r x) 3 = Z.land x 3.
Proof. apply mux_pri_bits. Qed.

Lemma pri_word_sec r x :
  Z.land (Z.shiftr (pri_word r x) 2) 3 = Z.land (Z.shiftr r 2) 3.
Proof. apply mux_pri_keeps_sec. Qed.

Lemma sec_word_sec r x : Z.land (Z.shiftr (sec_word r x) 2) 3 = Z.land x 3.
Proof. apply mux_sec_bits. Qed.

Lemma sec_word_pri r x : Z.land (sec_word r x) 3 = Z.land r 3.
Proof.
  apply land_3_bits. intros n Hn. unfold sec_word.
  rewrite mux_sec_word_bits by lia.
  replace (n =? 4) with false by (symmetry; apply Z.eqb_neq; lia).
  by replace (2 <=? n) with false by (symmetry; apply Z.leb_gt; lia).
Qed.

Ltac mux_back :=
  repeat first
    [ progress reg_back
    | rewrite pri_word_pri | rewrite pri_word_sec
    | rewrite sec_word_sec | rewrite sec_word_pri ].

Ltac orb_branch :=
  repeat match goal with
  | H : (_ || _) = true |- _ => apply orb_true_iff in H as [H | H]
  | H : (_ || _) = false |- _ => apply orb_false_iff in H as [? ?]
  end;
  prep_branch.

(** X19: a switch to another speed for a reason other than hotplug, or of the
    L2, leaves the muxes on the sources of the target: the primary mux
    selects what the target names unless neither speed is sourced from the
    HFPLL, where it is left alone; the secondary mux selects what the
    target names when the target is not sourced from the HFPLL, is left on
    the AUX input when both speeds are, and is left alone otherwise. *)
Theorem set_speed_selects_sources (sc : Z) (tgt_s : speed_ptr)
    (reason : setrate_reason) (st : state) (s : scalable)
    (strt tgt : core_speed) :
  sc_lookup (st_scalable st) sc = Some s →
  speed_at st (current_speed s) = Some strt →
  speed_at st (Some tgt_s) = Some tgt →
  Some tgt_s ≠ current_speed s →
  reason ≠ SETRATE_HOTPLUG ∨ sc = L2 →
  ∃ st' pri sec,
    set_speed plat be sc tgt_s reason st = Ok (tt, st') ∧
    get_pri_clk_src sc st' = Ok (pri, st') ∧
    get_sec_clk_src sc st' = Ok (sec, st') ∧
    (src strt = HFPLL ∨ src tgt = HFPLL → pri = Z.land (pri_src_sel tgt) 3) ∧
    (src strt ≠ HFPLL → src tgt ≠ HFPLL →
     get_pri_clk_src sc st = Ok (pri, st)) ∧
    (src tgt ≠ HFPLL → sec = Z.land (sec_src_sel tgt) 3) ∧
    (src strt = HFPLL → src tgt = HFPLL → sec = SEC_SRC_SEL_AUX) ∧
    (src strt ≠ HFPLL → src tgt = HFPLL →
     get_sec_clk_src sc st = Ok (sec, st)).
Proof.
  intros Hs Hstrt Htgt Hne Hmux.
  destruct (runs_set_speed plat be sc tgt_s reason st s Hs)
    as ([] & st' & Hrun); [by eexists | by eexists |].
  exists st'. eexists _, _. split; [exact Hrun|].
  rewrite (get_pri_clk_src_run sc st s Hs), (get_sec_clk_src_run sc st s Hs).
  assert (Hs' : sc_lookup (st_scalable st') sc
                = Some (set_current_speed (Some tgt_s) s)).
  { by eapply set_speed_entry. }
  rewrite (get_pri_clk_src_run sc st' _ Hs'), (get_sec_clk_src_run sc st' _ Hs').
  split; [reflexivity|]. split; [reflexivity|]. simpl. clear Hs'.
  set_speed_paths Hs Hstrt Htgt Hne Hrun.
  all: orb_branch.
  all: try (exfalso; destruct Hmux as [Hmux | Hmux]; congruence).
  all: split; [intros ?; try (exfalso; intuition congruence); by mux_back|].
  all: split; [intros ? ?; try done; by mux_back|].
  all: split; [intros ?; try done; by mux_back|].
  all: split; [intros ? ?; try done; by mux_back|].
  all: intros ? ?; try done; by mux_back.
Qed.

(** X20: a switch of a CPU for the hotplug reason writes no CP15 register when
    one of the two speeds is not sourced from the HFPLL, as when a CPU goes
    to or comes from the standby speed: the muxes of the CPU that is down
    are not touched. *)
Theorem set_speed_hotplug_spares_mux (sc : Z) (tgt_s : speed_ptr)
    (st : state) (s : scalable) (strt tgt : core_speed) :
  sc_lookup (st_scalable st) sc = Some s →
  speed_at st (current_speed s) = Some strt →
  speed_at st (Some tgt_s) = Some tgt →
  sc ≠ L2 →
  src strt ≠ HFPLL ∨ src tgt ≠ HFPLL →
  ∃ st',
    set_speed plat be sc tgt_s SETRATE_HOTPLUG st = Ok (tt, st') ∧
    st_l2_indirect st' = st_l2_indirect st.
Proof.
  intros Hs Hstrt Htgt Hsc Hsrc.
  destruct (runs_set_speed plat be sc tgt_s SETRATE_HOTPLUG st s Hs)
    as ([] & st' & Hrun); [by eexists | by eexists |].
  exists st'. split; [exact Hrun|].
  destruct (decide (Some tgt_s = current_speed s)) as [Heq|Hne].
  { unfold set_speed in Hrun.
    rewrite (bind_run _ _ _ _ _ (load_sc_run _ _ _ Hs)) in Hrun.
    rewrite bool_decide_true in Hrun by done. by injection Hrun as <-. }
  set_speed_paths Hs Hstrt Htgt Hne Hrun.
  all: orb_branch.
  all: try (exfalso; destruct Hsrc; congruence).
  all: try (exfalso; unfold not_hotplug in *; simpl in *; congruence).
  all: by reg_back.
Qed.

End SetSpeed.

(** ** No fault from a well-formed state *)

Lemma wp_run {A B} (m : M B) (f : B → M A) st Q :
  runs m st →
  (∀ b st1, m st = Ok (b, st1) → wp (f b) st1 Q) →
  wp (m ≫= f) st Q.
Proof.
  intros (b & st1 & Hrun) H. destruct (H b st1 Hrun) as (a & st' & Hf & HQ).
  exists a, st'. split; [|done]. by rewrite (bind_run _ _ _ _ _ Hrun).
Qed.

Lemma wp_mono {A} (m : M A) st (Q Q' : A → state → Prop) :
  wp m st Q → (∀ a st', Q a st' → Q' a st') → wp m st Q'.
Proof. intros (a & st' & H & HQ) Himp. exists a, st'. eauto. Qed.

Section WellFormed.

Context (plat : platform) (acpu : list acpu_level) (l2 : list l2_level).

Lemma well_formed_at_hw_closed : hw_closed (well_formed_at plat acpu l2).
Proof. by split. Qed.

(** An update of an entry that keeps its pointers sound keeps the state
    well-formed. *)
Lemma well_formed_at_sc_closed i g :
  (∀ st s, tables_are acpu l2 st →
           (speed_ok st s → speed_ok st (g s)) ∧
           (vote_ok st s → vote_ok st (g s))) →
  sc_closed (well_formed_at plat acpu l2) i g.
Proof.
  intros Hg st s Hs [Ht (Htbl & Hlen & HL2 & Hpres & Honl)].
  split; [done|]. split; [done|]. split; [done|].
  destruct (Hg st s Ht) as [Hsp Hvo].
  split; [|split].
  - destruct HL2 as (sl & Hsl & Hok). simpl.
    rewrite (sc_lookup_insert _ _ _ _ _ Hs).
    destruct (decide (L2 = i)) as [<-|]; [|by eauto].
    exists (g s). split; [done|]. apply Hsp.
    by assert (sl = s) as <- by congruence.
  - intros cpu Hcpu. destruct (Hpres cpu Hcpu) as (sl & Hsl & Hok). simpl.
    rewrite (sc_lookup_insert _ _ _ _ _ Hs).
    destruct (decide (cpu = i)) as [->|]; [|by eauto].
    exists (g s). split; [done|]. apply Hvo.
    by assert (sl = s) as <- by congruence.
  - intros cpu Hcpu. destruct (Honl cpu Hcpu) as (sl & Hsl & Hok). simpl.
    rewrite (sc_lookup_insert _ _ _ _ _ Hs).
    destruct (decide (cpu = i)) as [->|]; [|by eauto].
    exists (g s). split; [done|]. apply Hsp.
    by assert (sl = s) as <- by congruence.
Qed.

Lemma well_formed_at_vreg i r uv :
  sc_closed (well_formed_at plat acpu l2) i
    (set_sc_vreg r (λ v, set_cur_vdd v uv)).
Proof. by apply well_formed_at_sc_closed. Qed.

Lemma well_formed_at_first i b :
  sc_closed (well_formed_at plat acpu l2) i (set_first_set_call b).
Proof. by apply well_formed_at_sc_closed. Qed.

Lemma well_formed_at_speed i p st0 :
  tables_are acpu l2 st0 → is_Some (speed_at st0 (Some p)) →
  sc_closed (well_formed_at plat acpu l2) i (set_current_speed (Some p)).
Proof.
  intros [Ha Hl] Hp. apply well_formed_at_sc_closed. intros st s Ht.
  split; [|done]. intros _. unfold speed_ok.
  change (current_speed (set_current_speed (Some p) s)) with (Some p).
  rewrite (speed_at_tables st0 st); [done|]. by rewrite Ha, Hl.
Qed.

Lemma well_formed_at_vote i v :
  (∀ j, v = Some j → (j < length l2)%nat) →
  sc_closed (well_formed_at plat acpu l2) i (set_l2_vote v).
Proof.
  intros Hv. apply well_formed_at_sc_closed. intros st s [_ Ht].
  split; [done|]. intros _ j Hj. simpl in Hj. rewrite Ht. by apply Hv.
Qed.

End WellFormed.

#[global] Hint Resolve well_formed_at_hw_closed : stable.

Lemma calculate_vdd_level (l2 : list l2_level) (tgt : acpu_level) (j : nat) :
  acpu_l2_level tgt = Some j → (j < length l2)%nat →
  is_Some (calculate_vdd_mem l2 tgt) ∧ is_Some (calculate_vdd_dig l2 tgt).
Proof.
  intros Hj Hlt. destruct (lookup_lt_is_Some_2 l2 j Hlt) as [l Hl].
  unfold calculate_vdd_mem, calculate_vdd_dig, l2_level_at.
  rewrite Hj. simpl. rewrite Hl. simpl. split; by eexists.
Qed.

Lemma find_tgt_in_entries tbl rate i0 i tgt :
  find_tgt tbl rate i0 = Some (i, tgt) → tgt ∈ table_entries tbl.
Proof.
  revert i0. induction tbl as [|l rest IH]; intros i0; simpl; [done|].
  destruct (khz (speed l) =? 0); [done|].
  destruct (khz (speed l) =? rate).
  - intros [= <- <-]. by left.
  - intros H. right. by eapply IH.
Qed.

Section Total.

Context (plat : platform) (be : backend).

Lemma well_formed_at_online acpu l2 st cpu :
  well_formed_at plat acpu l2 st → cpu ∈ cpu_online_mask plat →
  ∃ s, sc_lookup (st_scalable st) cpu = Some s ∧
       is_Some (speed_at st (current_speed s)).
Proof. intros [_ (_ & _ & _ & _ & H)] Hcpu. by apply H. Qed.

Lemma well_formed_at_L2 acpu l2 st :
  well_formed_at plat acpu l2 st →
  ∃ s, sc_lookup (st_scalable st) L2 = Some s ∧
       is_Some (speed_at st (current_speed s)).
Proof. by intros [_ (_ & _ & H & _)]. Qed.

Lemma runs_set_bus_bw bw st : runs (set_bus_bw be bw) st.
Proof. unfold set_bus_bw. repeat runs_step. Qed.

Lemma runs_increase_vdd cpu vc vm vd reason st :
  is_Some (sc_lookup (st_scalable st) cpu) →
  runs (increase_vdd be cpu vc vm vd reason) st.
Proof. intros [s Hs]. eapply runs_wp. by apply increase_vdd_outcome. Qed.

Lemma runs_decrease_vdd cpu vc vm vd reason st :
  is_Some (sc_lookup (st_scalable st) cpu) →
  runs (decrease_vdd be cpu vc vm vd reason) st.
Proof. intros [s Hs]. eapply runs_wp. by apply decrease_vdd_outcome. Qed.

(** The arbitrator returns an entry of the L2 table when the votes are
    sound. *)
Lemma compute_l2_level_sound sc v st acpu l2 :
  well_formed_at plat acpu l2 st →
  is_Some (sc_lookup (st_scalable st) sc) →
  (∀ j, v = Some j → (j < length l2)%nat) →
  wp (compute_l2_level plat sc v) st
     (λ j st', (j < length l2)%nat ∧ well_formed_at plat acpu l2 st').
Proof.
  intros HI [s Hs] Hv. unfold compute_l2_level.
  apply wp_run; [apply runs_gets|].
  intros n st1 Hrun. apply gets_inv in Hrun as [-> ->].
  assert (Hl2 : st_l2_freq_tbl st = l2) by apply HI.
  apply wp_run.
  { destruct v as [j|]; [|apply runs_ret].
    rewrite bool_decide_false; [apply runs_ret|].
    rewrite Hl2. specialize (Hv j eq_refl). lia. }
  intros [] st1 Hrun.
  assert (st1 = st) as ->.
  { destruct v as [j|]; [destruct (bool_decide _)|]; by run_inv. }
  clear Hrun.
  apply wp_run; [apply runs_modify_sc; by eexists|].
  intros [] st1 Hrun.
  assert (HI1 : well_formed_at plat acpu l2 st1).
  { refine ((_ : stable _ _) _ _ _ Hrun HI).
    apply stable_modify_sc, well_formed_at_vote, Hv. }
  clear Hrun.
  destruct HI1 as [Ht1 Hwf1]. pose proof Hwf1 as (_ & Hlen & _ & Hpres & _).
  destruct (max_l2_vote_run (cpu_present_mask plat) 0 st1)
    as (m & Hm & _ & _ & Hmax).
  { intros c Hc. destruct (Hpres c Hc) as (? & ? & _). by eexists. }
  exists m, st1. split; [exact Hm|]. split; [|done].
  destruct Ht1 as [_ Ht1]. rewrite Ht1 in Hlen.
  destruct Hmax as [-> | (c & sc' & Hc & Hsc' & Hvote)]; [done|].
  destruct (Hpres c Hc) as (s2 & Hs2 & Hok).
  assert (s2 = sc') as -> by congruence.
  specialize (Hok m Hvote). by rewrite Ht1 in Hok.
Qed.

Ltac advance_by HI Hrun tac :=
  match type of Hrun with
  | ?m ?st = Ok (?a, ?st') =>
      match type of HI with
      | ?P st =>
          let H' := fresh in
          assert (H' : P st')
            by (refine ((_ : stable P m) st a st' Hrun HI); tac);
          clear HI Hrun; rename H' into HI;
          clear st; rename st' into st
      end
  end.

Ltac advance HI Hrun := advance_by HI Hrun ltac:(eauto with stable).

Ltac foot_print_step HI :=
  apply wp_run;
    [unfold set_acpuclk_foot_print, set_acpuclk_cpu_freq_foot_print,
       set_acpuclk_L2_freq_foot_print; apply runs_modify|];
  let Hrun := fresh "Hrun" in
  let st' := fresh "st" in
  intros [] st' Hrun; advance HI Hrun.

Lemma set_rate_sound cpu rate reason st acpu l2 :
  well_formed_at plat acpu l2 st → cpu ∈ cpu_online_mask plat →
  wp (acpuclk_8960_set_rate plat be cpu rate reason) st
     (λ _ st', well_formed_at plat acpu l2 st').
Proof.
  intros HI Hcpu.
  unfold acpuclk_8960_set_rate.
  foot_print_step HI.
  apply wp_bind.
  apply wp_mono with (Q := λ _ st', well_formed_at plat acpu l2 st');
    [|intros rc st' HI'; foot_print_step HI'; by apply wp_ret].
  destruct (u32 cpu >? num_possible_cpus plat); [by apply wp_ret|].
  foot_print_step HI.
  pose proof HI as [[Hacpu Hl2] (Htbl & Hlen & HL2 & Hpres & Honl)].
  destruct (Honl cpu Hcpu) as (s & Hs & Hsp).
  apply wp_run; [apply runs_load_sc; by eexists|].
  intros s' st' Hrun. apply load_sc_inv in Hrun as [Hs' ->].
  assert (s' = s) as -> by congruence. clear Hs'.
  apply wp_run; [by apply runs_deref_speed|].
  intros strt st' Hrun. apply deref_speed_inv in Hrun as [Hstrt ->].
  destruct ((rate =? khz strt) && negb (first_set_call s));
    [by apply wp_ret|].
  apply wp_run; [apply runs_gets|].
  intros tbl st' Hrun. apply gets_inv in Hrun as [-> ->].
  rewrite Hacpu.
  destruct (find_tgt acpu rate 0) as [[i tgt]|] eqn:Hfind;
    [|by apply wp_ret].
  apply wp_run; [apply runs_gets|].
  intros tbl st' Hrun. apply gets_inv in Hrun as [-> ->].
  rewrite Hl2.
  pose proof (find_tgt_in_entries _ _ _ _ _ Hfind) as Hin.
  rewrite <- Hacpu in Hin. destruct (Htbl tgt Hin) as (j & Hj & Hjlt).
  rewrite Hl2 in Hjlt.
  destruct (calculate_vdd_level l2 tgt j Hj Hjlt) as [Hmem Hdig].
  apply wp_run; [by apply runs_deref|].
  intros vm st' Hrun. apply deref_inv in Hrun as [Hvm ->].
  apply wp_run; [by apply runs_deref|].
  intros vd st' Hrun. apply deref_inv in Hrun as [Hvd ->].
  apply find_tgt_Some in Hfind as (_ & Hi & _ & _).
  rewrite Nat.sub_0_r in Hi.
  assert (Htgt : is_Some (speed_at st (Some (acpu_speed i)))).
  { unfold speed_at. rewrite Hacpu, Hi. by eexists. }
  assert (Hcl_speed : sc_closed (well_formed_at plat acpu l2) cpu
                        (set_current_speed (Some (acpu_speed i))))
    by (by eapply well_formed_at_speed).
  clear Htbl Hlen HL2 Hpres Honl Hs Hsp Hstrt Hin Htgt Hacpu Hl2.
  apply wp_run.
  { destruct (well_formed_at_online _ _ _ _ HI Hcpu) as (? & ? & _).
    destruct (takes_driver_lock reason);
      [apply runs_increase_vdd; by eexists | apply runs_ret]. }
  intros rc st' Hrun.
  advance_by HI Hrun ltac:(
    destruct (takes_driver_lock reason);
    [apply stable_increase_vdd; [eauto with stable|];
     intros; apply well_formed_at_vreg
    | apply stable_ret]).
  destruct (negb (rc =? 0)); [by apply wp_ret|].
  foot_print_step HI.
  apply wp_run.
  { destruct (well_formed_at_online _ _ _ _ HI Hcpu) as (? & ? & ?).
    eapply runs_set_speed; [eassumption | done |].
    destruct HI as [[Hacpu _] _]. unfold speed_at. rewrite Hacpu, Hi.
    by eexists. }
  intros [] st' Hrun.
  advance_by HI Hrun ltac:(apply stable_set_speed; eauto with stable).
  foot_print_step HI. foot_print_step HI.
  apply wp_bind.
  eapply wp_mono.
  { apply compute_l2_level_sound; [exact HI | |].
    - destruct (well_formed_at_online _ _ _ _ HI Hcpu) as (? & ? & _).
      by eexists.
    - intros j' Hj'. by assert (j' = j) as -> by congruence. }
  clear HI st. intros m st [Hm HI]. cbv beta.
  destruct (lookup_lt_is_Some_2 l2 m Hm) as [lm Hlm].
  assert (Hl2s : ∀ st1, well_formed_at plat acpu l2 st1 →
                        is_Some (speed_at st1 (Some (l2_speed_ptr m)))).
  { intros st1 [[_ Hl2] _]. unfold speed_at. rewrite Hl2, Hlm. by eexists. }
  apply wp_run.
  { destruct (well_formed_at_L2 _ _ _ HI) as (? & ? & ?).
    eapply runs_set_speed; [eassumption | done | by apply Hl2s]. }
  intros [] st' Hrun.
  advance_by HI Hrun ltac:(
    apply stable_set_speed; [eauto with stable|];
    eapply well_formed_at_speed; [apply HI | by apply Hl2s]).
  apply wp_run; [by apply runs_deref_speed, Hl2s|].
  intros l2s st' Hrun. apply deref_speed_inv in Hrun as [_ ->].
  foot_print_step HI. foot_print_step HI.
  destruct (bool_decide (reason = SETRATE_PC)
            || bool_decide (reason = SETRATE_SWFI)); [by apply wp_ret|].
  apply wp_run; [apply runs_deref; unfold l2_level_at; simpl; by eexists|].
  intros l st' Hrun. apply deref_inv in Hrun as [_ ->].
  apply wp_run; [apply runs_set_bus_bw|].
  intros [] st' Hrun. advance HI Hrun.
  foot_print_step HI.
  apply wp_run.
  { destruct (well_formed_at_online _ _ _ _ HI Hcpu) as (? & ? & _).
    apply runs_decrease_vdd. by eexists. }
  intros [] st' Hrun.
  advance_by HI Hrun ltac:(
    apply stable_decrease_vdd; [eauto with stable|];
    intros; apply well_formed_at_vreg).
  foot_print_step HI.
  apply wp_run.
  { destruct (well_formed_at_online _ _ _ _ HI Hcpu) as (? & ? & _).
    apply runs_modify_sc. by eexists. }
  intros [] st' Hrun.
  advance_by HI Hrun ltac:(apply stable_modify_sc, well_formed_at_first).
  by apply wp_ret.
Qed.


(** X23: a transition of an online CPU from a well-formed state runs to its end,
    whatever the rate, the reason and the answers of the services: it does
    not stop in a [BUG] and follows no null or stray pointer, and it leaves
    a well-formed state with the same tables. *)
Theorem set_rate_keeps_well_formed (cpu rate : Z) (reason : setrate_reason)
    (st : state) :
  well_formed plat st → cpu ∈ cpu_online_mask plat →
  ∃ rc st',
    acpuclk_8960_set_rate plat be cpu rate reason st = Ok (rc, st') ∧
    well_formed plat st' ∧
    tables_are (st_acpu_freq_tbl st) (st_l2_freq_tbl st) st'.
Proof.
  intros Hwf Hcpu.
  destruct (set_rate_sound cpu rate reason st (st_acpu_freq_tbl st)
              (st_l2_freq_tbl st)) as (rc & st' & Hrun & [Ht Hw]);
    [by split | done |].
  by exists rc, st'.
Qed.

Ltac callback_step HI Hcpu :=
  lazymatch goal with
  | |- wp (mret _) _ _ => by apply wp_ret
  | |- wp (if ?b then _ else _) _ _ => destruct b
  | |- wp (acpuclk_8960_set_rate _ _ _ _ _ ≫= _) ?st _ =>
      apply wp_bind; eapply wp_mono;
      [apply set_rate_sound; [exact HI | exact Hcpu]|];
      clear HI st; intros ? st HI; cbv beta
  | |- wp (_ ≫= _) _ _ =>
      apply wp_run;
      [ destruct (well_formed_at_online _ _ _ _ HI Hcpu) as (? & ? & [? ?]);
        first [ apply runs_modify | apply runs_gets
              | eexists _, _; by eapply get_pri_clk_src_run
              | eexists _, _; by eapply get_sec_clk_src_run
              | eexists _, _; by eapply get_rate_run
              | apply (runs_hw_on_entry plat be); by eexists ]
      | let Hrun := fresh "Hrun" in
        let st' := fresh "st" in
        intros ? st' Hrun;
        advance_by HI Hrun ltac:(
          first [ by eauto with stable
                | apply stable_modify; by intros ? ?
                | apply stable_acpuclk_8960_get_rate
                | apply stable_gets ]) ]
  end.

Lemma callback_sound action cpu st acpu l2 :
  well_formed_at plat acpu l2 st → cpu ∈ cpu_online_mask plat →
  wp (acpuclock_cpu_callback plat be action cpu) st
     (λ _ st', well_formed_at plat acpu l2 st').
Proof.
  intros HI Hcpu. destruct action; unfold acpuclock_cpu_callback.
  all: repeat callback_step HI Hcpu.
Qed.

Lemma same_clock_levels (P : option nat → Prop) tbl tbl' :
  Forall2 (λ l l', speed l' = speed l ∧ acpu_l2_level l' = acpu_l2_level l)
    tbl tbl' →
  (∀ l, l ∈ table_entries tbl → P (acpu_l2_level l)) →
  ∀ l', l' ∈ table_entries tbl' → P (acpu_l2_level l').
Proof.
  induction 1 as [|l l' tbl tbl' (Hs & Hl) _ IH]; simpl; [done|].
  rewrite Hs. destruct (khz (speed l) =? 0); [by intros _ ? ?%elem_of_nil|].
  intros Hall x [->|Hx]%elem_of_cons.
  - rewrite Hl. apply Hall. by left.
  - apply IH; [|done]. intros y Hy. apply Hall. by right.
Qed.

Lemma same_point_levels (P : option nat → Prop) tbl tbl' :
  Forall2 same_point tbl tbl' →
  (∀ l, l ∈ table_entries tbl → P (acpu_l2_level l)) →
  ∀ l', l' ∈ table_entries tbl' → P (acpu_l2_level l').
Proof.
  intros H. apply same_clock_levels.
  eapply Forall2_impl; [exact H|]. by intros l l' (? & _ & ?).
Qed.

(** Another core voltage for some operating points keeps the state
    well-formed. *)
Lemma well_formed_same_point st tbl' :
  Forall2 same_point (st_acpu_freq_tbl st) tbl' →
  well_formed plat st → well_formed plat (set_acpu_freq_tbl tbl' st).
Proof.
  intros Hsame (Htbl & Hlen & HL2 & Hpres & Honl).
  assert (Hsp : ∀ s, speed_ok st s → speed_ok (set_acpu_freq_tbl tbl' st) s).
  { intros s. unfold speed_ok, speed_at.
    destruct (current_speed s) as [[i|j]|]; simpl; [|done|done].
    by rewrite (same_point_lookup_speed _ _ i Hsame). }
  split; [|split; [done|split; [|split; [done|]]]].
  - simpl. by apply (same_point_levels
      (λ o, ∃ j, o = Some j ∧ (j < length (st_l2_freq_tbl st))%nat)
      _ _ Hsame).
  - destruct HL2 as (s & ? & ?). exists s. split; [done|]. by apply Hsp.
  - intros cpu Hcpu. destruct (Honl cpu Hcpu) as (s & ? & ?).
    exists s. split; [done|]. by apply Hsp.
Qed.

(** X24: whatever transitions, voltage adjustments and hotplug events of online
    CPUs follow one another from a well-formed state, every one of them runs
    to its end, and the state stays well-formed. *)
Theorem run_ops_keep_well_formed (ops : list op) (st : state) :
  well_formed plat st → Forall (op_online plat) ops →
  ∃ st', run_ops plat be ops st = Ok (tt, st') ∧ well_formed plat st'.
Proof.
  intros Hwf Hops. revert st Hwf.
  induction Hops as [|o ops Ho _ IH]; intros st Hwf; [by exists st|].
  assert (Hop : ∃ st1, run_op plat be o st = Ok (tt, st1) ∧
                       well_formed plat st1).
  { destruct o as [cpu rate reason | khz_ vdd_uv | action cpu]; simpl in *.
    - destruct (set_rate_sound cpu rate reason st (st_acpu_freq_tbl st)
                  (st_l2_freq_tbl st)) as (rc & st1 & Hrun & [_ Hw]);
        [by split | done |].
      exists st1. by rewrite (bind_run _ _ _ _ _ Hrun).
    - eexists. split; [reflexivity|].
      apply well_formed_same_point; [|done].
      apply acpuclk_set_vdd_tbl_same_point.
    - destruct (callback_sound action cpu st (st_acpu_freq_tbl st)
                  (st_l2_freq_tbl st)) as (rc & st1 & Hrun & [_ Hw]);
        [by split | done |].
      exists st1. by rewrite (bind_run _ _ _ _ _ Hrun). }
  destruct Hop as (st1 & Hrun & Hwf1).
  destruct (IH st1 Hwf1) as (st' & Hrest & Hwf').
  exists st'. split; [|done]. simpl. by rewrite (bind_run _ _ _ _ _ Hrun).
Qed.

End Total.

(** ** Initialisation *)

Lemma sc_field_or_sc_closed {V} (proj : scalable → V) i x y j g :
  (∀ s, proj (g s) = y) ∨ (∀ s, proj (g s) = proj s) →
  sc_closed (sc_field_or proj i x y) j g.
Proof.
  intros [Hg | Hg] st s Hs [H | H].
  - destruct (decide (i = j)) as [->|Hne].
    + right. unfold sc_field. simpl.
      rewrite (sc_lookup_insert _ _ _ _ _ Hs), decide_True by done.
      simpl. by rewrite Hg.
    + left. refine (sc_field_sc_closed proj i x j g _ st s Hs H).
      left. congruence.
  - right. by apply (sc_field_sc_set proj i y j g Hg st s Hs).
  - left. refine (sc_field_sc_closed proj i x j g _ st s Hs H). by right.
  - right. refine (sc_field_sc_closed proj i y j g _ st s Hs H). by right.
Qed.

Section Init.

Context (plat : platform) (be : backend).

Lemma stable_for_each_cpu P cpus (body : Z → M unit) :
  (∀ c, stable P (body c)) → stable P (for_each_cpu cpus body).
Proof.
  intros Hbody. induction cpus as [|c rest IH]; simpl; [apply stable_ret|].
  apply stable_bind; [apply Hbody | intros _; apply IH].
Qed.

Lemma stable_init_clock_sources P sc p :
  hw_closed P →
  sc_closed P sc (set_current_speed (Some p)) →
  sc_closed P sc (set_first_set_call true) →
  stable P (init_clock_sources plat be sc p).
Proof.
  intros Hhw Hsp Hfi. unfold init_clock_sources, hfpll_init. stable_tac.
Qed.

Lemma stable_regulator_init P max v :
  init_closed P max v → stable P (regulator_init plat be).
Proof.
  intros [Hhw _ _ _ Hreg _]. unfold regulator_init.
  apply stable_for_each_cpu. intros c. stable_tac.
Qed.

Lemma stable_bus_init P max v :
  init_closed P max v → stable P (bus_init plat be).
Proof.
  intros [Hhw _ _ _ _ Hbus]. unfold bus_init. stable_tac.
Qed.

Ltac init_closed_tac :=
  split;
  [ by split
  | intros; first [ apply sc_field_sc_set; intros; reflexivity
                  | apply sc_field_sc_closed; right; intros; reflexivity
                  | apply sc_field_or_sc_closed;
                    first [ left; intros; reflexivity
                          | right; intros; reflexivity ]
                  | apply tables_are_sc_closed ]..
  | done ].

Lemma tables_are_init_closed T L max v : init_closed (tables_are T L) max v.
Proof. init_closed_tac. Qed.

Lemma current_speed_init_closed c max v :
  init_closed (sc_field current_speed c (Some (acpu_speed max))) max v.
Proof. init_closed_tac. Qed.

Lemma first_set_call_init_closed c max v :
  init_closed (sc_field first_set_call c true) max v.
Proof. init_closed_tac. Qed.

Lemma l2_vote_init_closed c max v :
  init_closed (sc_field l2_vote c v) max v.
Proof. init_closed_tac. Qed.

Lemma speed_or_init_closed c p max v :
  init_closed (sc_field_or current_speed c p (Some (acpu_speed max))) max v.
Proof. init_closed_tac. Qed.

Lemma vote_or_init_closed c x max v :
  init_closed (sc_field_or l2_vote c x v) max v.
Proof. init_closed_tac. Qed.

(** What [init_clock_sources] leaves in the entry it works on. *)
Lemma init_clock_sources_sets sc p st a st' :
  init_clock_sources plat be sc p st = Ok (a, st') →
  sc_field current_speed sc (Some p) st' ∧
  sc_field first_set_call sc true st'.
Proof.
  unfold init_clock_sources. intros Hrun. run_inv.
  repeat match goal with
  | H : mbind _ _ _ = Ok _ |- _ => fail 1
  | H : modify_sc _ (set_current_speed _) _ = Ok _ |- _ =>
      apply (modify_sc_field current_speed) with (x := Some p) in H;
      [|done]
  end.
  split; [|by eapply modify_sc_field].
  refine ((_ : stable _ _) _ _ _ Hrun Hrun10).
  apply stable_modify_sc, sc_field_sc_closed. by right.
Qed.

Section Tail.

Context (T : list acpu_level) (L : list l2_level) (max : nat)
  (l : acpu_level) (HT : T !! max = Some l).

Lemma per_cpu_init_carries P c st a st' :
  init_closed P max (acpu_l2_level l) → tables_are T L st →
  per_cpu_init plat be max c st = Ok (a, st') → P st → P st'.
Proof.
  intros [Hhw Hsp Hfi Hvo _ _] Ht Hrun HP.
  unfold per_cpu_init in Hrun. run_inv. destruct Ht as [Htbl _].
  match goal with H : st_acpu_freq_tbl _ !! max = Some _ |- _ =>
    rewrite Htbl, HT in H; injection H as <- end.
  refine ((_ : stable _ _) _ _ _ Hrun _); [by apply stable_modify_sc|].
  match goal with Hics : init_clock_sources _ _ _ _ _ = Ok _ |- _ =>
    refine ((_ : stable _ _) _ _ _ Hics HP) end.
  by apply stable_init_clock_sources.
Qed.

Lemma per_cpu_init_sets c st a st' :
  tables_are T L st →
  per_cpu_init plat be max c st = Ok (a, st') →
  sc_field current_speed c (Some (acpu_speed max)) st' ∧
  sc_field first_set_call c true st' ∧
  sc_field l2_vote c (acpu_l2_level l) st'.
Proof.
  intros Ht Hrun. unfold per_cpu_init in Hrun. run_inv.
  destruct Ht as [Htbl _].
  match goal with H : st_acpu_freq_tbl _ !! max = Some _ |- _ =>
    rewrite Htbl, HT in H; injection H as <- end.
  match goal with Hics : init_clock_sources _ _ _ _ _ = Ok _ |- _ =>
    apply init_clock_sources_sets in Hics as [Hsp Hfi] end.
  split; [|split; [|by eapply modify_sc_field]].
  - refine ((_ : stable _ _) _ _ _ Hrun Hsp).
    apply stable_modify_sc, sc_field_sc_closed. by right.
  - refine ((_ : stable _ _) _ _ _ Hrun Hfi).
    apply stable_modify_sc, sc_field_sc_closed. by right.
Qed.

Lemma per_cpu_loop_carries P cpus st a st' :
  init_closed P max (acpu_l2_level l) → tables_are T L st →
  for_each_cpu cpus (per_cpu_init plat be max) st = Ok (a, st') →
  P st → P st'.
Proof.
  intros HP. revert st. induction cpus as [|c rest IH]; intros st Ht Hrun H.
  - simpl in Hrun. by apply ret_inv in Hrun as [_ ->].
  - simpl in Hrun. apply bind_inv in Hrun as ([] & st1 & Hc & Hrun).
    apply (IH st1); [|done|].
    + by apply (per_cpu_init_carries _ c st () st1
                  (tables_are_init_closed T L max _)).
    + by apply (per_cpu_init_carries P c st () st1).
Qed.

Lemma per_cpu_loop_sets cpus st a st' c :
  tables_are T L st →
  for_each_cpu cpus (per_cpu_init plat be max) st = Ok (a, st') →
  c ∈ cpus →
  sc_field current_speed c (Some (acpu_speed max)) st' ∧
  sc_field first_set_call c true st' ∧
  sc_field l2_vote c (acpu_l2_level l) st'.
Proof.
  revert st. induction cpus as [|c0 rest IH]; intros st Ht Hrun Hc;
    [by apply elem_of_nil in Hc|].
  simpl in Hrun. apply bind_inv in Hrun as ([] & st1 & Hc0 & Hrun).
  assert (Ht1 : tables_are T L st1).
  { by apply (per_cpu_init_carries _ c0 st () st1
                (tables_are_init_closed T L max _)). }
  apply elem_of_cons in Hc as [-> | Hc]; [|by apply (IH st1)].
  destruct (per_cpu_init_sets c0 st () st1 Ht Hc0) as (Hsp & Hfi & Hvo).
  split; [|split].
  - by apply (per_cpu_loop_carries _ rest st1 a st'
                (current_speed_init_closed c0 max _)).
  - by apply (per_cpu_loop_carries _ rest st1 a st'
                (first_set_call_init_closed c0 max _)).
  - by apply (per_cpu_loop_carries _ rest st1 a st'
                (l2_vote_init_closed c0 max _)).
Qed.

End Tail.

End Init.

(** The operating points of the plan name entries of the L2 table. *)

Lemma kraitv2_apply_vmin_same_clock tbl :
  Forall2 (λ l l', speed l' = speed l ∧ acpu_l2_level l' = acpu_l2_level l)
    tbl (kraitv2_apply_vmin tbl).
Proof.
  induction tbl as [|l rest IH]; simpl; [constructor|].
  destruct (khz (speed l) =? 0).
  - apply Forall2_same_length_lookup_2; [done|].
    intros i x y Hx Hy. rewrite Hx in Hy. by injection Hy as <-.
  - constructor; [|exact IH]. by destruct (vdd_core l <? MIN_VDD_SC).
Qed.

Lemma mark_not_supported_same_clock tbl :
  Forall2 (λ l l', speed l' = speed l ∧ acpu_l2_level l' = acpu_l2_level l)
    tbl (mark_not_supported tbl).
Proof.
  induction tbl as [|l rest IH]; simpl; [constructor|].
  destruct (khz (speed l) =? 0).
  - apply Forall2_same_length_lookup_2; [done|].
    intros i x y Hx Hy. rewrite Hx in Hy. by injection Hy as <-.
  - by constructor.
Qed.

Lemma apply_acpu_max_freq_same_clock m tbl :
  Forall2 (λ l l', speed l' = speed l ∧ acpu_l2_level l' = acpu_l2_level l)
    tbl (apply_acpu_max_freq m tbl).
Proof.
  induction tbl as [|l rest IH]; simpl; [constructor|].
  destruct (khz (speed l) =? 0).
  - apply Forall2_same_length_lookup_2; [done|].
    intros i x y Hx Hy. rewrite Hx in Hy. by injection Hy as <-.
  - destruct (khz (speed l) =? m).
    + constructor; [done | apply mark_not_supported_same_clock].
    + by constructor.
Qed.

Lemma select_pvs_table_levels h p l :
  l ∈ table_entries (select_pvs_table h p) →
  ∃ j, acpu_l2_level l = Some j ∧
       (j < length l2_freq_tbl_8960_kraitv2)%nat.
Proof.
  destruct (select_pvs_table_cases h p) as [-> | [-> | ->]].
  all: intros Hl; vm_compute in Hl.
  all: repeat (apply elem_of_cons in Hl as [-> | Hl];
               [eexists; split; [reflexivity | vm_compute; lia]|]).
  all: by apply elem_of_nil in Hl.
Qed.

Lemma select_freq_plan_sound h p plan :
  select_freq_plan h p = Ok plan →
  (∃ l, plan_acpu_freq_tbl plan !! plan_max_acpu_level plan = Some l ∧
        l ∈ table_entries (plan_acpu_freq_tbl plan) ∧
        khz (speed l) = 2160000) ∧
  ∀ e, e ∈ table_entries (plan_acpu_freq_tbl plan) →
       ∃ j, acpu_l2_level e = Some j ∧
            (j < length l2_freq_tbl_8960_kraitv2)%nat.
Proof.
  unfold select_freq_plan.
  destruct (cpu_is_msm8960 p); [|done].
  destruct (cpu_is_krait_v1 p); [done|].
  set (tbl := if negb (acpu_max_freq p =? 0) then _ else _).
  assert (Hlev : ∀ e, e ∈ table_entries tbl →
            ∃ j, acpu_l2_level e = Some j ∧
                 (j < length l2_freq_tbl_8960_kraitv2)%nat).
  { subst tbl.
    assert (Hv : ∀ e,
              e ∈ table_entries
                    (if krait_needs_vmin p
                     then kraitv2_apply_vmin (select_pvs_table h p)
                     else select_pvs_table h p) →
              ∃ j, acpu_l2_level e = Some j ∧
                   (j < length l2_freq_tbl_8960_kraitv2)%nat).
    { destruct (krait_needs_vmin p); [|apply select_pvs_table_levels].
      apply (same_clock_levels
               (λ o, ∃ j, o = Some j ∧
                          (j < length l2_freq_tbl_8960_kraitv2)%nat)
               _ _ (kraitv2_apply_vmin_same_clock _)).
      apply select_pvs_table_levels. }
    destruct (negb (acpu_max_freq p =? 0)); [|exact Hv].
    by apply (same_clock_levels
                (λ o, ∃ j, o = Some j ∧
                           (j < length l2_freq_tbl_8960_kraitv2)%nat)
                _ _ (apply_acpu_max_freq_same_clock _ _)). }
  destruct (find_max_acpu_level tbl 0 None) as [i|] eqn:Hfind; [|done].
  destruct (tbl !! i) as [l|] eqn:Hl; [|done].
  intros [= <-]. simpl. split; [|exact Hlev].
  apply find_max_acpu_level_Some in Hfind as [? | (l' & _ & Hl' & Hin & Hk)];
    [done|].
  rewrite Nat.sub_0_r, Hl in Hl'. injection Hl' as <-.
  exists l. split; [done|]. split; [|done]. by apply usable_levels_entries.
Qed.

Section InitResult.

Context (plat : platform) (be : backend).

(** X25: initialisation leaves a driver that runs: when [acpuclk_8960_init]
    returns on a machine whose present CPUs are CPUs of the [scalable]
    array, it returns 0, the pointers of the state are sound, and every
    online CPU runs at 2160000 kHz with [first_set_call] set. *)
Theorem init_is_well_formed (h : headers) (l2i io : Z → Z) (rc : Z)
    (st : state) :
  acpuclk_8960_init plat be h l2i io = Ok (rc, st) →
  (∀ cpu, cpu ∈ cpu_present_mask plat → is_cpu cpu) →
  rc = 0 ∧ well_formed plat st ∧
  ∀ cpu, cpu ∈ cpu_online_mask plat →
         acpuclk_8960_get_rate cpu st = Ok (2160000, st) ∧
         sc_field first_set_call cpu true st.
Proof.
  unfold acpuclk_8960_init.
  destruct (select_freq_plan h plat) as [plan|] eqn:Hplan; [|done].
  apply select_freq_plan_sound in Hplan as [(l & Hl & Hin & Hkhz) Hlev].
  set (T := plan_acpu_freq_tbl plan) in *.
  set (L := l2_freq_tbl_8960_kraitv2) in *.
  set (max := plan_max_acpu_level plan) in *.
  intros Hrun Hpres.
  assert (Ht0 : tables_are T L (plan_state h plan l2i io)) by done.
  assert (Hv0 : ∀ c, is_cpu c →
            sc_field l2_vote c None (plan_state h plan l2i io)).
  { unfold is_cpu, L2. intros c Hc.
    assert (c = 0 ∨ c = 1 ∨ c = 2 ∨ c = 3) as [->|[->|[->| ->]]] by lia;
      reflexivity. }
  remember (plan_state h plan l2i io) as st0 eqn:Hst0. clear Hst0.
  run_inv.
  match goal with
  | Hd : st_acpu_freq_tbl st0 !! max = Some ?l0,
    Hj : acpu_l2_level ?l0 = Some ?j,
    Hics : init_clock_sources _ _ _ _ st0 = Ok (_, ?st1),
    Hloop : for_each_cpu _ _ ?st1 = Ok (_, ?st2),
    Hreg : regulator_init _ _ ?st2 = Ok (_, ?st3),
    Hbus : bus_init _ _ ?st3 = Ok (_, ?st4) |- _ =>
      rename Hd into Hl0, Hj into Hlj, Hics into Hrun1, Hloop into Hrun2,
        Hreg into Hrun3, Hbus into Hrun4, j into lj, st1 into s1,
        st2 into s2, st3 into s3, st4 into st
  end.
  assert (a0 = l) as ->.
  { destruct Ht0 as [Ht0 _]. rewrite Ht0 in Hl0. congruence. }
  clear Hl0.
  destruct (Hlev l Hin) as (lj' & Hlj' & Hlen).
  assert (lj' = lj) as -> by congruence. clear Hlj'.
  (* the L2 has its clock source *)
  assert (Ht1 : tables_are T L s1).
  { refine ((_ : stable _ _) _ _ _ Hrun1 Ht0).
    apply stable_init_clock_sources; eauto with stable. }
  assert (Hv1 : ∀ c, is_cpu c → sc_field l2_vote c None s1).
  { intros c Hc. refine ((_ : stable _ _) _ _ _ Hrun1 (Hv0 c Hc)).
    apply stable_init_clock_sources; [eauto with stable|..];
      apply sc_field_sc_closed; by right. }
  apply init_clock_sources_sets in Hrun1 as [Hsp1 _].
  (* what survives the rest *)
  assert (Htail : ∀ P, init_closed P max (acpu_l2_level l) → P s1 → P st).
  { intros P HP H1.
    refine ((_ : stable _ _) _ _ _ Hrun4 _); [by eapply stable_bus_init|].
    refine ((_ : stable _ _) _ _ _ Hrun3 _);
      [by eapply stable_regulator_init|].
    by eapply per_cpu_loop_carries. }
  assert (Honl : ∀ c, c ∈ cpu_online_mask plat →
            sc_field current_speed c (Some (acpu_speed max)) st ∧
            sc_field first_set_call c true st).
  { intros c Hc.
    destruct (per_cpu_loop_sets plat be T L max l Hl _ _ _ _ c Ht1 Hrun2 Hc)
      as (Hsp & Hfi & _).
    split.
    - refine ((_ : stable _ _) _ _ _ Hrun4 _);
        [apply (stable_bus_init plat be _ max None), current_speed_init_closed|].
      refine ((_ : stable _ _) _ _ _ Hrun3 Hsp).
      apply (stable_regulator_init plat be _ max None), current_speed_init_closed.
    - refine ((_ : stable _ _) _ _ _ Hrun4 _);
        [apply (stable_bus_init plat be _ max None), first_set_call_init_closed|].
      refine ((_ : stable _ _) _ _ _ Hrun3 Hfi).
      apply (stable_regulator_init plat be _ max None), first_set_call_init_closed. }
  pose proof (Htail _ (tables_are_init_closed T L max _) Ht1) as [HtT HtL].
  assert (Hmax : speed_at st (Some (acpu_speed max)) = Some (speed l)).
  { unfold speed_at. by rewrite HtT, Hl. }
  split; [done|]. split.
  - split; [|split; [|split; [|split]]].
    + by rewrite HtT, HtL.
    + rewrite HtL. vm_compute. lia.
    + destruct (Htail _ (speed_or_init_closed L2 (Some (l2_speed_ptr lj))
                           max _) (or_introl Hsp1)) as [H | H];
        apply sc_field_lookup in H as (s & Hs & Hcur);
        exists s; (split; [done|]); unfold speed_ok; rewrite Hcur.
      * unfold speed_at. rewrite HtL.
        destruct (lookup_lt_is_Some_2 L lj Hlen) as [x ->]. by eexists.
      * by eexists.
    + intros c Hc.
      destruct (Htail _ (vote_or_init_closed c None max _)
                  (or_introl (Hv1 c (Hpres c Hc)))) as [H | H];
        apply sc_field_lookup in H as (s & Hs & Hvote);
        exists s; (split; [done|]); intros j Hj; rewrite Hvote in Hj.
      * done.
      * rewrite HtL. by assert (j = lj) as -> by congruence.
    + intros c Hc. destruct (Honl c Hc) as [H _].
      apply sc_field_lookup in H as (s & Hs & Hcur).
      exists s. split; [done|]. unfold speed_ok. rewrite Hcur. by eexists.
  - intros c Hc. destruct (Honl c Hc) as [H Hfi]. split; [|done].
    apply sc_field_lookup in H as (s & Hs & Hcur).
    rewrite <- Hkhz. apply (get_rate_run c st s); [done|]. by rewrite Hcur.
Qed.

End InitResult.

(** ** What a transition reports *)

Lemma calls_only_none st0 st :
  calls_only (λ _, False) st0 st → st_trace st = st_trace st0.
Proof.
  intros (seg & Ht & Hseg). destruct seg as [|x seg]; [by rewrite app_nil_r in Ht|].
  by apply Forall_cons in Hseg as [[] _].
Qed.

Ltac calls_frame :=
  unfold_engine; simpl; repeat frame_step;
  try apply stable_max_l2_vote_any; calls_leaf.

Ltac vreg_frame :=
  unfold_engine; simpl; repeat frame_step;
  try apply stable_max_l2_vote_any; sc_same_leaf.

Section Reported.

Context (plat : platform) (be : backend).

(** The course of a transition for the reason [SETRATE_CPUFREQ] or
    [SETRATE_HOTPLUG] that finds its target: unless it is skipped, it runs
    [increase_vdd] on the entries it found; a refusal there ends it with
    that code, and otherwise it goes on, with the voltage fields untouched,
    to [decrease_vdd], whose end is the end of the trace, and returns 0. *)
Lemma set_rate_outline cpu rate reason st rc st2 i tgt vm vd s strt :
  takes_driver_lock reason = true →
  (u32 cpu >? num_possible_cpus plat) = false →
  sc_lookup (st_scalable st) cpu = Some s →
  speed_at st (current_speed s) = Some strt →
  (rate =? khz strt) && negb (first_set_call s) = false →
  find_tgt (st_acpu_freq_tbl st) rate 0 = Some (i, tgt) →
  calculate_vdd_mem (st_l2_freq_tbl st) tgt = Some vm →
  calculate_vdd_dig (st_l2_freq_tbl st) tgt = Some vd →
  acpuclk_8960_set_rate plat be cpu rate reason st = Ok (rc, st2) →
  ∃ stX stY,
    st_scalable stX = st_scalable st ∧ st_trace stX = st_trace st ∧
    increase_vdd be cpu (calculate_vdd_core tgt) vm vd reason stX
    = Ok (rc, stY) ∧
    ((rc ≠ 0 ∧ st_trace st2 = st_trace stY ∧ sc_same sc_vreg stY st2) ∨
     (rc = 0 ∧ ∃ stD stE,
        calls_only (λ _, True) stY stD ∧ sc_same sc_vreg stY stD ∧
        decrease_vdd be cpu (calculate_vdd_core tgt) vm vd reason stD
        = Ok (tt, stE) ∧
        st_trace st2 = st_trace stE ∧ sc_same sc_vreg stE st2)).
Proof.
  intros Hlock Hcpu Hs Hstrt Hskip Hfind Hvm Hvd Hrun.
  unfold acpuclk_8960_set_rate in Hrun. run_inv.
  all: repeat match goal with
       | H : set_acpuclk_foot_print _ 1 _ = Ok _ |- _ => fp_inv H
       | H : set_acpuclk_foot_print _ 2 _ = Ok _ |- _ => fp_inv H
       end.
  all: simpl in *.
  all: try congruence.
  all: simplify_eq.
  all: try (exfalso; unfold speed_at in *; simpl in *; congruence).
  all: try (exfalso; destruct reason; simpl in *; discriminate).
  all: prep_branch.
  all: repeat match goal with u : () |- _ => destruct u end.
  all: match goal with
       | Hinc : increase_vdd _ _ _ _ _ _ _ = Ok (_, ?Y) |- _ =>
           pose proof (calls_only_refl (λ _, True) Y) as HcY;
           pose proof (calls_only_refl (λ _, False) Y) as HnY;
           pose proof (sc_same_refl sc_vreg Y) as HvY
       end.
  all: try match goal with
       | Hdec : decrease_vdd _ _ _ _ _ _ _ = Ok (_, ?E) |- _ =>
           pose proof (calls_only_refl (λ _, False) E) as HnE;
           pose proof (sc_same_refl sc_vreg E) as HvE
       end.
  all: carry_by calls_frame.
  all: carry_by vreg_frame.
  all: match goal with
       | Hinc : increase_vdd _ _ _ _ _ _ ?X = Ok (_, ?Y) |- _ =>
           exists X, Y; split; [reflexivity|]; split; [reflexivity|];
           split; [exact Hinc|]
       end.
  all: first
    [ match goal with
      | Hdec : decrease_vdd _ _ _ _ _ _ ?D = Ok (_, ?E) |- _ =>
          right; split; [reflexivity|]; exists D, E;
          split; [assumption|]; split; [assumption|];
          split; [exact Hdec|]; split; [by apply calls_only_none | assumption]
      end
    | left; split; [assumption|]; split; [by apply calls_only_none | assumption] ].
Qed.
(** C4, as the code has it: every step of the rail sequencer issues its
    call exactly when the requested value exceeds (increase) or falls below
    (decrease) the cached one, the core rail is not driven for the hotplug
    reason, and no earlier call of the run was refused; the cached value
    becomes the requested one when the call is accepted and stays otherwise;
    a refused call of the increase path is returned to the caller, while the
    decrease path returns nothing.  In [acpuclk_8960_set_rate], for a
    transition that takes the driver lock and is not skipped: the first
    calls are those of [increase_vdd]; a refusal among them ends the
    transition, which returns that code; when none is refused the transition
    goes on to the clock switch and the bandwidth request, its last calls
    are those of [decrease_vdd], in the order core, dig, mem, and it returns
    0 whether or not one of them was refused. *)
Theorem rail_sequencer_steps cpu vc vm vd reason st s :
  sc_lookup (st_scalable st) cpu = Some s →
  (∃ rc st' s' mem dig core,
      increase_vdd be cpu vc vm vd reason st = Ok (rc, st') ∧
      sc_lookup (st_scalable st') cpu = Some s' ∧
      st_trace st' = st_trace st ++ mem ++ dig ++ core ∧
      spec_step_outcome (cached s VREG_MEM < vm) (rail_call s VREG_MEM vm)
        (cached s VREG_MEM) vm [] mem (cached s' VREG_MEM) ∧
      spec_step_outcome (cached s VREG_DIG < vd) (rail_call s VREG_DIG vd)
        (cached s VREG_DIG) vd mem dig (cached s' VREG_DIG) ∧
      spec_step_outcome (cached s VREG_CORE < vc ∧ reason ≠ SETRATE_HOTPLUG)
        (rail_call s VREG_CORE vc)
        (cached s VREG_CORE) vc (mem ++ dig) core (cached s' VREG_CORE) ∧
      reports (mem ++ dig ++ core) rc) ∧
  (∃ st' s' core dig mem,
      decrease_vdd be cpu vc vm vd reason st = Ok (tt, st') ∧
      sc_lookup (st_scalable st') cpu = Some s' ∧
      st_trace st' = st_trace st ++ core ++ dig ++ mem ∧
      spec_step_outcome (vc < cached s VREG_CORE ∧ reason ≠ SETRATE_HOTPLUG)
        (rail_call s VREG_CORE vc)
        (cached s VREG_CORE) vc [] core (cached s' VREG_CORE) ∧
      spec_step_outcome (vd < cached s VREG_DIG) (rail_call s VREG_DIG vd)
        (cached s VREG_DIG) vd core dig (cached s' VREG_DIG) ∧
      spec_step_outcome (vm < cached s VREG_MEM) (rail_call s VREG_MEM vm)
        (cached s VREG_MEM) vm (core ++ dig) mem (cached s' VREG_MEM)) ∧
  (∀ rate i tgt strt rc st2,
      (u32 cpu >? num_possible_cpus plat) = false →
      reason = SETRATE_CPUFREQ ∨ reason = SETRATE_HOTPLUG →
      speed_at st (current_speed s) = Some strt →
      (khz strt = rate → first_set_call s = true) →
      find_tgt (st_acpu_freq_tbl st) rate 0 = Some (i, tgt) →
      calculate_vdd_core tgt = vc →
      calculate_vdd_mem (st_l2_freq_tbl st) tgt = Some vm →
      calculate_vdd_dig (st_l2_freq_tbl st) tgt = Some vd →
      acpuclk_8960_set_rate plat be cpu rate reason st = Ok (rc, st2) →
      ∃ s1 mem dig core,
        spec_step_outcome (cached s VREG_MEM < vm) (rail_call s VREG_MEM vm)
          (cached s VREG_MEM) vm [] mem (cached s1 VREG_MEM) ∧
        spec_step_outcome (cached s VREG_DIG < vd) (rail_call s VREG_DIG vd)
          (cached s VREG_DIG) vd mem dig (cached s1 VREG_DIG) ∧
        spec_step_outcome (cached s VREG_CORE < vc ∧ reason ≠ SETRATE_HOTPLUG)
          (rail_call s VREG_CORE vc)
          (cached s VREG_CORE) vc (mem ++ dig) core (cached s1 VREG_CORE) ∧
        reports (mem ++ dig ++ core) rc ∧
        ((rc ≠ 0 ∧
          st_trace st2 = st_trace st ++ mem ++ dig ++ core ∧
          sc_field sc_vreg cpu (sc_vreg s1) st2) ∨
         (rc = 0 ∧
          ∃ s2 mid core' dig' mem',
            st_trace st2
            = st_trace st ++ (mem ++ dig ++ core) ++ mid
                ++ core' ++ dig' ++ mem' ∧
            spec_step_outcome
              (vc < cached s1 VREG_CORE ∧ reason ≠ SETRATE_HOTPLUG)
              (rail_call s VREG_CORE vc)
              (cached s1 VREG_CORE) vc [] core' (cached s2 VREG_CORE) ∧
            spec_step_outcome (vd < cached s1 VREG_DIG)
              (rail_call s VREG_DIG vd)
              (cached s1 VREG_DIG) vd core' dig' (cached s2 VREG_DIG) ∧
            spec_step_outcome (vm < cached s1 VREG_MEM)
              (rail_call s VREG_MEM vm)
              (cached s1 VREG_MEM) vm (core' ++ dig') mem'
              (cached s2 VREG_MEM) ∧
            sc_field sc_vreg cpu (sc_vreg s2) st2))).
Proof.
  intros Hs. split; [|split].
  - destruct (increase_vdd_outcome be cpu vc vm vd reason st s Hs)
      as (rc & st' & Hrun & s' & mem & dig & core & H).
    by exists rc, st', s', mem, dig, core.
  - destruct (decrease_vdd_outcome be cpu vc vm vd reason st s Hs)
      as ([] & st' & Hrun & s' & core & dig & mem & H).
    by exists st', s', core, dig, mem.
  - intros rate i tgt strt rc st2 Hcpu Hreason Hstrt Hfirst Hfind Hvc Hvm Hvd
      Hrun.
    subst vc.
    assert (Hlock : takes_driver_lock reason = true)
      by (by destruct Hreason as [-> | ->]).
    assert (Hskip : (rate =? khz strt) && negb (first_set_call s) = false).
    { destruct (rate =? khz strt) eqn:E; [|done].
      apply Z.eqb_eq in E. by rewrite Hfirst. }
    destruct (set_rate_outline cpu rate reason st rc st2 i tgt vm vd s strt
                Hlock Hcpu Hs Hstrt Hskip Hfind Hvm Hvd Hrun)
      as (stX & stY & Hsc & Htr & Hinc & Hcases).
    assert (HsX : sc_lookup (st_scalable stX) cpu = Some s)
      by (by rewrite Hsc).
    destruct (increase_vdd_outcome be cpu (calculate_vdd_core tgt) vm vd reason stX s HsX)
      as (rc' & st' & Hrun' & s1 & mem & dig & core & Hs1 & Ht & Hm & Hd
          & Hc & Hrep).
    rewrite Hinc in Hrun'. injection Hrun' as <- <-.
    pose proof (sc_same_refl
                  (λ x, (rail_call x VREG_CORE, rail_call x VREG_DIG,
                         rail_call x VREG_MEM)) stX) as Hids.
    carry_by rails_frame.
    match goal with
    | H : sc_same _ stX stY |- _ =>
        specialize (H cpu); rewrite Hs1, HsX in H; simpl in H;
        injection H as Hrc Hrd Hrm
    end.
    exists s1, mem, dig, core. do 4 (split; [done|]).
    destruct Hcases
      as [(Hne & Ht2 & Hv2)
         | (-> & stD & stE & (mid & Htm & _) & HvD & Hdec & Ht2 & Hv2)].
    + left. split; [done|]. split; [by rewrite Ht2, Ht, Htr|].
      unfold sc_field. by rewrite (Hv2 cpu), Hs1.
    + right. split; [done|].
      pose proof (HvD cpu) as HD. rewrite Hs1 in HD.
      destruct (sc_lookup (st_scalable stD) cpu) as [sD|] eqn:HsD; [|done].
      simpl in HD. injection HD as HD.
      destruct (decrease_vdd_outcome be cpu (calculate_vdd_core tgt) vm vd reason stD sD HsD)
        as ([] & st'' & Hrun'' & s2 & core' & dig' & mem' & Hs2 & Ht'
            & Hc' & Hd' & Hm').
      rewrite Hdec in Hrun''. injection Hrun'' as <-.
      assert (HcD : cached sD = cached s1)
        by (unfold cached; by rewrite HD).
      rewrite HcD in Hc', Hd', Hm'.
      assert (HrD : ∀ r v, rail_call sD r v = rail_call s1 r v)
        by (intros r v; unfold rail_call; by rewrite HD).
      rewrite !HrD in Hc', Hd', Hm'.
      rewrite (f_equal (λ f, f (calculate_vdd_core tgt)) Hrc : _ = _) in Hc'.
      rewrite (f_equal (λ f, f vd) Hrd : _ = _) in Hd'.
      rewrite (f_equal (λ f, f vm) Hrm : _ = _) in Hm'.
      exists s2, mid, core', dig', mem'.
      split; [by rewrite Ht2, Ht', Htm, Ht, Htr, <- !app_assoc|].
      do 3 (split; [done|]).
      unfold sc_field. by rewrite (Hv2 cpu), Hs2.
Qed.

End Reported.

(** ** The vote that a transition applies *)


Section VoteApplied.

Context (plat : platform) (be : backend).






End VoteApplied.

(** ** The further properties on the concrete machine *)

Lemma apply_acpu_max_freq_found_witness :
  apply_acpu_max_freq 1512000
    (take 22 acpu_freq_tbl_8960_fusion_slow
     ++ AL 1 (CS 1512000 HFPLL 1 0 0x38) (L2_ 18) 1250000
     :: drop 23 acpu_freq_tbl_8960_fusion_slow)
  = take 22 acpu_freq_tbl_8960_fusion_slow
    ++ AL 1 (CS 1512000 HFPLL 1 0 0x38) (L2_ 18) 1250000
    :: mark_not_supported (drop 23 acpu_freq_tbl_8960_fusion_slow).
Proof.
  apply (apply_acpu_max_freq_found 1512000
           (take 22 acpu_freq_tbl_8960_fusion_slow)
           (AL 1 (CS 1512000 HFPLL 1 0 0x38) (L2_ 18) 1250000)
           (drop 23 acpu_freq_tbl_8960_fusion_slow)).
  - apply (bool_decide_unpack _). vm_compute. exact I.
  - reflexivity.
  - discriminate.
Defined.

Lemma apply_acpu_max_freq_absent_witness :
  apply_acpu_max_freq 1000000 acpu_freq_tbl_8960_fusion_slow
  = acpu_freq_tbl_8960_fusion_slow.
Proof.
  apply (apply_acpu_max_freq_absent 1000000 acpu_freq_tbl_8960_fusion_slow).
  apply Forall_forall. apply (bool_decide_unpack _). vm_compute. exact I.
Defined.

Lemma apply_acpu_max_freq_caps_witness :
  AL 1 (CS 1674000 HFPLL 1 0 0x3A) (L2_ 18) 1275000
    ∈ usable_levels (apply_acpu_max_freq 1512000 acpu_freq_tbl_8960_fusion_slow)
  ↔ AL 1 (CS 1674000 HFPLL 1 0 0x3A) (L2_ 18) 1275000
      ∈ usable_levels acpu_freq_tbl_8960_fusion_slow ∧
    khz (speed (AL 1 (CS 1674000 HFPLL 1 0 0x3A) (L2_ 18) 1275000)) ≤ 1512000.
Proof.
  apply (apply_acpu_max_freq_caps 1512000 acpu_freq_tbl_8960_fusion_slow
           (AL 1 (CS 1512000 HFPLL 1 0 0x38) (L2_ 18) 1250000)).
  - reflexivity.
  - apply (list_elem_of_lookup_2 _ 22). reflexivity.
  - reflexivity.
Defined.

Lemma select_freq_plan_boot_level_witness :
  ∃ l, acpu_freq_tbl_8960_fusion_slow !! 28%nat = Some l ∧
       l ∈ usable_levels acpu_freq_tbl_8960_fusion_slow ∧
       khz (speed l) = 2160000 ∧
       1350000 = vdd_core l.
Proof.
  destruct (select_freq_plan_boot_level hdr_8960 plat_8960
              {| plan_acpu_freq_tbl := acpu_freq_tbl_8960_fusion_slow;
                 plan_max_acpu_level := 28;
                 plan_max_vdd := 1350000 |})
    as (_ & _ & H).
  - vm_compute. reflexivity.
  - exact H.
Defined.

Lemma acpuclk_set_vdd_wraps_witness :
  ∃ st',
    acpuclk_set_vdd 0 (-1000000) (boot_8960 be_ok) = Ok (tt, st') ∧
    table_entries (drop 1 (st_acpu_freq_tbl st')) !! 0%nat
    = Some (set_vdd_core (AL 1 (CS 192000 PLL_8 0 2 0x00) (L2_ 1) 900000)
              MAX_VDD_SC).
Proof.
  apply (acpuclk_set_vdd_wraps 0 (-1000000) (boot_8960 be_ok) 0
           (AL 1 (CS 192000 PLL_8 0 2 0x00) (L2_ 1) 900000)).
  - vm_compute. reflexivity.
  - simpl. lia.
  - lia.
  - left. simpl. lia.
Defined.

Lemma cpufreq_frequencies_are_found_witness :
  index {| index := 12; frequency := 1512000 |} = Z.of_nat 12 ∧
  ∃ i tgt,
    find_tgt acpu_freq_tbl_8960_fusion_slow
      (frequency {| index := 12; frequency := 1512000 |}) 0 = Some (i, tgt) ∧
    khz (speed tgt) = frequency {| index := 12; frequency := 1512000 |}.
Proof.
  eapply (cpufreq_frequencies_are_found acpu_freq_tbl_8960_fusion_slow _ 12).
  - vm_compute. reflexivity.
  - reflexivity.
  - simpl. lia.
Defined.

Lemma acpuclk_UV_mV_table_fills_witness :
  acpuclk_UV_mV_table_tbl 3 [1000; 950; 900] acpu_freq_tbl_8960_fusion_slow
  = Some (take 1 acpu_freq_tbl_8960_fusion_slow
          ++ zip_with UV_mV_entry
               (if 1000 <? 900 then take (Z.to_nat 3) [1000; 950; 900]
                else reverse (take (Z.to_nat 3) [1000; 950; 900]))
               (take (Z.to_nat 3) (drop 1 acpu_freq_tbl_8960_fusion_slow))
          ++ drop (S (Z.to_nat 3)) acpu_freq_tbl_8960_fusion_slow).
Proof.
  apply (acpuclk_UV_mV_table_fills 3 [1000; 950; 900]
           acpu_freq_tbl_8960_fusion_slow 1000 900).
  - simpl. lia.
  - simpl. lia.
  - reflexivity.
  - reflexivity.
Defined.

Lemma acpuclk_UV_mV_table_range_witness :
  Forall2 revolted (st_acpu_freq_tbl (boot_8960 be_ok))
    (st_acpu_freq_tbl (revolted_8960 be_ok)) ∧
  st_acpu_freq_tbl (revolted_8960 be_ok) !! 0%nat
  = st_acpu_freq_tbl (boot_8960 be_ok) !! 0%nat ∧
  revolted_8960 be_ok
  = set_acpu_freq_tbl (st_acpu_freq_tbl (revolted_8960 be_ok))
      (boot_8960 be_ok).
Proof.
  apply (acpuclk_UV_mV_table_range 3 [300; 950; 2000]).
  vm_compute. reflexivity.
Defined.

Lemma set_pri_clk_src_selects_witness :
  ∃ st',
    set_pri_clk_src 0 PRI_SRC_SEL_SEC_SRC (boot_8960 be_ok) = Ok (tt, st') ∧
    get_pri_clk_src 0 st' = Ok (Z.land PRI_SRC_SEL_SEC_SRC 3, st').
Proof.
  destruct (set_pri_clk_src_selects 0 PRI_SRC_SEL_SEC_SRC (boot_8960 be_ok)
              (sc_of (boot_8960 be_ok) 0))
    as (st' & Hset & Hget & _).
  - vm_compute. reflexivity.
  - exists st'. split; [exact Hset | exact Hget].
Defined.

Lemma set_sec_clk_src_selects_witness :
  ∃ st',
    set_sec_clk_src 0 SEC_SRC_SEL_QSB (boot_8960 be_ok) = Ok (tt, st') ∧
    get_sec_clk_src 0 st' = Ok (Z.land SEC_SRC_SEL_QSB 3, st').
Proof.
  destruct (set_sec_clk_src_selects 0 SEC_SRC_SEL_QSB (boot_8960 be_ok)
              (sc_of (boot_8960 be_ok) 0))
    as (st' & Hset & Hget & _).
  - vm_compute. reflexivity.
  - exists st'. split; [exact Hset | exact Hget].
Defined.

Lemma idle_transition_spares_rails_witness :
  calls_only (hfpll_votes_of (boot_8960 be_ok) 0) (boot_8960 be_ok)
    (idle_8960 be_ok) ∧
  sc_same sc_vreg (boot_8960 be_ok) (idle_8960 be_ok) ∧
  sc_same first_set_call (boot_8960 be_ok) (idle_8960 be_ok) ∧
  calls_only
    (λ c, ¬ rail_request (boot_8960 be_ok) (cpu_present_mask plat_8960) c)
    (boot_8960 be_ok) (idle_8960 be_ok).
Proof.
  destruct (idle_transition_spares_rails plat_8960 be_ok 0 STBY_KHZ
              SETRATE_SWFI (boot_8960 be_ok) 0 (idle_8960 be_ok))
    as (Hc & Hv & Hf & Hr).
  - left. reflexivity.
  - vm_compute. reflexivity.
  - split; [exact Hc | split; [exact Hv | split; [exact Hf |]]].
    apply Hr. vm_compute. reflexivity.
Defined.

Lemma hotplug_transition_spares_core_witness :
  calls_only (λ c, ¬ core_regulator_call c) (at_1512_8960 be_ok)
    (cpu1_standby be_ok) ∧
  sc_same (λ s, cur_vdd (sc_vreg s VREG_CORE)) (at_1512_8960 be_ok)
    (cpu1_standby be_ok).
Proof.
  apply (hotplug_transition_spares_core plat_8960 be_ok 1 STBY_KHZ
           (at_1512_8960 be_ok) 0).
  vm_compute. reflexivity.
Defined.

Lemma failed_transition_keeps_clocks_witness :
  regs_same (at_384_8960 be_ok) (refused_8960 be_ok) ∧
  sc_same current_speed (at_384_8960 be_ok) (refused_8960 be_ok) ∧
  sc_same l2_vote (at_384_8960 be_ok) (refused_8960 be_ok) ∧
  sc_same first_set_call (at_384_8960 be_ok) (refused_8960 be_ok) ∧
  tables_are (st_acpu_freq_tbl (at_384_8960 be_ok))
    (st_l2_freq_tbl (at_384_8960 be_ok)) (refused_8960 be_ok).
Proof.
  apply (failed_transition_keeps_clocks plat_8960 be_refuse 0 1512000
           SETRATE_CPUFREQ (at_384_8960 be_ok) (- EINVAL)).
  - vm_compute. reflexivity.
  - discriminate.
Defined.

Lemma transition_voltages_cover_witness :
  ∃ i tgt vdd_mem_ vdd_dig_ s',
    find_tgt (st_acpu_freq_tbl (boot_8960 be_ok)) 1512000 0 = Some (i, tgt) ∧
    calculate_vdd_mem (st_l2_freq_tbl (boot_8960 be_ok)) tgt = Some vdd_mem_ ∧
    calculate_vdd_dig (st_l2_freq_tbl (boot_8960 be_ok)) tgt = Some vdd_dig_ ∧
    sc_lookup (st_scalable (at_1512_8960 be_ok)) 0 = Some s' ∧
    vdd_mem_ ≤ cached s' VREG_MEM ∧
    vdd_dig_ ≤ cached s' VREG_DIG ∧
    (SETRATE_CPUFREQ = SETRATE_CPUFREQ →
     calculate_vdd_core tgt ≤ cached s' VREG_CORE).
Proof.
  apply (transition_voltages_cover plat_8960 be_ok 0 1512000 SETRATE_CPUFREQ
           (boot_8960 be_ok) (at_1512_8960 be_ok) (sc_of (boot_8960 be_ok) 0)).
  - reflexivity.
  - vm_compute. reflexivity.
  - vm_compute. reflexivity.
  - right. intros cs Hcs.
    vm_compute in Hcs. injection Hcs as <-. discriminate.
Defined.

Lemma set_speed_programs_hfpll_witness :
  ∃ st',
    set_speed plat_8960 be_ok 0 (acpu_speed 22) SETRATE_CPUFREQ
      (boot_8960 be_ok) = Ok (tt, st') ∧
    st_iomem st' (hfpll_base (sc_of (boot_8960 be_ok) 0) + HFPLL_MODE) = 7 ∧
    st_iomem st' (hfpll_base (sc_of (boot_8960 be_ok) 0) + HFPLL_L_VAL) = 0x38.
Proof.
  destruct (set_speed_programs_hfpll plat_8960 be_ok 0 (acpu_speed 22)
              SETRATE_CPUFREQ (boot_8960 be_ok) (sc_of (boot_8960 be_ok) 0)
              (CS 2160000 HFPLL 1 0 0x40) (CS 1512000 HFPLL 1 0 0x38))
    as (st' & Hrun & _ & Hpll & _).
  - vm_compute. reflexivity.
  - vm_compute. reflexivity.
  - vm_compute. reflexivity.
  - vm_compute. discriminate.
  - exists st'. split; [exact Hrun | exact (Hpll eq_refl)].
Defined.

Lemma set_speed_selects_sources_witness :
  ∃ st',
    set_speed plat_8960 be_ok 0 (acpu_speed 1) SETRATE_CPUFREQ
      (boot_8960 be_ok) = Ok (tt, st') ∧
    get_pri_clk_src 0 st' = Ok (PRI_SRC_SEL_SEC_SRC, st') ∧
    get_sec_clk_src 0 st' = Ok (SEC_SRC_SEL_AUX, st').
Proof.
  destruct (set_speed_selects_sources plat_8960 be_ok 0 (acpu_speed 1)
              SETRATE_CPUFREQ (boot_8960 be_ok) (sc_of (boot_8960 be_ok) 0)
              (CS 2160000 HFPLL 1 0 0x40) (CS 192000 PLL_8 0 2 0x00))
    as (st' & pri & sec & Hrun & Hpri & Hsec & Hp & _ & Hq & _).
  - vm_compute. reflexivity.
  - vm_compute. reflexivity.
  - vm_compute. reflexivity.
  - vm_compute. discriminate.
  - left. discriminate.
  - exists st'. split; [exact Hrun|].
    rewrite Hpri, Hsec, (Hp (or_introl eq_refl)), Hq by discriminate.
    split; reflexivity.
Defined.

Lemma set_speed_hotplug_spares_mux_witness :
  ∃ st',
    set_speed plat_8960 be_ok 1 (acpu_speed 0) SETRATE_HOTPLUG
      (at_1512_8960 be_ok) = Ok (tt, st') ∧
    st_l2_indirect st' = st_l2_indirect (at_1512_8960 be_ok).
Proof.
  apply (set_speed_hotplug_spares_mux plat_8960 be_ok 1 (acpu_speed 0)
           (at_1512_8960 be_ok) (sc_of (at_1512_8960 be_ok) 1)
           (CS 2160000 HFPLL 1 0 0x40) (CS STBY_KHZ QSB 0 0 0x00)).
  - vm_compute. reflexivity.
  - vm_compute. reflexivity.
  - vm_compute. reflexivity.
  - discriminate.
  - right. discriminate.
Defined.

Lemma set_rate_unknown_rate_witness :
  ∃ fp,
    acpuclk_8960_set_rate plat_8960 be_ok 0 1000000 SETRATE_CPUFREQ
      (boot_8960 be_ok)
    = Ok (- EINVAL, set_footprint fp (boot_8960 be_ok)).
Proof.
  apply (set_rate_unknown_rate plat_8960 be_ok 0 1000000 SETRATE_CPUFREQ
           (boot_8960 be_ok) (sc_of (boot_8960 be_ok) 0)
           (CS 2160000 HFPLL 1 0 0x40)).
  - reflexivity.
  - vm_compute. reflexivity.
  - vm_compute. reflexivity.
  - discriminate.
  - apply Forall_forall. apply (bool_decide_unpack _). vm_compute. exact I.
Defined.

Lemma boot_8960_well_formed : well_formed plat_8960 (boot_8960 be_ok).
Proof.
  split; [|split; [|split; [|split]]].
  - intros l Hl. vm_compute in Hl.
    repeat (apply elem_of_cons in Hl as [-> | Hl];
            [eexists; split; [reflexivity | vm_compute; lia]|]).
    by apply elem_of_nil in Hl.
  - vm_compute. lia.
  - eexists. split; [vm_compute; reflexivity|].
    unfold speed_ok. vm_compute. by eexists.
  - intros cpu Hcpu. simpl in Hcpu.
    apply elem_of_cons in Hcpu as [-> | Hcpu];
      [|apply elem_of_cons in Hcpu as [-> | Hcpu];
        [|by apply elem_of_nil in Hcpu]].
    all: eexists; split; [vm_compute; reflexivity|].
    all: intros j Hj; vm_compute in Hj; injection Hj as <-; vm_compute; lia.
  - intros cpu Hcpu. simpl in Hcpu.
    apply elem_of_cons in Hcpu as [-> | Hcpu];
      [|apply elem_of_cons in Hcpu as [-> | Hcpu];
        [|by apply elem_of_nil in Hcpu]].
    all: eexists; split; [vm_compute; reflexivity|].
    all: unfold speed_ok; vm_compute; by eexists.
Qed.

Lemma set_rate_keeps_well_formed_witness :
  ∃ rc st',
    acpuclk_8960_set_rate plat_8960 be_core_floor 0 384000 SETRATE_CPUFREQ
      (boot_8960 be_ok) = Ok (rc, st') ∧
    well_formed plat_8960 st' ∧
    tables_are (st_acpu_freq_tbl (boot_8960 be_ok))
      (st_l2_freq_tbl (boot_8960 be_ok)) st'.
Proof.
  apply (set_rate_keeps_well_formed plat_8960 be_core_floor 0 384000
           SETRATE_CPUFREQ (boot_8960 be_ok)).
  - exact boot_8960_well_formed.
  - by left.
Defined.

Lemma run_ops_keep_well_formed_witness :
  ∃ st',
    run_ops plat_8960 be_ok hotplug_cycle (boot_8960 be_ok) = Ok (tt, st') ∧
    well_formed plat_8960 st'.
Proof.
  apply (run_ops_keep_well_formed plat_8960 be_ok hotplug_cycle
           (boot_8960 be_ok)).
  - exact boot_8960_well_formed.
  - unfold hotplug_cycle.
    repeat first [apply Forall_cons; split | apply Forall_nil]; simpl;
      first [exact I | by left | by right; left].
Defined.

Lemma init_is_well_formed_witness :
  0 = 0 ∧ well_formed plat_8960 (boot_8960 be_ok) ∧
  ∀ cpu, cpu ∈ cpu_online_mask plat_8960 →
         acpuclk_8960_get_rate cpu (boot_8960 be_ok)
         = Ok (2160000, boot_8960 be_ok) ∧
         sc_field first_set_call cpu true (boot_8960 be_ok).
Proof.
  apply (init_is_well_formed plat_8960 be_ok hdr_8960 (λ _, 0) (λ _, 0) 0
           (boot_8960 be_ok)).
  - vm_compute. reflexivity.
  - intros cpu Hcpu. simpl in Hcpu. unfold is_cpu, L2.
    apply elem_of_cons in Hcpu as [-> | Hcpu];
      [lia | apply elem_of_cons in Hcpu as [-> | Hcpu];
             [lia | by apply elem_of_nil in Hcpu]].
Defined.


Lemma rail_sequencer_steps_witness :
  ∃ s1 mem dig core s2 mid core' dig' mem',
    reports (mem ++ dig ++ core) 0 ∧
    st_trace (at_384_8960 be_core_floor)
    = st_trace (at_1512_8960 be_core_floor) ++ (mem ++ dig ++ core) ++ mid
        ++ core' ++ dig' ++ mem' ∧
    spec_step_outcome
      (900000 < cached s1 VREG_CORE ∧ SETRATE_CPUFREQ ≠ SETRATE_HOTPLUG)
      (rail_call (sc_of (at_1512_8960 be_core_floor) 0) VREG_CORE 900000)
      (cached s1 VREG_CORE) 900000 [] core' (cached s2 VREG_CORE) ∧
    sc_field sc_vreg 0 (sc_vreg s2) (at_384_8960 be_core_floor).
Proof.
  destruct (rail_sequencer_steps plat_8960 be_core_floor 0 900000 1050000
              1050000 SETRATE_CPUFREQ (at_1512_8960 be_core_floor)
              (sc_of (at_1512_8960 be_core_floor) 0)) as (_ & _ & H).
  - vm_compute. reflexivity.
  - destruct (H 384000 2%nat
                (AL 1 (CS 384000 HFPLL 2 0 0x20) (L2_ 7) 900000)
                (CS 1512000 HFPLL 1 0 0x38) 0 (at_384_8960 be_core_floor))
      as (s1 & mem & dig & core & _ & _ & _ & Hrep
          & [(Hne & _) | (_ & s2 & mid & core' & dig' & mem' & Ht & Hc & _ & _
                          & Hf)]).
    + vm_compute. reflexivity.
    + left. reflexivity.
    + vm_compute. reflexivity.
    + intros Hk. vm_compute in Hk. discriminate Hk.
    + vm_compute. reflexivity.
    + vm_compute. reflexivity.
    + vm_compute. reflexivity.
    + vm_compute. reflexivity.
    + vm_compute. reflexivity.
    + destruct (Hne eq_refl).
    + exists s1, mem, dig, core, s2, mid, core', dig', mem'.
      split; [exact Hrep | split; [exact Ht | split; [exact Hc | exact Hf]]].
Defined.
